(** * kiglent: vectors, matrices, event dispatch, keys, shapes, groups, audio drivers

    A shallow embedding of the parts of the kiglent sources that the
    specification talks about, followed by the properties proved of them.

    Conventions of the embedding.
    - A Python call that may raise is a value of [Py.result]: [Ok v] or
      [Raise e].  [try: ... except E: ...] is [Py.try_except].
    - A module's global names at run time are a [Py.namespace]; reading a
      global that is not there raises [NameError].
    - Numbers are any carrier with the Python number operations ([Num]);
      laws of exact arithmetic ([NumLaws]) are assumed only by the theorems
      that say so.  Two carriers are given: the rationals, which satisfy
      the laws, and binary64 floating point, Python's [float], which does
      not.
    - A deque is a list whose head is the left end. *)

From Stdlib Require Import ZArith QArith Qcanon Field Ring Lia Ascii String.
From Stdlib Require HexString Floats Uint63.
From stdpp Require Import gmap strings list pretty.

(** ** Python results, exceptions and name lookup *)

Module Py.

Inductive exn : Type :=
| ValueError (msg : string)
| TypeError
| IndexError
| NameError (name : string)
| AttributeError (name : string)
| KeyError (key : string)
| ZeroDivisionError.

Inductive result (A : Type) : Type :=
| Ok (value : A)
| Raise (e : exn).
Arguments Ok {A} value.
Arguments Raise {A} e.

#[global] Instance result_ret : MRet result := fun A x => Ok x.
#[global] Instance result_bind : MBind result := fun A B f m =>
  match m with
  | Ok x => f x
  | Raise e => Raise e
  end.

Definition is_ValueError (e : exn) : bool :=
  match e with ValueError _ => true | _ => false end.

Definition is_TypeError (e : exn) : bool :=
  match e with TypeError => true | _ => false end.

(** [try: body  except E: handler] where [catches] recognises [E]. *)
Definition try_except {A : Type} (body : result A) (catches : exn -> bool)
    (handler : exn -> result A) : result A :=
  match body with
  | Ok x => Ok x
  | Raise e => if catches e then handler e else Raise e
  end.

(** The names bound in a module's global scope. *)
Definition namespace : Type := list string.

(** Evaluating a global name [n]. *)
Definition load_global (g : namespace) (n : string) : result unit :=
  if bool_decide (n ∈ g) then Ok tt else Raise (NameError n).

(** [a, b, c = seq]: the sequence must have exactly three items. *)
Definition unpack3 {A : Type} (seq : list A) : result (A * A * A) :=
  match seq with
  | [x; y; z] => Ok (x, y, z)
  | _ => Raise (ValueError "wrong number of values to unpack")
  end.

Definition unpack4 {A : Type} (seq : list A) : result (A * A * A * A) :=
  match seq with
  | [x; y; z; w] => Ok (x, y, z, w)
  | _ => Raise (ValueError "wrong number of values to unpack")
  end.

Definition unpack9 {A : Type} (seq : list A)
    : result (A * A * A * A * A * A * A * A * A) :=
  match seq with
  | [x1; x2; x3; x4; x5; x6; x7; x8; x9] =>
      Ok (x1, x2, x3, x4, x5, x6, x7, x8, x9)
  | _ => Raise (ValueError "wrong number of values to unpack")
  end.

Definition unpack16 {A : Type} (seq : list A)
    : result (A * A * A * A * A * A * A * A * A * A * A * A * A * A * A * A) :=
  match seq with
  | [x1; x2; x3; x4; x5; x6; x7; x8; x9; x10; x11; x12; x13; x14; x15; x16] =>
      Ok (x1, x2, x3, x4, x5, x6, x7, x8, x9, x10, x11, x12, x13, x14, x15, x16)
  | _ => Raise (ValueError "wrong number of values to unpack")
  end.

(** [first, second, third, *rest = seq]: at least three items. *)
Definition unpack3_star {A : Type} (seq : list A) : result (A * A * A * list A) :=
  match seq with
  | x :: y :: z :: rest => Ok (x, y, z, rest)
  | _ => Raise (ValueError "not enough values to unpack")
  end.

End Py.

Import Py.

(** ** Numbers *)

(** The operations the sources use on numbers.  [num_of_Z] reads an
    integer-valued literal ([0], [1.0], [2.0], [255]); [num_eqb] is [==]. *)
Class Num (F : Type) : Type := {
  num_of_Z : Z -> F;
  num_add : F -> F -> F;
  num_sub : F -> F -> F;
  num_mul : F -> F -> F;
  num_neg : F -> F;
  num_div : F -> F -> F;
  num_eqb : F -> F -> bool
}.

Declare Scope num_scope.
Delimit Scope num_scope with num.
Infix "+" := num_add : num_scope.
Infix "-" := num_sub : num_scope.
Infix "*" := num_mul : num_scope.
Notation "- x" := (num_neg x) : num_scope.
Notation "'zero'" := (num_of_Z 0%Z).
Notation "'one'" := (num_of_Z 1%Z).

(** [x / y]: Python raises on a zero divisor. *)
Definition truediv {F : Type} `{Num F} (x y : F) : result F :=
  if num_eqb y zero then Raise ZeroDivisionError else Ok (num_div x y).

(** Exact arithmetic: the carrier is a field and [==] decides equality. *)
Class NumLaws (F : Type) `{Num F} : Prop := {
  num_field :
    field_theory zero one num_add num_mul num_sub num_neg num_div
      (fun x => num_div one x) (@eq F);
  num_eqb_eq : forall x y : F, num_eqb x y = true <-> x = y
}.

(** The rationals, as the exact numbers examples are evaluated on. *)
#[global] Instance Qc_Num : Num Qc := {|
  num_of_Z := fun z => Q2Qc (inject_Z z);
  num_add := Qcplus;
  num_sub := Qcminus;
  num_mul := Qcmult;
  num_neg := Qcopp;
  num_div := Qcdiv;
  num_eqb := Qc_eq_bool
|}.

(** Python's [float]: IEEE 754 binary64, with its own [==] (a NaN differs
    from itself, the two zeros are equal) and rounding to nearest.
    [float_of_Z] reads an integer literal of the sources (all of them far
    below 2^53, so that none is rounded). *)
Definition float_of_Z (z : Z) : PrimFloat.float :=
  match z with
  | Z0 => PrimFloat.zero
  | Zpos _ => PrimFloat.of_uint63 (Uint63.of_Z z)
  | Zneg p => PrimFloat.opp (PrimFloat.of_uint63 (Uint63.of_Z (Zpos p)))
  end.

#[global] Instance float_Num : Num PrimFloat.float := {|
  num_of_Z := float_of_Z;
  num_add := PrimFloat.add;
  num_sub := PrimFloat.sub;
  num_mul := PrimFloat.mul;
  num_neg := PrimFloat.opp;
  num_div := PrimFloat.div;
  num_eqb := PrimFloat.eqb
|}.

(** A Python operand of vector arithmetic: a number, or something
    tuple-like (a tuple, a list, a vector, a matrix) given by its items. *)
Inductive value (F : Type) : Type :=
| Number (x : F)
| Sequence (items : list F).
Arguments Number {F} x.
Arguments Sequence {F} items.

(** [other[i]]: a number is not subscriptable. *)
Definition getitem {F : Type} (other : value F) (i : nat) : result F :=
  match other with
  | Number _ => Raise TypeError
  | Sequence items =>
      match items !! i with
      | Some x => Ok x
      | None => Raise IndexError
      end
  end.

(** [x + other], [other + x] and [x * other] for a number [x]: a sequence
    is no number. *)
Definition add_value {F : Type} `{Num F} (x : F) (other : value F) : result F :=
  match other with
  | Number s => Ok (x + s)%num
  | Sequence _ => Raise TypeError
  end.

Definition value_add {F : Type} `{Num F} (other : value F) (x : F) : result F :=
  match other with
  | Number s => Ok (s + x)%num
  | Sequence _ => Raise TypeError
  end.

Definition mul_value {F : Type} `{Num F} (x : F) (other : value F) : result F :=
  match other with
  | Number s => Ok (x * s)%num
  | Sequence _ => Raise TypeError
  end.

(** [other == 0]. *)
Definition value_is_zero {F : Type} `{Num F} (other : value F) : bool :=
  match other with
  | Number s => num_eqb s zero
  | Sequence _ => false
  end.

(** [x - other], [x * other] is above; [x / other], which raises on a zero
    divisor. *)
Definition sub_value {F : Type} `{Num F} (x : F) (other : value F) : result F :=
  match other with
  | Number s => Ok (x - s)%num
  | Sequence _ => Raise TypeError
  end.

Definition div_value {F : Type} `{Num F} (x : F) (other : value F) : result F :=
  match other with
  | Number s => truediv x s
  | Sequence _ => Raise TypeError
  end.

(** [x ** 2] on exact numbers. *)
Definition square {F : Type} `{Num F} (x : F) : F := (x * x)%num.

(** The comparison [x < y] of two numbers. *)
Class NumOrd (F : Type) : Type := {
  num_ltb : F -> F -> bool
}.

#[global] Instance Qc_NumOrd : NumOrd Qc := {|
  num_ltb := fun x y => match (x ?= y)%Qc with Lt => true | _ => false end
|}.

(** [<] is a strict order. *)
Class NumOrdLaws (F : Type) `{NumOrd F} : Prop := {
  num_ltb_irrefl : forall x : F, num_ltb x x = false;
  num_ltb_trans : forall x y z : F,
    num_ltb x y = true -> num_ltb y z = true -> num_ltb x z = true
}.

(** ** kiglent/vector.py *)

(** The module function [clamp(num, minimum, maximum)]. *)
Definition clamp {F : Type} `{NumOrd F} (num minimum maximum : F) : F :=
  if num_ltb num minimum then minimum
  else if num_ltb maximum num then maximum
  else num.

Module Vec2.
Section WithNum.
Context {F : Type} `{Num F}.
Local Open Scope num_scope.

Record t : Type := Vec2 { x : F; y : F }.

Definition items (self : t) : list F := [x self; y self].

(** Tuple equality, [self == other]. *)
Definition eqb (self other : t) : bool :=
  num_eqb (x self) (x other) && num_eqb (y self) (y other).

Definition add (self : t) (other : value F) : result t :=
  try_except
    (o0 ← getitem other 0; o1 ← getitem other 1;
     Ok (Vec2 (x self + o0) (y self + o1)))
    is_TypeError
    (fun _ =>
       r0 ← add_value (x self) other; r1 ← add_value (y self) other;
       Ok (Vec2 r0 r1)).

Definition radd (self : t) (other : value F) : result t :=
  try_except (add self other) is_TypeError
    (fun err => if value_is_zero other then Ok self else Raise err).

Definition sub (self : t) (other : value F) : result t :=
  try_except
    (o0 ← getitem other 0; o1 ← getitem other 1;
     Ok (Vec2 (x self - o0) (y self - o1)))
    is_TypeError
    (fun _ =>
       r0 ← sub_value (x self) other; r1 ← sub_value (y self) other;
       Ok (Vec2 r0 r1)).

Definition mul (self : t) (scalar : value F) : result t :=
  try_except
    (s0 ← getitem scalar 0; s1 ← getitem scalar 1;
     Ok (Vec2 (x self * s0) (y self * s1)))
    is_TypeError
    (fun _ =>
       r0 ← mul_value (x self) scalar; r1 ← mul_value (y self) scalar;
       Ok (Vec2 r0 r1)).

Definition truediv (self : t) (scalar : value F) : result t :=
  try_except
    (s0 ← getitem scalar 0; q0 ← truediv (x self) s0;
     s1 ← getitem scalar 1; q1 ← truediv (y self) s1;
     Ok (Vec2 q0 q1))
    is_TypeError
    (fun _ =>
       r0 ← div_value (x self) scalar; r1 ← div_value (y self) scalar;
       Ok (Vec2 r0 r1)).

Definition neg (self : t) : t := Vec2 (- x self) (- y self).

(** [__bool__]: [self.x != 0.0 or self.y != 0.0]. *)
Definition to_bool (self : t) : bool :=
  negb (num_eqb (x self) zero) || negb (num_eqb (y self) zero).

Definition dot (self : t) (other : value F) : result F :=
  o0 ← getitem other 0; o1 ← getitem other 1;
  Ok (x self * o0 + y self * o1).

Definition lerp (self : t) (other : value F) (amount : F) : result t :=
  o0 ← getitem other 0; o1 ← getitem other 1;
  Ok (Vec2 (x self + (amount * (o0 - x self)))
           (y self + (amount * (o1 - y self)))).

Definition reflect (self : t) (vector : value F) : result t :=
  d ← dot self vector;
  let twice_dot_value := d * num_of_Z 2 in
  v0 ← getitem vector 0; v1 ← getitem vector 1;
  Ok (Vec2 (x self - twice_dot_value * v0) (y self - twice_dot_value * v1)).

(** [min_x, min_y = bound[0], bound[1]], or the bound itself for both
    when it is a number. *)
Definition bounds (bound : value F) : result (F * F) :=
  try_except
    (b0 ← getitem bound 0; b1 ← getitem bound 1; Ok (b0, b1))
    is_TypeError
    (fun err =>
       match bound with
       | Number b => Ok (b, b)
       | Sequence _ => Raise err
       end).

Definition clamp `{NumOrd F} (self : t) (min_val max_val : value F) : result t :=
  '(min_x, min_y) ← bounds min_val;
  '(max_x, max_y) ← bounds max_val;
  Ok (Vec2 (clamp (x self) min_x max_x)
           (clamp (y self) min_y max_y)).

(** [sum(vectors)]: Python starts from the integer [0]; [0 + v] is
    [v.__radd__(0)] and every later step is [total.__add__(v)].  [None]
    is the integer [0] itself, the sum of no vector. *)
Fixpoint sum_onto (total : t) (vectors : list t) : result t :=
  match vectors with
  | [] => Ok total
  | v :: rest => total' ← add total (Sequence (items v)); sum_onto total' rest
  end.

Definition sum_of (vectors : list t) : result (option t) :=
  match vectors with
  | [] => Ok None
  | v :: rest =>
      total ← radd v (Number zero); total' ← sum_onto total rest;
      Ok (Some total')
  end.

End WithNum.
Arguments t F : clear implicits.
End Vec2.

Module Vec3.
Section WithNum.
Context {F : Type} `{Num F}.
Local Open Scope num_scope.

Record t : Type := Vec3 { x : F; y : F; z : F }.

Definition items (self : t) : list F := [x self; y self; z self].

Definition eqb (self other : t) : bool :=
  num_eqb (x self) (x other) && num_eqb (y self) (y other)
  && num_eqb (z self) (z other).

Definition add (self : t) (other : value F) : result t :=
  try_except
    (o0 ← getitem other 0; o1 ← getitem other 1; o2 ← getitem other 2;
     Ok (Vec3 (x self + o0) (y self + o1) (z self + o2)))
    is_TypeError
    (fun _ =>
       r0 ← add_value (x self) other; r1 ← add_value (y self) other;
       r2 ← add_value (z self) other;
       Ok (Vec3 r0 r1 r2)).

Definition radd (self : t) (other : value F) : result t :=
  try_except (add self other) is_TypeError
    (fun err => if value_is_zero other then Ok self else Raise err).

Definition mul (self : t) (scalar : value F) : result t :=
  try_except
    (s0 ← getitem scalar 0; s1 ← getitem scalar 1; s2 ← getitem scalar 2;
     Ok (Vec3 (x self * s0) (y self * s1) (z self * s2)))
    is_TypeError
    (fun _ =>
       r0 ← mul_value (x self) scalar; r1 ← mul_value (y self) scalar;
       r2 ← mul_value (z self) scalar;
       Ok (Vec3 r0 r1 r2)).

Definition cross (self : t) (other : value F) : result t :=
  o0 ← getitem other 0; o1 ← getitem other 1; o2 ← getitem other 2;
  Ok (Vec3 ((y self * o2) - (z self * o1))
           ((z self * o0) - (x self * o2))
           ((x self * o1) - (y self * o0))).

Definition dot (self : t) (other : value F) : result F :=
  o0 ← getitem other 0; o1 ← getitem other 1; o2 ← getitem other 2;
  Ok (x self * o0 + y self * o1 + z self * o2).

Definition sub (self : t) (other : value F) : result t :=
  try_except
    (o0 ← getitem other 0; o1 ← getitem other 1; o2 ← getitem other 2;
     Ok (Vec3 (x self - o0) (y self - o1) (z self - o2)))
    is_TypeError
    (fun _ =>
       r0 ← sub_value (x self) other; r1 ← sub_value (y self) other;
       r2 ← sub_value (z self) other;
       Ok (Vec3 r0 r1 r2)).

Definition neg (self : t) : t := Vec3 (- x self) (- y self) (- z self).

Definition lerp (self : t) (other : value F) (alpha : F) : result t :=
  o0 ← getitem other 0; o1 ← getitem other 1; o2 ← getitem other 2;
  Ok (Vec3 (x self + (alpha * (o0 - x self)))
           (y self + (alpha * (o1 - y self)))
           (z self + (alpha * (o2 - z self)))).

End WithNum.
Arguments t F : clear implicits.
End Vec3.

Module Vec4.
Section WithNum.
Context {F : Type} `{Num F}.
Local Open Scope num_scope.

Record t : Type := Vec4 { x : F; y : F; z : F; w : F }.

Definition items (self : t) : list F := [x self; y self; z self; w self].

Definition eqb (self other : t) : bool :=
  num_eqb (x self) (x other) && num_eqb (y self) (y other)
  && num_eqb (z self) (z other) && num_eqb (w self) (w other).

Definition add (self : t) (other : value F) : result t :=
  try_except
    (o0 ← getitem other 0; o1 ← getitem other 1; o2 ← getitem other 2;
     o3 ← getitem other 3;
     Ok (Vec4 (o0 + x self) (o1 + y self) (o2 + z self) (o3 + w self)))
    is_TypeError
    (fun _ =>
       r0 ← value_add other (x self); r1 ← value_add other (y self);
       r2 ← value_add other (z self); r3 ← value_add other (w self);
       Ok (Vec4 r0 r1 r2 r3)).

Definition radd (self : t) (other : value F) : result t :=
  try_except (add self other) is_TypeError
    (fun err => if value_is_zero other then Ok self else Raise err).

Definition sub (self : t) (other : value F) : result t :=
  try_except
    (o0 ← getitem other 0; o1 ← getitem other 1; o2 ← getitem other 2;
     o3 ← getitem other 3;
     Ok (Vec4 (x self - o0) (y self - o1) (z self - o2) (w self - o3)))
    is_TypeError
    (fun _ =>
       r0 ← sub_value (x self) other; r1 ← sub_value (y self) other;
       r2 ← sub_value (z self) other; r3 ← sub_value (w self) other;
       Ok (Vec4 r0 r1 r2 r3)).

Definition neg (self : t) : t :=
  Vec4 (- x self) (- y self) (- z self) (- w self).

End WithNum.
Arguments t F : clear implicits.
End Vec4.

(** *** Swizzles: [__getattr__] of the three vector classes *)

Module Swizzle.
Section WithNum.
Context {F : Type}.

(** What a swizzle returns: a vector of as many components as letters. *)
Inductive swizzled : Type :=
| AsVec2 (v : Vec2.t F)
| AsVec3 (v : Vec3.t F)
| AsVec4 (v : Vec4.t F).

Inductive vec_class : Type := ClassVec2 | ClassVec3 | ClassVec4.

Definition is_lookup_error (e : exn) : bool :=
  match e with
  | ValueError _ | KeyError _ | TypeError => true
  | _ => false
  end.

(** [{2: Vec2, 3: Vec3, 4: Vec4}[n]]. *)
Definition class_of_length (n : nat) : result vec_class :=
  match n with
  | 2 => Ok ClassVec2
  | 3 => Ok ClassVec3
  | 4 => Ok ClassVec4
  | _ => Raise (KeyError (pretty n))
  end.

(** [axes.index(c)]. *)
Definition index (axes : string) (c : ascii) : result nat :=
  match String.index 0 (String c EmptyString) axes with
  | Some i => Ok i
  | None => Raise (ValueError "substring not found")
  end.

(** [(self[axes.index(c)] for c in attrs)], consumed from the left. *)
Fixpoint picks (axes : string) (items : list F) (attrs : list ascii)
    : result (list F) :=
  match attrs with
  | [] => Ok []
  | c :: rest =>
      i ← index axes c;
      p ← match items !! i with Some p => Ok p | None => Raise IndexError end;
      ps ← picks axes items rest;
      Ok (p :: ps)
  end.

(** [vec_class( *components )]. *)
Definition construct (cls : vec_class) (components : list F) : result swizzled :=
  match cls, components with
  | ClassVec2, [a; b] => Ok (AsVec2 (Vec2.Vec2 a b))
  | ClassVec3, [a; b; c] => Ok (AsVec3 (Vec3.Vec3 a b c))
  | ClassVec4, [a; b; c; d] => Ok (AsVec4 (Vec4.Vec4 a b c d))
  | _, _ => Raise TypeError
  end.

Definition no_attribute (name attrs : string) : string :=
  "'" +:+ name +:+ "' has no attribute: '" +:+ attrs +:+ "'.".

(** The body the three [__getattr__] share, up to the class name [name]
    of the message and the letters [axes] of the class. *)
Definition getattr (name axes : string) (items : list F) (attrs : string)
    : result swizzled :=
  try_except
    (cls ← class_of_length (String.length attrs);
     components ← picks axes items (list_ascii_of_string attrs);
     construct cls components)
    is_lookup_error
    (fun _ => Raise (AttributeError (no_attribute name attrs))).

Definition Vec2_getattr (self : Vec2.t F) (attrs : string) : result swizzled :=
  getattr "Vec2" "xy" (Vec2.items self) attrs.

Definition Vec3_getattr (self : Vec3.t F) (attrs : string) : result swizzled :=
  getattr "Vec3" "xyz" (Vec3.items self) attrs.

Definition Vec4_getattr (self : Vec4.t F) (attrs : string) : result swizzled :=
  getattr "Vec4" "xyzw" (Vec4.items self) attrs.

(** The component of a [Vec3] that a letter names. *)
Definition Vec3_component (self : Vec3.t F) (c : ascii) : option F :=
  if Ascii.eqb c "x" then Some (Vec3.x self)
  else if Ascii.eqb c "y" then Some (Vec3.y self)
  else if Ascii.eqb c "z" then Some (Vec3.z self)
  else None.

End WithNum.
Arguments swizzled F : clear implicits.
End Swizzle.

(** ** Python slices of a tuple *)

(** Where a slice bound [i] falls in a sequence of [len] items: a
    negative bound counts from the end, and both ends are clipped. *)
Definition slice_bound (len : nat) (i : Z) : nat :=
  if (i <? 0)%Z then Z.to_nat (Z.max 0 (i + Z.of_nat len))
  else Nat.min len (Z.to_nat i).

(** Every [step]-th item of [l], after skipping [skip] items. *)
Fixpoint every {A : Type} (skip step : nat) (l : list A) : list A :=
  match l with
  | [] => []
  | item :: rest =>
      match skip with
      | 0 => item :: every (step - 1) step rest
      | S skip' => every skip' step rest
      end
  end.

(** [l[start::step]] and [l[start:stop]], for a positive [step]. *)
Definition slice_from {A : Type} (l : list A) (start : Z) (step : nat) : list A :=
  every 0 step (drop (slice_bound (length l) start) l).

Definition slice {A : Type} (l : list A) (start stop : Z) : list A :=
  take (slice_bound (length l) stop - slice_bound (length l) start)
       (drop (slice_bound (length l) start) l).

(** ** kiglent/matrix.py *)

(** [typing.TYPE_CHECKING] is [False] whenever the program runs. *)
Definition TYPE_CHECKING : bool := false.

(** The global names of the module once it is imported, in the order its
    statements bind them: [annotations] and the three imported modules,
    the names [Vec3] and [Vec4] only when the guarded import
    [if _typing.TYPE_CHECKING: from kiglent.vector import Vec3, Vec4]
    is executed, and the three classes.  (The built-in names, which a
    lookup tries next, have no [Vec3] or [Vec4] either.) *)
Definition matrix_globals (type_checking : bool) : namespace :=
  ["annotations"; "_math"; "_typing"; "_warnings"]
  ++ (if type_checking then ["Vec3"; "Vec4"] else [])
  ++ ["Mat3"; "Mat4"; "Quaternion"].

Definition singular_warning : string :=
  "Unable to calculate inverse of singular Matrix".

Module Mat3.
Section WithNum.
Context {F : Type} `{Num F}.
Local Open Scope num_scope.

Record t : Type := Mat3 {
  a : F; b : F; c : F;
  d : F; e : F; f : F;
  g : F; h : F; i : F
}.

(** [Mat3()]: the defaults of the nine fields. *)
Definition identity : t :=
  Mat3 one zero zero
       zero one zero
       zero zero one.

Definition items (self : t) : list F :=
  [a self; b self; c self; d self; e self; f self; g self; h self; i self].

Definition eqb (self other : t) : bool :=
  forallb (fun p => num_eqb (fst p) (snd p)) (zip (items self) (items other)).

(** What [self @ other] returns: a matrix or a vector. *)
Inductive product : Type :=
| IsMat3 (m : t)
| IsVec3 (v : Vec3.t F).

(** [__matmul__], run with the module's globals [globals]. *)
Definition matmul (globals : namespace) (self : t) (other : list F)
    : result product :=
  try_except
    (let '(Mat3 a11 a12 a13 a21 a22 a23 a31 a32 a33) := self in
     '(b11, b12, b13, b21, b22, b23, b31, b32, b33) ← unpack9 other;
     Ok (IsMat3 (Mat3
       (a11 * b11 + a21 * b12 + a31 * b13) (a12 * b11 + a22 * b12 + a32 * b13) (a13 * b11 + a23 * b12 + a33 * b13)
       (a11 * b21 + a21 * b22 + a31 * b23) (a12 * b21 + a22 * b22 + a32 * b23) (a13 * b21 + a23 * b22 + a33 * b23)
       (a11 * b31 + a21 * b32 + a31 * b33) (a12 * b31 + a22 * b32 + a32 * b33) (a13 * b31 + a23 * b32 + a33 * b33))))
    is_ValueError
    (fun _ =>
       '(x, y, z) ← unpack3 other;
       let '(Mat3 a11 a12 a13 a21 a22 a23 a31 a32 a33) := self in
       _ ← load_global globals "Vec3";
       Ok (IsVec3 (Vec3.Vec3
         (a11 * x + a21 * y + a31 * z)
         (a12 * x + a22 * y + a32 * z)
         (a13 * x + a23 * y + a33 * z)))).

Definition translate (globals : namespace) (self : t) (tx ty : F)
    : result product :=
  matmul globals self
    (items (Mat3 one zero zero zero one zero (- tx) ty one)).

(** The determinant as [__invert__] computes it. *)
Definition det (self : t) : F :=
  let '(Mat3 a11 a12 a13 a21 a22 a23 a31 a32 a33) := self in
  let a := a22 * a33 - a32 * a23 in
  let d := a32 * a13 - a12 * a33 in
  let g := a12 * a23 - a22 * a13 in
  a11 * a + a21 * d + a31 * g.

(** [__invert__]: the value returned and the warnings emitted. *)
Definition invert (self : t) : result t * list string :=
  let '(Mat3 a11 a12 a13 a21 a22 a23 a31 a32 a33) := self in
  let a := a22 * a33 - a32 * a23 in
  let b := a31 * a23 - a21 * a33 in
  let c := a21 * a32 - a22 * a31 in
  let d := a32 * a13 - a12 * a33 in
  let e := a11 * a33 - a31 * a13 in
  let f := a31 * a12 - a11 * a32 in
  let g := a12 * a23 - a22 * a13 in
  let h := a21 * a13 - a11 * a23 in
  let i := a11 * a22 - a21 * a12 in
  let det := a11 * a + a21 * d + a31 * g in
  if num_eqb det zero then (Ok self, [singular_warning])
  else
    (rep ← truediv one det;
     Ok (Mat3 (a * rep) (b * rep) (c * rep)
              (d * rep) (e * rep) (f * rep)
              (g * rep) (h * rep) (i * rep)),
     []).

(** [Mat3( *items )]: fields the items do not reach keep their defaults. *)
Definition of_items (args : list F) : result t :=
  match args ++ drop (length args) (items identity) with
  | [a'; b'; c'; d'; e'; f'; g'; h'; i'] => Ok (Mat3 a' b' c' d' e' f' g' h' i')
  | _ => Raise TypeError
  end.

Definition scale (globals : namespace) (self : t) (sx sy : F) : result product :=
  rx ← truediv one sx;
  ry ← truediv one sy;
  matmul globals self (items (Mat3 rx zero zero zero ry zero zero zero one)).

Definition shear (globals : namespace) (self : t) (sx sy : F) : result product :=
  matmul globals self (items (Mat3 one sy zero sx one zero zero zero one)).

(** The right operand of [+] and [-]: a [Mat3], or anything else. *)
Inductive addend : Type :=
| IsInstance (other : t)
| NotInstance.

Definition add (self : t) (other : addend) : result t :=
  match other with
  | NotInstance => Raise TypeError
  | IsInstance other =>
      of_items (map (fun so => fst so + snd so) (zip (items self) (items other)))
  end.

Definition sub (self : t) (other : addend) : result t :=
  match other with
  | NotInstance => Raise TypeError
  | IsInstance other =>
      of_items (map (fun so => fst so - snd so) (zip (items self) (items other)))
  end.

Definition neg (self : t) : result t :=
  of_items (map (fun v => - v) (items self)).

End WithNum.
Arguments t F : clear implicits.
Arguments product F : clear implicits.
End Mat3.

Module Mat4.
Section WithNum.
Context {F : Type} `{Num F}.
Local Open Scope num_scope.

Record t : Type := Mat4 {
  a : F; b : F; c : F; d : F;
  e : F; f : F; g : F; h : F;
  i : F; j : F; k : F; l : F;
  m : F; n : F; o : F; p : F
}.

(** [Mat4()]: the defaults of the sixteen fields. *)
Definition identity : t :=
  Mat4 one zero zero zero
       zero one zero zero
       zero zero one zero
       zero zero zero one.

Definition items (self : t) : list F :=
  [a self; b self; c self; d self; e self; f self; g self; h self;
   i self; j self; k self; l self; m self; n self; o self; p self].

Definition eqb (self other : t) : bool :=
  forallb (fun p => num_eqb (fst p) (snd p)) (zip (items self) (items other)).

Definition orthogonal_projection (left right bottom top z_near z_far : F)
    : result t :=
  let width := right - left in
  let height := top - bottom in
  let depth := z_far - z_near in
  s_x ← truediv (num_of_Z 2) width;
  s_y ← truediv (num_of_Z 2) height;
  s_z ← truediv (num_of_Z 2) (- depth);
  t_x ← truediv (- (right + left)) width;
  t_y ← truediv (- (top + bottom)) height;
  t_z ← truediv (- (z_far + z_near)) depth;
  Ok (Mat4 s_x zero zero zero
           zero s_y zero zero
           zero zero s_z zero
           t_x t_y t_z one).

(** The determinant as [__invert__] computes it. *)
Definition det (self : t) : F :=
  let '(Mat4 a11 a12 a13 a14 a21 a22 a23 a24 a31 a32 a33 a34 a41 a42 a43 a44) := self in
  let a := a33 * a44 - a34 * a43 in
  let b := a32 * a44 - a34 * a42 in
  let c := a32 * a43 - a33 * a42 in
  let d := a31 * a44 - a34 * a41 in
  let e := a31 * a43 - a33 * a41 in
  let f := a31 * a42 - a32 * a41 in
  (a11 * (a22 * a - a23 * b + a24 * c) -
   a12 * (a21 * a - a23 * d + a24 * e) +
   a13 * (a21 * b - a22 * d + a24 * f) -
   a14 * (a21 * c - a22 * e + a23 * f)).

(** [__invert__]: the value returned and the warnings emitted. *)
Definition invert (self : t) : result t * list string :=
  let '(Mat4 a11 a12 a13 a14 a21 a22 a23 a24 a31 a32 a33 a34 a41 a42 a43 a44) := self in
  let a := a33 * a44 - a34 * a43 in
  let b := a32 * a44 - a34 * a42 in
  let c := a32 * a43 - a33 * a42 in
  let d := a31 * a44 - a34 * a41 in
  let e := a31 * a43 - a33 * a41 in
  let f := a31 * a42 - a32 * a41 in
  let g := a23 * a44 - a24 * a43 in
  let h := a22 * a44 - a24 * a42 in
  let i := a22 * a43 - a23 * a42 in
  let j := a23 * a34 - a24 * a33 in
  let k := a22 * a34 - a24 * a32 in
  let l := a22 * a33 - a23 * a32 in
  let m := a21 * a44 - a24 * a41 in
  let n := a21 * a43 - a23 * a41 in
  let o := a21 * a34 - a24 * a31 in
  let p := a21 * a33 - a23 * a31 in
  let q := a21 * a42 - a22 * a41 in
  let r := a21 * a32 - a22 * a31 in
  let det :=
    (a11 * (a22 * a - a23 * b + a24 * c) -
     a12 * (a21 * a - a23 * d + a24 * e) +
     a13 * (a21 * b - a22 * d + a24 * f) -
     a14 * (a21 * c - a22 * e + a23 * f)) in
  if num_eqb det zero then (Ok self, [singular_warning])
  else
    (pdet ← truediv one det;
     let ndet := - pdet in
     Ok (Mat4 (pdet * (a22 * a - a23 * b + a24 * c))
              (ndet * (a12 * a - a13 * b + a14 * c))
              (pdet * (a12 * g - a13 * h + a14 * i))
              (ndet * (a12 * j - a13 * k + a14 * l))
              (ndet * (a21 * a - a23 * d + a24 * e))
              (pdet * (a11 * a - a13 * d + a14 * e))
              (ndet * (a11 * g - a13 * m + a14 * n))
              (pdet * (a11 * j - a13 * o + a14 * p))
              (pdet * (a21 * b - a22 * d + a24 * f))
              (ndet * (a11 * b - a12 * d + a14 * f))
              (pdet * (a11 * h - a12 * m + a14 * q))
              (ndet * (a11 * k - a12 * o + a14 * r))
              (ndet * (a21 * c - a22 * e + a23 * f))
              (pdet * (a11 * c - a12 * e + a13 * f))
              (ndet * (a11 * i - a12 * n + a13 * q))
              (pdet * (a11 * l - a12 * p + a13 * r))),
     []).

(** What [self @ other] returns: a matrix or a vector. *)
Inductive product : Type :=
| IsMat4 (m : t)
| IsVec4 (v : Vec4.t F).

(** [__matmul__], run with the module's globals [globals]. *)
Definition matmul (globals : namespace) (self : t) (other : list F)
    : result product :=
  try_except
    (let '(Mat4 a11 a12 a13 a14 a21 a22 a23 a24 a31 a32 a33 a34 a41 a42 a43 a44) := self in
     '(b11, b12, b13, b14, b21, b22, b23, b24, b31, b32, b33, b34, b41, b42, b43, b44) ← unpack16 other;
     Ok (IsMat4 (Mat4
       (a11 * b11 + a21 * b12 + a31 * b13 + a41 * b14) (a12 * b11 + a22 * b12 + a32 * b13 + a42 * b14)
       (a13 * b11 + a23 * b12 + a33 * b13 + a43 * b14) (a14 * b11 + a24 * b12 + a34 * b13 + a44 * b14)
       (a11 * b21 + a21 * b22 + a31 * b23 + a41 * b24) (a12 * b21 + a22 * b22 + a32 * b23 + a42 * b24)
       (a13 * b21 + a23 * b22 + a33 * b23 + a43 * b24) (a14 * b21 + a24 * b22 + a34 * b23 + a44 * b24)
       (a11 * b31 + a21 * b32 + a31 * b33 + a41 * b34) (a12 * b31 + a22 * b32 + a32 * b33 + a42 * b34)
       (a13 * b31 + a23 * b32 + a33 * b33 + a43 * b34) (a14 * b31 + a24 * b32 + a34 * b33 + a44 * b34)
       (a11 * b41 + a21 * b42 + a31 * b43 + a41 * b44) (a12 * b41 + a22 * b42 + a32 * b43 + a42 * b44)
       (a13 * b41 + a23 * b42 + a33 * b43 + a43 * b44) (a14 * b41 + a24 * b42 + a34 * b43 + a44 * b44))))
    is_ValueError
    (fun _ =>
       '(x, y, z, w) ← unpack4 other;
       let '(Mat4 a11 a12 a13 a14 a21 a22 a23 a24 a31 a32 a33 a34 a41 a42 a43 a44) := self in
       _ ← load_global globals "Vec4";
       Ok (IsVec4 (Vec4.Vec4
         (x * a11 + y * a21 + z * a31 + w * a41)
         (x * a12 + y * a22 + z * a32 + w * a42)
         (x * a13 + y * a23 + z * a33 + w * a43)
         (x * a14 + y * a24 + z * a34 + w * a44)))).

(** [Mat4( *items )]: fields the items do not reach keep their defaults. *)
Definition of_items (args : list F) : result t :=
  match args ++ drop (length args) (items identity) with
  | [a'; b'; c'; d'; e'; f'; g'; h'; i'; j'; k'; l'; m'; n'; o'; p'] =>
      Ok (Mat4 a' b' c' d' e' f' g' h' i' j' k' l' m' n' o' p')
  | _ => Raise TypeError
  end.

Definition from_scale (vector : Vec3.t F) : t :=
  Mat4 (Vec3.x vector) zero zero zero
       zero (Vec3.y vector) zero zero
       zero zero (Vec3.z vector) zero
       zero zero zero one.

Definition from_translation (vector : Vec3.t F) : t :=
  Mat4 one zero zero zero
       zero one zero zero
       zero zero one zero
       (Vec3.x vector) (Vec3.y vector) (Vec3.z vector) one.

(** [self[index::4]]. *)
Definition row (self : t) (index : Z) : list F :=
  slice_from (items self) index 4.

(** [self[index * 4: index * 4 + 4]]. *)
Definition column (self : t) (index : Z) : list F :=
  slice (items self) (index * 4) (index * 4 + 4).

Definition scale (self : t) (vector : list F) : result t :=
  let '(Mat4 a11 a12 a13 a14 a21 a22 a23 a24 a31 a32 a33 a34 a41 a42 a43 a44) := self in
  '(x, y, z) ← unpack3 vector;
  Ok (Mat4 (a11 * x) a12 a13 a14
           a21 (a22 * y) a23 a24
           a31 a32 (a33 * z) a34
           a41 a42 a43 a44).

Definition translate (self : t) (vector : list F) : result t :=
  let '(Mat4 a11 a12 a13 a14 a21 a22 a23 a24 a31 a32 a33 a34 a41 a42 a43 a44) := self in
  '(x, y, z) ← unpack3 vector;
  Ok (Mat4 a11 a12 a13 a14
           a21 a22 a23 a24
           a31 a32 a33 a34
           (a11 * x + a21 * y + a31 * z + a41) (a12 * x + a22 * y + a32 * z + a42)
           (a13 * x + a23 * y + a33 * z + a43) (a14 * x + a24 * y + a34 * z + a44)).

Definition transpose (self : t) : result t :=
  of_items (slice_from (items self) 0 4 ++ slice_from (items self) 1 4
            ++ slice_from (items self) 2 4 ++ slice_from (items self) 3 4).

(** The right operand of [+] and [-]: a [Mat4], or anything else. *)
Inductive addend : Type :=
| IsInstance (other : t)
| NotInstance.

Definition add (self : t) (other : addend) : result t :=
  match other with
  | NotInstance => Raise TypeError
  | IsInstance other =>
      of_items (map (fun so => fst so + snd so) (zip (items self) (items other)))
  end.

Definition sub (self : t) (other : addend) : result t :=
  match other with
  | NotInstance => Raise TypeError
  | IsInstance other =>
      of_items (map (fun so => fst so - snd so) (zip (items self) (items other)))
  end.

Definition neg (self : t) : result t :=
  of_items (map (fun v => - v) (items self)).

End WithNum.
Arguments t F : clear implicits.
Arguments product F : clear implicits.
End Mat4.

Module Quaternion.
Section WithNum.
Context {F : Type} `{Num F}.
Local Open Scope num_scope.

Record t : Type := Quaternion { w : F; x : F; y : F; z : F }.

Definition items (self : t) : list F := [w self; x self; y self; z self].

(** [Vec3( *q[1:] )]: look the class up, then build it from the slice. *)
Definition Vec3_of_tail (globals : namespace) (q : t) : result (Vec3.t F) :=
  _ ← load_global globals "Vec3";
  '(vx, vy, vz) ← unpack3 (tail (items q));
  Ok (Vec3.Vec3 vx vy vz).

(** [__matmul__], run with the module's globals [globals]. *)
Definition matmul (globals : namespace) (self other : t) : result t :=
  u ← Vec3_of_tail globals self;
  let a := w self in
  v ← Vec3_of_tail globals other;
  let b := w other in
  uv ← Vec3.dot u (Sequence (Vec3.items v));
  let scalar := a * b - uv in
  va ← Vec3.mul v (Number a);
  ub ← Vec3.mul u (Number b);
  s ← Vec3.add va (Sequence (Vec3.items ub));
  uxv ← Vec3.cross u (Sequence (Vec3.items v));
  vector ← Vec3.add s (Sequence (Vec3.items uxv));
  '(vx, vy, vz) ← unpack3 (Vec3.items vector);
  Ok (Quaternion scalar vx vy vz).

Definition to_mat4 (self : t) : Mat4.t F :=
  let w := w self in
  let x := x self in
  let y := y self in
  let z := z self in
  let a := one - (square y + square z) * num_of_Z 2 in
  let b := num_of_Z 2 * (x * y - z * w) in
  let c := num_of_Z 2 * (x * z + y * w) in
  let e := num_of_Z 2 * (x * y + z * w) in
  let f := one - (square x + square z) * num_of_Z 2 in
  let g := num_of_Z 2 * (y * z - x * w) in
  let i := num_of_Z 2 * (x * z - y * w) in
  let j := num_of_Z 2 * (y * z + x * w) in
  let k := one - (square x + square y) * num_of_Z 2 in
  Mat4.Mat4 a b c zero e f g zero i j k zero zero zero zero one.

Definition to_mat3 (self : t) : result (Mat3.t F) :=
  let w := w self in
  let x := x self in
  let y := y self in
  let z := z self in
  let a := one - (square y + square z) * num_of_Z 2 in
  let b := num_of_Z 2 * (x * y - z * w) in
  let c := num_of_Z 2 * (x * z + y * w) in
  let e := num_of_Z 2 * (x * y + z * w) in
  let f := one - (square x + square z) * num_of_Z 2 in
  let g := num_of_Z 2 * (y * z - x * w) in
  let i := num_of_Z 2 * (x * z - y * w) in
  let j := num_of_Z 2 * (y * z + x * w) in
  let k := one - (square x + square y) * num_of_Z 2 in
  Mat3.of_items [a; b; c; e; f; g; i; j; k].

Definition conjugate (self : t) : t :=
  Quaternion (w self) (- x self) (- y self) (- z self).

Definition dot (self : t) (other : list F) : result F :=
  let '(Quaternion a b c d) := self in
  '(e, f, g, h) ← unpack4 other;
  Ok (a * e + b * f + c * g + d * h).

Definition add (self : t) (other : list F) : result t :=
  let '(Quaternion a b c d) := self in
  '(e, f, g, h) ← unpack4 other;
  Ok (Quaternion (a + e) (b + f) (c + g) (d + h)).

Definition sub (self : t) (other : list F) : result t :=
  let '(Quaternion a b c d) := self in
  '(e, f, g, h) ← unpack4 other;
  Ok (Quaternion (a - e) (b - f) (c - g) (d - h)).

Definition mul (self : t) (scalar : F) : t :=
  let '(w', x') := (w self * scalar, x self * scalar) in
  let '(y', z') := (y self * scalar, z self * scalar) in
  Quaternion w' x' y' z'.

Definition invert (self : t) : result t :=
  let conjugated := conjugate self in
  d ← dot self (items self);
  r ← truediv one d;
  Ok (mul conjugated r).

Definition truediv (globals : namespace) (self other : t) : result t :=
  inverse ← invert self;
  matmul globals inverse other.

End WithNum.
Arguments t F : clear implicits.
End Quaternion.

(** ** kiglent/event.py *)

Module Event.
#[local] Set Warnings "-register-all".
Section WithWorld.
(** [World]: everything a handler can read or change (the dispatcher's own
    tables excepted); [Args]: the [*args, **kwargs] of one dispatch. *)
Context {World Args : Type}.

(** A registered callable: run on the arguments, it changes the world and
    either raises or returns a value, of which dispatch reads only the
    truthiness. *)
Definition callable : Type := Args -> World -> result bool * World.

(** An object that can be pushed as a downstream handler. *)
Inductive handler : Type :=
| EventDispatcher (_events : gmap string (list callable))
                  (_event_dispatcher_handlers : list handler)
| EventHandler (methods : gmap string callable).

(** [EventDispatcher.__new__] of a class with no class events. *)
Definition new : handler := EventDispatcher ∅ [].

(** [self._events[event].appendleft(func)] on a [defaultdict(deque)]. *)
Definition add_event (self : handler) (event : string) (func : callable)
    : result handler :=
  match self with
  | EventDispatcher events handlers =>
      Ok (EventDispatcher
            (<[event := func :: default [] (events !! event)]> events)
            handlers)
  | EventHandler _ => Raise (AttributeError "add_event")
  end.

(** [self._event_dispatcher_handlers.appendleft(handler)]. *)
Definition push_handler (self : handler) (h : handler) : result handler :=
  match self with
  | EventDispatcher events handlers =>
      Ok (EventDispatcher events (h :: handlers))
  | EventHandler _ => Raise (AttributeError "push_handler")
  end.

(** [for func in functions: if func(...): return True]: the outcome is
    [Ok true] when the loop returned, [Ok false] when it ran to its end. *)
Fixpoint call_each (functions : list callable) (args : Args) (w : World)
    : result bool * World :=
  match functions with
  | [] => (Ok false, w)
  | func :: rest =>
      match func args w with
      | (Ok true, w') => (Ok true, w')
      | (Ok false, w') => call_each rest args w'
      | (Raise e, w') => (Raise e, w')
      end
  end.

Fixpoint dispatch_event (self : handler) (event : string) (args : Args)
    (w : World) : result bool * World :=
  match self with
  | EventDispatcher events handlers =>
      match call_each (default [] (events !! event)) args w with
      | (Ok false, w1) =>
          (fix each_handler (hs : list handler) (w : World) :=
             match hs with
             | [] => (Ok false, w)
             | h :: rest =>
                 match dispatch_event h event args w with
                 | (Ok true, w') => (Ok true, w')
                 | (Ok false, w') => each_handler rest w'
                 | (Raise e, w') => (Raise e, w')
                 end
             end) handlers w1
      | outcome => outcome
      end
  | EventHandler methods =>
      match methods !! event with
      | Some method => method args w
      | None => (Raise (AttributeError event), w)
      end
  end.

(** The callables a dispatch may reach, in the order it reaches them:
    the local queue, then each downstream handler's own, front first.  A
    downstream [EventHandler] without the method stands as a callable
    that raises. *)
Fixpoint consulted (event : string) (self : handler) : list callable :=
  match self with
  | EventDispatcher events handlers =>
      default [] (events !! event) ++ flat_map (consulted event) handlers
  | EventHandler methods =>
      match methods !! event with
      | Some method => [method]
      | None => [fun _ w => (Raise (AttributeError event), w)]
      end
  end.

(** [for func in funcs: self.add_event(event, func)] and
    [for h in hs: self.push_handler(h)]: registrations one after another. *)
Fixpoint add_each (self : handler) (event : string) (funcs : list callable)
    : result handler :=
  match funcs with
  | [] => Ok self
  | func :: rest => self' ← add_event self event func; add_each self' event rest
  end.

Fixpoint push_each (self : handler) (hs : list handler) : result handler :=
  match hs with
  | [] => Ok self
  | h :: rest => self' ← push_handler self h; push_each self' rest
  end.

(** [self._events[event].extendleft(func)]: asking the [defaultdict] for
    the queue creates it, and the callables go to its front one after
    another, so that they end up in reverse order. *)
Definition extend_event (self : handler) (event : string)
    (func : list callable) : result handler :=
  match self with
  | EventDispatcher events handlers =>
      Ok (EventDispatcher
            (<[event := rev func ++ default [] (events !! event)]> events)
            handlers)
  | EventHandler _ => Raise (AttributeError "extend_event")
  end.

(** [self._events.get(event).popleft()]: [get] gives [None] for an event
    that has no queue, and [None] has no [popleft]; the queue that is
    there may be empty.  Returns the callable and the dispatcher as the
    call leaves it. *)
Definition pop_event (self : handler) (event : string)
    : result (callable * handler) :=
  match self with
  | EventDispatcher events handlers =>
      match events !! event with
      | None => Raise (AttributeError "popleft")
      | Some [] => Raise IndexError
      | Some (func :: rest) =>
          Ok (func, EventDispatcher (<[event := rest]> events) handlers)
      end
  | EventHandler _ => Raise (AttributeError "pop_event")
  end.

(** [if self._events: return event in self._events] and [return False]. *)
Definition has_event (self : handler) (event : string) : result bool :=
  match self with
  | EventDispatcher events _ =>
      Ok (if (size events =? 0)%nat then false
          else bool_decide (is_Some (events !! event)))
  | EventHandler _ => Raise (AttributeError "has_event")
  end.

(** [EventDispatcher.__new__] of a class whose [_class_events] are
    [class_events]: [attributes] are the attributes of the new instance
    that [hasattr] finds, each with its [event_using] flag ([True] unless
    the function was marked by [event_typing]). *)
Definition wire (attributes : gmap string (callable * bool))
    (events : gmap string (list callable)) (event : string)
    : gmap string (list callable) :=
  match attributes !! event with
  | Some (func, true) => <[event := func :: default [] (events !! event)]> events
  | _ => events
  end.

Definition new_instance (class_events : list string)
    (attributes : gmap string (callable * bool)) : handler :=
  EventDispatcher (foldl (wire attributes) ∅ class_events) [].

(** Running [fs] from [w] calls each of them, every one returns a falsy
    value, and the world ends as [w']. *)
Inductive all_falsy (args : Args) : list callable -> World -> World -> Prop :=
| all_falsy_nil w : all_falsy args [] w w
| all_falsy_cons func rest w w1 w2 :
    func args w = (Ok false, w1) ->
    all_falsy args rest w1 w2 ->
    all_falsy args (func :: rest) w w2.

End WithWorld.
Arguments callable World Args : clear implicits.
Arguments handler World Args : clear implicits.
End Event.

(** ** kiglent/window/key.py *)

Module Key.

Definition MOD_SHIFT : Z := Z.shiftl 1 0.
Definition MOD_CTRL : Z := Z.shiftl 1 1.
Definition MOD_ALT : Z := Z.shiftl 1 2.
Definition MOD_CAPSLOCK : Z := Z.shiftl 1 3.
Definition MOD_NUMLOCK : Z := Z.shiftl 1 4.
Definition MOD_WINDOWS : Z := Z.shiftl 1 5.
Definition MOD_COMMAND : Z := Z.shiftl 1 6.
Definition MOD_OPTION : Z := Z.shiftl 1 7.
Definition MOD_SCROLLLOCK : Z := Z.shiftl 1 8.
Definition MOD_FUNCTION : Z := Z.shiftl 1 9.

(** [if modifiers & FLAG:] the truth value of an integer. *)
Definition test (modifiers flag : Z) : bool :=
  negb (Z.land modifiers flag =? 0)%Z.

(** [if modifiers & FLAG: mod_names.append(name)]. *)
Definition append_if (modifiers flag : Z) (name : string)
    (mod_names : list string) : list string :=
  if test modifiers flag then mod_names ++ [name] else mod_names.

Definition modifiers_string (modifiers : Z) : string :=
  let mod_names := [] in
  let mod_names := append_if modifiers MOD_SHIFT "MOD_SHIFT" mod_names in
  let mod_names := append_if modifiers MOD_CTRL "MOD_CTRL" mod_names in
  let mod_names := append_if modifiers MOD_ALT "MOD_ALT" mod_names in
  let mod_names := append_if modifiers MOD_CAPSLOCK "MOD_CAPSLOCK" mod_names in
  let mod_names := append_if modifiers MOD_NUMLOCK "MOD_NUMLOCK" mod_names in
  let mod_names := append_if modifiers MOD_SCROLLLOCK "MOD_SCROLLLOCK" mod_names in
  let mod_names := append_if modifiers MOD_COMMAND "MOD_COMMAND" mod_names in
  let mod_names := append_if modifiers MOD_OPTION "MOD_OPTION" mod_names in
  let mod_names := append_if modifiers MOD_FUNCTION "MOD_FUNCTION" mod_names in
  String.concat "|" mod_names.

(** The modifier constants with their names, in the order the module
    declares them. *)
Definition declared : list (Z * string) :=
  [(MOD_SHIFT, "MOD_SHIFT"); (MOD_CTRL, "MOD_CTRL"); (MOD_ALT, "MOD_ALT");
   (MOD_CAPSLOCK, "MOD_CAPSLOCK"); (MOD_NUMLOCK, "MOD_NUMLOCK");
   (MOD_WINDOWS, "MOD_WINDOWS"); (MOD_COMMAND, "MOD_COMMAND");
   (MOD_OPTION, "MOD_OPTION"); (MOD_SCROLLLOCK, "MOD_SCROLLLOCK");
   (MOD_FUNCTION, "MOD_FUNCTION")].

(** The constants in the order [modifiers_string] tests them. *)
Definition tested : list (Z * string) :=
  [(MOD_SHIFT, "MOD_SHIFT"); (MOD_CTRL, "MOD_CTRL"); (MOD_ALT, "MOD_ALT");
   (MOD_CAPSLOCK, "MOD_CAPSLOCK"); (MOD_NUMLOCK, "MOD_NUMLOCK");
   (MOD_SCROLLLOCK, "MOD_SCROLLLOCK"); (MOD_COMMAND, "MOD_COMMAND");
   (MOD_OPTION, "MOD_OPTION"); (MOD_FUNCTION, "MOD_FUNCTION")].

(** The names of the flags of [table] that are set in [modifiers], in the
    table's order, joined by a bar. *)
Definition names_of_set_flags (table : list (Z * string)) (modifiers : Z)
    : list string :=
  map snd (List.filter (fun entry => test modifiers (fst entry)) table).

(** What the specification describes: the set flags named in declared
    order. *)
Definition modifiers_string_declared_order (modifiers : Z) : string :=
  String.concat "|" (names_of_set_flags declared modifiers).

(** The global names of the module once it is imported, in the order its
    statements bind them. *)
Definition key_globals : namespace :=
  ["annotations"; "compat_platform"; "EventHandler"; "KeyStateHandler";
   "modifiers_string"; "symbol_string"; "motion_string"; "user_key";
   "MOD_SHIFT"; "MOD_CTRL"; "MOD_ALT"; "MOD_CAPSLOCK"; "MOD_NUMLOCK";
   "MOD_WINDOWS"; "MOD_COMMAND"; "MOD_OPTION"; "MOD_SCROLLLOCK";
   "MOD_FUNCTION"; "MOD_ACCEL"; "BACKSPACE"; "TAB"; "LINEFEED"; "CLEAR";
   "RETURN"; "ENTER"; "PAUSE"; "SCROLLLOCK"; "SYSREQ"; "ESCAPE"; "HOME";
   "LEFT"; "UP"; "RIGHT"; "DOWN"; "PAGEUP"; "PAGEDOWN"; "END"; "BEGIN";
   "DELETE"; "SELECT"; "PRINT"; "EXECUTE"; "INSERT"; "UNDO"; "REDO";
   "MENU"; "FIND"; "CANCEL"; "HELP"; "BREAK"; "MODESWITCH"; "SCRIPTSWITCH";
   "FUNCTION"; "MOTION_UP"; "MOTION_RIGHT"; "MOTION_DOWN"; "MOTION_LEFT";
   "MOTION_NEXT_WORD"; "MOTION_PREVIOUS_WORD"; "MOTION_BEGINNING_OF_LINE";
   "MOTION_END_OF_LINE"; "MOTION_NEXT_PAGE"; "MOTION_PREVIOUS_PAGE";
   "MOTION_BEGINNING_OF_FILE"; "MOTION_END_OF_FILE"; "MOTION_BACKSPACE";
   "MOTION_DELETE"; "MOTION_COPY"; "MOTION_PASTE"; "NUMLOCK"; "NUM_SPACE";
   "NUM_TAB"; "NUM_ENTER"; "NUM_F1"; "NUM_F2"; "NUM_F3"; "NUM_F4";
   "NUM_HOME"; "NUM_LEFT"; "NUM_UP"; "NUM_RIGHT"; "NUM_DOWN"; "NUM_PRIOR";
   "NUM_PAGE_UP"; "NUM_NEXT"; "NUM_PAGE_DOWN"; "NUM_END"; "NUM_BEGIN";
   "NUM_INSERT"; "NUM_DELETE"; "NUM_EQUAL"; "NUM_MULTIPLY"; "NUM_ADD";
   "NUM_SEPARATOR"; "NUM_SUBTRACT"; "NUM_DECIMAL"; "NUM_DIVIDE"; "NUM_0";
   "NUM_1"; "NUM_2"; "NUM_3"; "NUM_4"; "NUM_5"; "NUM_6"; "NUM_7"; "NUM_8";
   "NUM_9"; "F1"; "F2"; "F3"; "F4"; "F5"; "F6"; "F7"; "F8"; "F9"; "F10";
   "F11"; "F12"; "F13"; "F14"; "F15"; "F16"; "F17"; "F18"; "F19"; "F20";
   "F21"; "F22"; "F23"; "F24"; "LSHIFT"; "RSHIFT"; "LCTRL"; "RCTRL";
   "CAPSLOCK"; "LMETA"; "RMETA"; "LALT"; "RALT"; "LWINDOWS"; "RWINDOWS";
   "LCOMMAND"; "RCOMMAND"; "LOPTION"; "ROPTION"; "SPACE"; "EXCLAMATION";
   "DOUBLEQUOTE"; "HASH"; "POUND"; "DOLLAR"; "PERCENT"; "AMPERSAND";
   "APOSTROPHE"; "PARENLEFT"; "PARENRIGHT"; "ASTERISK"; "PLUS"; "COMMA";
   "MINUS"; "PERIOD"; "SLASH"; "_0"; "_1"; "_2"; "_3"; "_4"; "_5"; "_6";
   "_7"; "_8"; "_9"; "COLON"; "SEMICOLON"; "LESS"; "EQUAL"; "GREATER";
   "QUESTION"; "AT"; "BRACKETLEFT"; "BACKSLASH"; "BRACKETRIGHT";
   "ASCIICIRCUM"; "UNDERSCORE"; "GRAVE"; "QUOTELEFT"; "A"; "B"; "C"; "D";
   "E"; "F"; "G"; "H"; "I"; "J"; "K"; "L"; "M"; "N"; "O"; "P"; "Q"; "R";
   "S"; "T"; "U"; "V"; "W"; "X"; "Y"; "Z"; "BRACELEFT"; "BAR";
   "BRACERIGHT"; "ASCIITILDE"; "motion_dict"; "key_dict"].

(** ['%x' % n]: lower-case hexadecimal digits, without a prefix. *)
Definition percent_x (n : Z) : string :=
  match n with
  | Z0 => "0"
  | Zpos p => HexString.Raw.of_pos p EmptyString
  | Zneg p => "-" +:+ HexString.Raw.of_pos p EmptyString
  end.

(** [symbol_string], run with the module's globals [globals]; [_key_names]
    is the mapping the name of that global would stand for. *)
Definition symbol_string (globals : namespace) (_key_names : gmap Z string)
    (symbol : Z) : result string :=
  if (symbol <? Z.shiftl 1 32)%Z then
    _ ← load_global globals "_key_names";
    Ok (default (pretty symbol) (_key_names !! symbol))
  else Ok ("user_key(" +:+ percent_x (Z.shiftr symbol 32) +:+ ")").

Definition motion_string (globals : namespace) (_motion_names : gmap Z string)
    (motion : Z) : result string :=
  _ ← load_global globals "_motion_names";
  Ok (default (pretty motion) (_motion_names !! motion)).


(** *** [KeyStateHandler] *)

Module KeyStateHandler.

(** [self.data]. *)
Definition t : Type := gmap Z bool.

Definition init : t := ∅.

Definition on_key_press (self : t) (symbol modifiers : Z) : t :=
  <[symbol := true]> self.

Definition on_key_release (self : t) (symbol modifiers : Z) : t :=
  <[symbol := false]> self.

Definition on_deactivate (self : t) : t := ∅.

(** [self.data.get(key, False)]. *)
Definition getitem (self : t) (key : Z) : bool := default false (self !! key).

(** What the window tells the handler. *)
Inductive notice : Type :=
| KeyPress (symbol modifiers : Z)
| KeyRelease (symbol modifiers : Z)
| Deactivate.

Definition receive (self : t) (n : notice) : t :=
  match n with
  | KeyPress symbol modifiers => on_key_press self symbol modifiers
  | KeyRelease symbol modifiers => on_key_release self symbol modifiers
  | Deactivate => on_deactivate self
  end.

(** The handler as a downstream handler of a dispatcher: the attributes
    [getattr(self, event)] finds among the names that begin with [on_],
    called with the positional arguments of the dispatch.  Each returns
    [None], which is falsy; a call with the wrong number of arguments
    raises [TypeError]. *)
Definition on_key_press_method : Event.callable t (list Z) :=
  fun args self =>
    match args with
    | [symbol; modifiers] => (Ok false, on_key_press self symbol modifiers)
    | _ => (Raise TypeError, self)
    end.

Definition on_key_release_method : Event.callable t (list Z) :=
  fun args self =>
    match args with
    | [symbol; modifiers] => (Ok false, on_key_release self symbol modifiers)
    | _ => (Raise TypeError, self)
    end.

Definition on_deactivate_method : Event.callable t (list Z) :=
  fun args self =>
    match args with
    | [] => (Ok false, on_deactivate self)
    | _ => (Raise TypeError, self)
    end.

Definition as_handler : Event.handler t (list Z) :=
  Event.EventHandler
    (<["on_key_press" := on_key_press_method]>
       (<["on_key_release" := on_key_release_method]>
          (<["on_deactivate" := on_deactivate_method]> ∅))).

End KeyStateHandler.

End Key.

(** ** shapes/rectangle.py *)

Module BorderedRectangle.
Section WithNum.
Context {F : Type} `{Num F}.

Definition ambiguity : string :=
  "When color and border_color are both RGBA values,they must both have the same opacity".

Record t : Type := BorderedRectangle {
  _x : F; _y : F; _z : F;
  _width : F; _height : F;
  _rotation : Z;
  _border : F;
  _rgba : Z * Z * Z * Z;
  _border_rgba : Z * Z * Z * Z;
  _num_verts : Z
}.

(** [ColorValue]: a tuple of three or of four integers. *)
Definition is_ColorValue (color : list Z) : Prop :=
  length color = 3 \/ length color = 4.

(** [__init__], up to the creation of the vertex list by
    [ShapeBase.__init__], which reads the two colours and changes
    neither.  [seq[0]] of a non-empty [seq] is [hd]. *)
Definition init (x y width height border : F) (color border_color : list Z)
    : result t :=
  '(fill_r, fill_g, fill_b, fill_a) ← unpack3_star color;
  '(border_r, border_g, border_b, border_a) ← unpack3_star border_color;
  let alpha := 255%Z in
  if bool_decide (fill_a <> []) && bool_decide (border_a <> [])
     && negb (hd 0 fill_a =? hd 0 border_a)%Z
  then Raise (ValueError ambiguity)
  else
    let alpha :=
      if bool_decide (fill_a <> []) then hd 0%Z fill_a
      else if bool_decide (border_a <> []) then hd 0%Z border_a
      else alpha in
    Ok (BorderedRectangle x y zero width height 0%Z border
          (fill_r, fill_g, fill_b, alpha)
          (border_r, border_g, border_b, alpha)
          8%Z).

Definition alpha_of (rgba : Z * Z * Z * Z) : Z := snd rgba.

Definition rgb_of (rgba : Z * Z * Z * Z) : list Z :=
  let '(r, g, b, _) := rgba in [r; g; b].

(** Both colours are RGBA and their alpha components differ. *)
Definition alpha_conflict (color border_color : list Z) : Prop :=
  length color = 4 /\ length border_color = 4
  /\ nth 3 color 0%Z <> nth 3 border_color 0%Z.

(** The one alpha supplied, or 255 if neither colour has one. *)
Definition supplied_alpha (color border_color : list Z) : Z :=
  if (length color =? 4)%nat then nth 3 color 0%Z
  else if (length border_color =? 4)%nat then nth 3 border_color 0%Z
  else 255%Z.

End WithNum.
Arguments t F : clear implicits.
End BorderedRectangle.

(** ** shapes/__init__.py and shapes/rectangle.py: [Rectangle] *)

Module Rectangle.
Section WithNum.
Context {F : Type} `{Num F}.
Local Open Scope num_scope.

(** [seq * n] of a tuple. *)
Definition times {A : Type} (seq : list A) (n : nat) : list A :=
  concat (replicate n seq).

(** The attributes of the vertex list that the shape writes: what the
    GPU holds of it. *)
Record vertex_list : Type := VertexList {
  position : list F;
  colors : list Z;
  translation : list F;
  rotation : list F;
  zposition : list F
}.

(** The attributes of a [Rectangle] (those of [ShapeBase] among them)
    that its geometry and colour methods read or write. *)
Record t : Type := Rectangle {
  _x : F;
  _y : F;
  _z : F;
  _width : F;
  _height : F;
  _anchor_x : F;
  _anchor_y : F;
  _rotation : F;
  _visible : bool;
  _rgba : list Z;
  _num_verts : nat;
  _vertex_list : vertex_list
}.

(** Assignment to one attribute of the vertex list, of the shape. *)
Definition put_position (value : list F) (self : vertex_list) : vertex_list :=
  VertexList value (colors self) (translation self) (rotation self)
    (zposition self).

Definition put_colors (value : list Z) (self : vertex_list) : vertex_list :=
  VertexList (position self) value (translation self) (rotation self)
    (zposition self).

Definition put_translation (value : list F) (self : vertex_list) : vertex_list :=
  VertexList (position self) (colors self) value (rotation self)
    (zposition self).

Definition put_rotation (value : list F) (self : vertex_list) : vertex_list :=
  VertexList (position self) (colors self) (translation self) value
    (zposition self).

Definition put_zposition (value : list F) (self : vertex_list) : vertex_list :=
  VertexList (position self) (colors self) (translation self)
    (rotation self) value.

Definition with_x (value : F) (self : t) : t :=
  Rectangle value (_y self) (_z self) (_width self) (_height self)
    (_anchor_x self) (_anchor_y self) (_rotation self) (_visible self)
    (_rgba self) (_num_verts self) (_vertex_list self).

Definition with_y (value : F) (self : t) : t :=
  Rectangle (_x self) value (_z self) (_width self) (_height self)
    (_anchor_x self) (_anchor_y self) (_rotation self) (_visible self)
    (_rgba self) (_num_verts self) (_vertex_list self).

Definition with_z (value : F) (self : t) : t :=
  Rectangle (_x self) (_y self) value (_width self) (_height self)
    (_anchor_x self) (_anchor_y self) (_rotation self) (_visible self)
    (_rgba self) (_num_verts self) (_vertex_list self).

Definition with_width (value : F) (self : t) : t :=
  Rectangle (_x self) (_y self) (_z self) value (_height self)
    (_anchor_x self) (_anchor_y self) (_rotation self) (_visible self)
    (_rgba self) (_num_verts self) (_vertex_list self).

Definition with_height (value : F) (self : t) : t :=
  Rectangle (_x self) (_y self) (_z self) (_width self) value
    (_anchor_x self) (_anchor_y self) (_rotation self) (_visible self)
    (_rgba self) (_num_verts self) (_vertex_list self).

Definition with_anchor_x (value : F) (self : t) : t :=
  Rectangle (_x self) (_y self) (_z self) (_width self) (_height self) value
    (_anchor_y self) (_rotation self) (_visible self) (_rgba self)
    (_num_verts self) (_vertex_list self).

Definition with_anchor_y (value : F) (self : t) : t :=
  Rectangle (_x self) (_y self) (_z self) (_width self) (_height self)
    (_anchor_x self) value (_rotation self) (_visible self) (_rgba self)
    (_num_verts self) (_vertex_list self).

Definition with_rotation (value : F) (self : t) : t :=
  Rectangle (_x self) (_y self) (_z self) (_width self) (_height self)
    (_anchor_x self) (_anchor_y self) value (_visible self) (_rgba self)
    (_num_verts self) (_vertex_list self).

Definition with_visible (value : bool) (self : t) : t :=
  Rectangle (_x self) (_y self) (_z self) (_width self) (_height self)
    (_anchor_x self) (_anchor_y self) (_rotation self) value (_rgba self)
    (_num_verts self) (_vertex_list self).

Definition with_rgba (value : list Z) (self : t) : t :=
  Rectangle (_x self) (_y self) (_z self) (_width self) (_height self)
    (_anchor_x self) (_anchor_y self) (_rotation self) (_visible self) value
    (_num_verts self) (_vertex_list self).

Definition with_vertex_list (value : vertex_list) (self : t) : t :=
  Rectangle (_x self) (_y self) (_z self) (_width self) (_height self)
    (_anchor_x self) (_anchor_y self) (_rotation self) (_visible self)
    (_rgba self) (_num_verts self) value.

Definition _get_vertices (self : t) : list F :=
  if negb (_visible self) then times [zero; zero] (_num_verts self)
  else
    let x1 := - _anchor_x self in
    let y1 := - _anchor_y self in
    let x2 := x1 + _width self in
    let y2 := y1 + _height self in
    [x1; y1; x2; y1; x2; y2; x1; y1; x2; y2; x1; y2].

(** [self._vertex_list.position[:] = self._get_vertices()]. *)
Definition _update_vertices (self : t) : t :=
  with_vertex_list (put_position (_get_vertices self) (_vertex_list self)) self.

(** [self._vertex_list.colors[:] = self._rgba * self._num_verts]. *)
Definition _update_color (self : t) : t :=
  with_vertex_list
    (put_colors (times (_rgba self) (_num_verts self)) (_vertex_list self)) self.

(** [self._vertex_list.translation[:] = (self._x, self._y) * self._num_verts]. *)
Definition _update_translation (self : t) : t :=
  with_vertex_list
    (put_translation (times [_x self; _y self] (_num_verts self))
       (_vertex_list self)) self.

(** The setters of the properties, named after them. *)
Definition set_z (value : F) (self : t) : t :=
  let self := with_z value self in
  with_vertex_list
    (put_zposition (times [value] (_num_verts self)) (_vertex_list self)) self.

Definition set_rotation (value : F) (self : t) : t :=
  let self := with_rotation value self in
  with_vertex_list
    (put_rotation (times [value] (_num_verts self)) (_vertex_list self)) self.

Definition set_width (value : F) (self : t) : t :=
  _update_vertices (with_width value self).

Definition set_height (value : F) (self : t) : t :=
  _update_vertices (with_height value self).

Definition set_width_anchored (value : F) (self : t) : result t :=
  scale ← truediv (_anchor_x self) (_width self);
  let self := with_anchor_x (scale * value) self in
  let self := with_width value self in
  Ok (_update_vertices self).

Definition set_height_anchored (value : F) (self : t) : result t :=
  scale ← truediv (_anchor_y self) (_height self);
  let self := with_anchor_y (scale * value) self in
  let self := with_height value self in
  Ok (_update_vertices self).

Definition anchor_scale_x (self : t) : result F :=
  truediv (_anchor_x self) (_width self).

Definition set_anchor_scale_x (value : F) (self : t) : t :=
  _update_vertices (with_anchor_x (_width self * value) self).

Definition anchor_scale_y (self : t) : result F :=
  truediv (_anchor_y self) (_height self).

Definition set_anchor_scale_y (value : F) (self : t) : t :=
  _update_vertices (with_anchor_y (_height self * value) self).

(** [seq[3]] of a tuple. *)
Definition item3 (seq : list Z) : result Z :=
  match seq !! 3%nat with
  | Some a => Ok a
  | None => Raise IndexError
  end.

(** The setter of [color], of [ShapeBase]. *)
Definition set_color (values : list Z) (self : t) : result t :=
  '(r, g, b, a) ← unpack3_star values;
  self ← (if bool_decide (a <> [])
          then Ok (with_rgba [r; g; b; hd 0%Z a] self)
          else alpha ← item3 (_rgba self); Ok (with_rgba [r; g; b; alpha] self));
  Ok (_update_color self).

Definition opacity (self : t) : result Z := item3 (_rgba self).

(** The setter of [opacity]: [( *self._rgba[:3], value)]. *)
Definition set_opacity (value : Z) (self : t) : t :=
  _update_color (with_rgba (take 3 (_rgba self) ++ [value]) self).

(** The keyword arguments of [update]; [None] is the default of each. *)
Record changes : Type := Changes {
  x : option F; y : option F; z : option F;
  width : option F; height : option F;
  anchor_x : option F; anchor_y : option F;
  width_anchored : option F; height_anchored : option F;
  to_anchor_scale_x : option F; to_anchor_scale_y : option F;
  visible : option bool; to_rotation : option F;
  color : option (list Z); to_opacity : option Z
}.

(** [if value is not None: self.attribute = value; flag = True]. *)
Definition given {A : Type} (value : option A) (assign : A -> t -> t)
    (state : t * bool) : t * bool :=
  match value with
  | Some v => (assign v (fst state), true)
  | None => state
  end.

(** The same for an assignment that can raise. *)
Definition given_or_raise {A : Type} (value : option A)
    (assign : A -> t -> result t) (state : t * bool) : result (t * bool) :=
  match value with
  | Some v => self ← assign v (fst state); Ok (self, true)
  | None => Ok state
  end.

(** [Rectangle.update]. *)
Definition update (self : t) (c : changes) : result t :=
  let translation := false in
  let '(self, translation) := given (x c) with_x (self, translation) in
  let '(self, translation) := given (y c) with_y (self, translation) in
  let self := if translation then _update_translation self else self in
  let self := match z c with Some z => set_z z self | None => self end in
  let verticles := false in
  let '(self, verticles) := given (width c) with_width (self, verticles) in
  let '(self, verticles) := given (height c) with_height (self, verticles) in
  let '(self, verticles) := given (anchor_x c) with_anchor_x (self, verticles) in
  let '(self, verticles) := given (anchor_y c) with_anchor_y (self, verticles) in
  '(self, verticles) ← given_or_raise (width_anchored c)
      (fun width_anchored self =>
         scale ← truediv (_anchor_x self) (_width self);
         Ok (with_width width_anchored
               (with_anchor_x (scale * width_anchored) self)))
      (self, verticles);
  '(self, verticles) ← given_or_raise (height_anchored c)
      (fun height_anchored self =>
         scale ← truediv (_anchor_y self) (_height self);
         Ok (with_height height_anchored
               (with_anchor_y (scale * height_anchored) self)))
      (self, verticles);
  let '(self, verticles) :=
    given (to_anchor_scale_x c)
      (fun anchor_scale_x self => with_anchor_x (_width self * anchor_scale_x) self)
      (self, verticles) in
  let '(self, verticles) :=
    given (to_anchor_scale_y c)
      (fun anchor_scale_y self => with_anchor_y (_width self * anchor_scale_y) self)
      (self, verticles) in
  let '(self, verticles) := given (visible c) with_visible (self, verticles) in
  let self := if verticles then _update_vertices self else self in
  let self :=
    match to_rotation c with
    | Some rotation => set_rotation rotation self
    | None => self
    end in
  match color c, to_opacity c with
  | Some color, Some opacity =>
      Ok (_update_color (with_rgba (take 3 color ++ [opacity]) self))
  | Some color, None =>
      alpha ← item3 (_rgba self);
      Ok (_update_color (with_rgba (take 3 color ++ [alpha]) self))
  | None, Some opacity =>
      Ok (_update_color (with_rgba (take 3 (_rgba self) ++ [opacity]) self))
  | None, None => Ok self
  end.

(** [update] with no argument given. *)
Definition no_changes : changes :=
  Changes None None None None None None None None None None None None None
    None None.

End WithNum.
Arguments t F : clear implicits.
Arguments vertex_list F : clear implicits.
Arguments changes F : clear implicits.
End Rectangle.

(** ** kiglent/shapes/polygon.py *)

Module Polygon.
Section WithNum.
Context {F : Type} `{Num F} `{NumOrd F}.
Local Open Scope num_scope.

(** The test of one pass of the loop, on the vertices [polygon[i]] and
    [polygon[j]]: [a > b] is [b < a], and the right operand of [and] is
    evaluated only when the left one is true. *)
Definition crossing (polygon_i polygon_j point : F * F) : result bool :=
  if negb (Bool.eqb (num_ltb (snd point) (snd polygon_i))
                    (num_ltb (snd point) (snd polygon_j)))
  then
    slope ← truediv ((fst polygon_j - fst polygon_i) * (snd point - snd polygon_i))
                    (snd polygon_j - snd polygon_i);
    Ok (num_ltb (fst point) (slope + fst polygon_i))
  else Ok false.

(** The passes of the loop for [i] = 1, 2, ...: [upcoming] are the
    vertices from [polygon[i]] on, [polygon_j] is [polygon[j]]. *)
Fixpoint passes (polygon_j : F * F) (upcoming : list (F * F)) (point : F * F)
    (odd : bool) : result bool :=
  match upcoming with
  | [] => Ok odd
  | polygon_i :: rest =>
      crossed ← crossing polygon_i polygon_j point;
      passes polygon_i rest point (if (crossed : bool) then negb odd else odd)
  end.

(** [_point_in_polygon]: [j] starts at the last vertex and [i] at the
    second one. *)
Definition _point_in_polygon (polygon : list (F * F)) (point : F * F)
    : result bool :=
  match last polygon with
  | None => Ok false
  | Some polygon_j => passes polygon_j (tail polygon) point false
  end.

End WithNum.
End Polygon.

(** ** graphics/groups.py *)

Module Groups.
Section WithNum.
Context {F : Type} `{Num F}.

(** A group of the class [Group], [TranslationGroup] or [ScaleGroup];
    the last two with their three-item [_vec3] and the projection they
    saved.  ([RotationGroup] turns the projection by an angle and is left
    out.) *)
Inductive group : Type :=
| Group
| TranslationGroup (_x _y : F) (_vec3 : F * F * F) (_projection : Mat4.t F)
| ScaleGroup (_scale_x _scale_y : F) (_vec3 : F * F * F) (_projection : Mat4.t F).

(** The items of a three-item tuple. *)
Definition tuple3 (v : F * F * F) : list F :=
  let '(a, b, c) := v in [a; b; c].

(** [TranslationGroup.__init__] and [ScaleGroup.__init__], in a window
    whose projection is [projection]. *)
Definition new_TranslationGroup (x y : F) (projection : Mat4.t F) : group :=
  TranslationGroup x y (x, y, zero) projection.

Definition new_ScaleGroup (scale_x scale_y : F) (projection : Mat4.t F) : group :=
  ScaleGroup scale_x scale_y (scale_x, scale_y, one) projection.

(** [set_state], on the projection of the window: returns the group and
    the projection as the call leaves them. *)
Definition set_state (self : group) (projection : Mat4.t F)
    : result (group * Mat4.t F) :=
  match self with
  | Group => Ok (Group, projection)
  | TranslationGroup x y vec3 _ =>
      translated ← Mat4.translate projection (tuple3 vec3);
      Ok (TranslationGroup x y vec3 projection, translated)
  | ScaleGroup sx sy vec3 _ =>
      scaled ← Mat4.scale projection (tuple3 vec3);
      Ok (ScaleGroup sx sy vec3 projection, scaled)
  end.

Definition unset_state (self : group) (projection : Mat4.t F) : Mat4.t F :=
  match self with
  | Group => projection
  | TranslationGroup _ _ _ saved => saved
  | ScaleGroup _ _ _ saved => saved
  end.

(** A group with its ancestry: the group, its parent, the parent of its
    parent, and so on, all in one window.  [set_state_recursive] sets the
    parents first, [unset_state_recursive] unsets them last. *)
Fixpoint set_state_recursive (self : list group) (projection : Mat4.t F)
    : result (list group * Mat4.t F) :=
  match self with
  | [] => Ok ([], projection)
  | group :: parent =>
      '(parent, projection) ← set_state_recursive parent projection;
      '(group, projection) ← set_state group projection;
      Ok (group :: parent, projection)
  end.

Fixpoint unset_state_recursive (self : list group) (projection : Mat4.t F)
    : Mat4.t F :=
  match self with
  | [] => projection
  | group :: parent => unset_state_recursive parent (unset_state group projection)
  end.

End WithNum.
Arguments group F : clear implicits.
End Groups.

(** ** media/drivers/openal/__init__.py and media/drivers/pulse/__init__.py *)

Module Media.

(** What a factory does that can be observed from outside. *)
Inductive effect : Type :=
| Printed (words : list string)
| Connected
| DumpedDebugInfo.

(** The process as a factory sees it: the global mapping
    [kiglent.options] (each option by its truth value) and the effects
    produced so far. *)
Record process : Type := Process {
  options : gmap string bool;
  effects : list effect
}.

(** [kiglent.options[key] = flag]. *)
Definition set_option (key : string) (flag : bool) (p : process) : process :=
  Process (<[key := flag]> (options p)) (effects p).

Definition emit (e : effect) (p : process) : process :=
  Process (options p) (effects p ++ [e]).

Module OpenAL.
Section WithAdaptation.
(** The class [OpenALDriver] of the [adaptation] module, which is not
    part of the sources read here: its constructor and [get_version]. *)
Context {OpenALDriver : Type}.
Variable new_driver : option string -> OpenALDriver.
Variable get_version : OpenALDriver -> string.

(** The module's global variables. *)
Record globals : Type := Globals { _debug : bool; _debug_buffers : bool }.

(** Executing the module body, at its first import. *)
Definition import (p : process) : result globals :=
  match options p !! "debug_media" with
  | Some flag =>
      Ok (Globals flag (default false (options p !! "debug_media_buffers")))
  | None => Raise (KeyError "debug_media")
  end.

Definition create_audio_driver (g : globals) (device_name : option string)
    (p : process) : OpenALDriver * process :=
  let _driver := new_driver device_name in
  if _debug g
  then (_driver, emit (Printed ["OpenAL"; get_version _driver]) p)
  else (_driver, p).

End WithAdaptation.
End OpenAL.

Module Pulse.
Section WithAdaptation.
(** The class [PulseAudioDriver] of the [adaptation] module, which is
    not part of the sources read here; [connect] and [dump_debug_info]
    are recorded as effects. *)
Context {PulseAudioDriver : Type}.
Variable new_driver : PulseAudioDriver.

Record globals : Type := Globals { _debug : bool }.

Definition import (p : process) : result globals :=
  match options p !! "debug_media" with
  | Some flag => Ok (Globals flag)
  | None => Raise (KeyError "debug_media")
  end.

Definition create_audio_driver (g : globals) (p : process)
    : PulseAudioDriver * process :=
  let driver := new_driver in
  let p := emit Connected p in
  if _debug g
  then (driver, emit DumpedDebugInfo p)
  else (driver, p).

End WithAdaptation.
End Pulse.

(** The debug output of a factory call: what it printed or dumped. *)
Definition is_debug_output (e : effect) : bool :=
  match e with
  | Printed _ | DumpedDebugInfo => true
  | Connected => false
  end.

(** Debug output enabled in the options, as [if flag:] reads it. *)
Definition debug_media (p : process) : bool :=
  default false (options p !! "debug_media").

End Media.

(** ** Inputs and auxiliary definitions of the properties *)

(** [Mat3(a, d, g, b, e, h, c, f, i)]: rows and columns exchanged. *)
Definition Mat3_transpose {F : Type} (M : Mat3.t F) : Mat3.t F :=
  Mat3.Mat3 (Mat3.a M) (Mat3.d M) (Mat3.g M)
            (Mat3.b M) (Mat3.e M) (Mat3.h M)
            (Mat3.c M) (Mat3.f M) (Mat3.i M).

(** The translation by (2, 3), [Mat3(1, 0, 0, 0, 1, 0, 2, 3, 1)], over the
    rationals. *)
Definition translation_2_3 : Mat3.t Qc :=
  Mat3.Mat3 one zero zero zero one zero (num_of_Z 2) (num_of_Z 3) one.

(** [Mat4(1, 0, 0, 0,  0, 1, 0, 0,  0, 0, -1, 0,  0, 0, 0, 1)]. *)
Definition z_mirror : Mat4.t Qc :=
  Mat4.Mat4 one zero zero zero
            zero one zero zero
            zero zero (num_of_Z (-1)) zero
            zero zero zero one.

(** A handler that writes its name to a log and returns [handled]. *)
Definition logging (name : string) (handled : bool)
    : Event.callable (list string) unit :=
  fun _ log => (Ok handled, log ++ [name]).

(** A process whose options have [debug_media] off, and stand-ins for
    the two driver classes. *)
Definition quiet_process : Media.process :=
  Media.Process {["debug_media" := false]} [].

Definition verbose_process : Media.process :=
  Media.Process {["debug_media" := true]} [].

Definition a_driver (device_name : option string) : string :=
  default "default device" device_name.

Definition a_version (driver : string) : string := "1.1".

(** The sum of one coordinate over a list of vectors. *)
Definition sum_coordinate {F : Type} `{Num F} (coordinate : Vec2.t F -> F)
    (vectors : list (Vec2.t F)) : F :=
  fold_right (fun v acc => (coordinate v + acc)%num) zero vectors.

(** [w*w + x*x + y*y + z*z], the squared length of a quaternion. *)
Definition norm_squared {F : Type} `{Num F} (q : Quaternion.t F) : F :=
  (Quaternion.w q * Quaternion.w q + Quaternion.x q * Quaternion.x q
   + Quaternion.y q * Quaternion.y q + Quaternion.z q * Quaternion.z q)%num.

(** A notice that does not let go of [key]: neither its release nor a
    deactivation. *)
Definition keeps (key : Z) (n : Key.KeyStateHandler.notice) : Prop :=
  n <> Key.KeyStateHandler.Deactivate
  /\ forall modifiers, n <> Key.KeyStateHandler.KeyRelease key modifiers.

(** [key] was pressed in [trace], and nothing after let go of it. *)
Definition pressed_and_kept (key : Z) (trace : list Key.KeyStateHandler.notice)
    : Prop :=
  exists before modifiers after,
    trace = before ++ Key.KeyStateHandler.KeyPress key modifiers :: after
    /\ Forall (keeps key) after.

(** Calls of [Rectangle.update] with one keyword, or with a colour. *)
Definition change_width_anchored {F : Type} (value : F) : Rectangle.changes F :=
  Rectangle.Changes None None None None None None None (Some value) None
    None None None None None None.

Definition change_anchor_scale_x {F : Type} (value : F) : Rectangle.changes F :=
  Rectangle.Changes None None None None None None None None None
    (Some value) None None None None None.

Definition change_anchor_scale_y {F : Type} (value : F) : Rectangle.changes F :=
  Rectangle.Changes None None None None None None None None None
    None (Some value) None None None None.

Definition change_color {F : Type} (color : list Z) (opacity : option Z)
    : Rectangle.changes F :=
  Rectangle.Changes None None None None None None None None None
    None None None None (Some color) opacity.

(** The vertex list holds what the attributes of the shape say: the
    corners, the colour of each vertex, the translation of each vertex. *)
Definition in_step {F : Type} `{Num F} (self : Rectangle.t F) : Prop :=
  Rectangle.position (Rectangle._vertex_list self) = Rectangle._get_vertices self
  /\ Rectangle.colors (Rectangle._vertex_list self)
     = Rectangle.times (Rectangle._rgba self) (Rectangle._num_verts self)
  /\ Rectangle.translation (Rectangle._vertex_list self)
     = Rectangle.times [Rectangle._x self; Rectangle._y self]
         (Rectangle._num_verts self).

(** In step but for what a pending flag of [update] stands for, with
    [n] vertices. *)
Definition in_step_but {F : Type} `{Num F} (translation verticles : bool)
    (n : nat) (self : Rectangle.t F) : Prop :=
  Rectangle._num_verts self = n
  /\ (verticles = false ->
      Rectangle.position (Rectangle._vertex_list self)
      = Rectangle._get_vertices self)
  /\ Rectangle.colors (Rectangle._vertex_list self)
     = Rectangle.times (Rectangle._rgba self) (Rectangle._num_verts self)
  /\ (translation = false ->
      Rectangle.translation (Rectangle._vertex_list self)
      = Rectangle.times [Rectangle._x self; Rectangle._y self]
          (Rectangle._num_verts self)).

(** Inputs of the examples: a rectangle of 4 by 2 at (1, 1), anchored at
    (2, 1), white, as [Rectangle.__init__] leaves it once its vertex list
    is made; and a window's projection. *)
Definition a_rectangle : Rectangle.t Qc :=
  Rectangle.Rectangle one one zero (num_of_Z 4) (num_of_Z 2)
    (num_of_Z 2) one zero true [255; 255; 255; 255]%Z 6
    (Rectangle.VertexList
       [num_of_Z (-2); num_of_Z (-1); num_of_Z 2; num_of_Z (-1);
        num_of_Z 2; one; num_of_Z (-2); num_of_Z (-1);
        num_of_Z 2; one; num_of_Z (-2); one]
       (Rectangle.times [255; 255; 255; 255]%Z 6)
       (Rectangle.times [one; one] 6)
       (Rectangle.times [zero] 6)
       (Rectangle.times [zero] 6)).

Definition a_projection : Mat4.t Qc :=
  Mat4.Mat4 (num_of_Z 2) zero zero zero
            zero (num_of_Z 3) zero zero
            zero zero one zero
            (num_of_Z 5) (num_of_Z 7) zero one.

(** Whether no float of a list is a NaN. *)
Definition no_NaN (xs : list PrimFloat.float) : bool :=
  forallb (fun x => negb (PrimFloat.is_nan x)) xs.

(** [Vec2(float('nan'), 1.0)]. *)
Definition a_NaN_vector : Vec2.t PrimFloat.float :=
  Vec2.Vec2 PrimFloat.nan one.

(** The float [n / 10.0], which for a small integer [n] is the float of
    the decimal literal: [tenths 1] is [0.1], [tenths 3] is [0.3]. *)
Definition tenths (n : Z) : PrimFloat.float :=
  PrimFloat.div (float_of_Z n) (float_of_Z 10).

(** The translation by (0.3, 0.3),
    [Mat3(1.0, 0.0, 0.0, 0.0, 1.0, 0.0, 0.3, 0.3, 1.0)], over the floats. *)
Definition translation_3_tenths : Mat3.t PrimFloat.float :=
  Mat3.Mat3 one zero zero zero one zero (tenths 3) (tenths 3) one.

(** The float [2.0 ** -558], whose square underflows to [0.0]. *)
Definition a_tiny_float : PrimFloat.float :=
  let x := PrimFloat.div (float_of_Z 1) (float_of_Z (2 ^ 62)) in
  let x2 := PrimFloat.mul x x in
  let x4 := PrimFloat.mul x2 x2 in
  let x8 := PrimFloat.mul x4 x4 in
  PrimFloat.mul x8 x.

(** * Properties *)

(** ** Name lookup in kiglent/matrix.py *)

Section MatrixNames.
Context {F : Type} `{Num F}.
Local Open Scope num_scope.

Lemma Vec3_unbound_at_run_time :
  load_global (matrix_globals TYPE_CHECKING) "Vec3" = Raise (NameError "Vec3").
Proof. reflexivity. Qed.

Lemma Vec4_unbound_at_run_time :
  load_global (matrix_globals TYPE_CHECKING) "Vec4" = Raise (NameError "Vec4").
Proof. reflexivity. Qed.

(** With a matrix on the right the product is the matrix branch,
    whatever the module's globals are. *)
Lemma Mat3_matmul_matrix (globals : namespace) (A B : Mat3.t F) :
  exists C, Mat3.matmul globals A (Mat3.items B) = Ok (Mat3.IsMat3 C).
Proof. destruct A, B. cbn. eexists. reflexivity. Qed.

Lemma Mat4_matmul_matrix (globals : namespace) (A B : Mat4.t F) :
  exists C, Mat4.matmul globals A (Mat4.items B) = Ok (Mat4.IsMat4 C).
Proof. destruct A, B. cbn. eexists. reflexivity. Qed.

(** An operand that has neither the items of a matrix nor those of a
    vector: the [ValueError] of the second unpacking is not caught. *)
Lemma matmul_other_arity (globals : namespace) (M4 : Mat4.t F) (M3 : Mat3.t F)
    (other : list F) :
  (length other <> 16 -> length other <> 4 ->
   exists msg, Mat4.matmul globals M4 other = Raise (ValueError msg))
  /\ (length other <> 9 -> length other <> 3 ->
      exists msg, Mat3.matmul globals M3 other = Raise (ValueError msg)).
Proof.
  destruct M4, M3. split; intros Hm Hv.
  - do 17 (destruct other as [| ? other]; cbn in Hm, Hv;
           try (eexists; reflexivity); try contradiction).
  - do 10 (destruct other as [| ? other]; cbn in Hm, Hv;
           try (eexists; reflexivity); try contradiction).
Qed.

(** Had the module bound [Vec4] and [Vec3] (as it does for a type
    checker), a vector on the right would give the column-major
    matrix-vector product. *)
Lemma matmul_vector_when_names_bound (M4 : Mat4.t F) (v : Vec4.t F)
    (M3 : Mat3.t F) (u : Vec3.t F) :
  Mat4.matmul (matrix_globals true) M4 (Vec4.items v)
  = Ok (Mat4.IsVec4 (Vec4.Vec4
      (Vec4.x v * Mat4.a M4 + Vec4.y v * Mat4.e M4 + Vec4.z v * Mat4.i M4 + Vec4.w v * Mat4.m M4)
      (Vec4.x v * Mat4.b M4 + Vec4.y v * Mat4.f M4 + Vec4.z v * Mat4.j M4 + Vec4.w v * Mat4.n M4)
      (Vec4.x v * Mat4.c M4 + Vec4.y v * Mat4.g M4 + Vec4.z v * Mat4.k M4 + Vec4.w v * Mat4.o M4)
      (Vec4.x v * Mat4.d M4 + Vec4.y v * Mat4.h M4 + Vec4.z v * Mat4.l M4 + Vec4.w v * Mat4.p M4)))
  /\ Mat3.matmul (matrix_globals true) M3 (Vec3.items u)
  = Ok (Mat3.IsVec3 (Vec3.Vec3
      (Mat3.a M3 * Vec3.x u + Mat3.d M3 * Vec3.y u + Mat3.g M3 * Vec3.z u)
      (Mat3.b M3 * Vec3.x u + Mat3.e M3 * Vec3.y u + Mat3.h M3 * Vec3.z u)
      (Mat3.c M3 * Vec3.x u + Mat3.f M3 * Vec3.y u + Mat3.i M3 * Vec3.z u))).
Proof. destruct M4, v, M3, u. split; reflexivity. Qed.

(** C1 (as the code behaves): at run time the names [Vec4] and [Vec3]
    are not bound in the module, so [M @ v] with a [Vec4] (a [Vec3] for
    [Mat3]) on the right takes the vector branch and raises [NameError]
    instead of returning a vector. *)
Theorem matmul_vector_raises_NameError (M4 : Mat4.t F) (v : Vec4.t F)
    (M3 : Mat3.t F) (u : Vec3.t F) :
  Mat4.matmul (matrix_globals TYPE_CHECKING) M4 (Vec4.items v)
  = Raise (NameError "Vec4")
  /\ Mat3.matmul (matrix_globals TYPE_CHECKING) M3 (Vec3.items u)
  = Raise (NameError "Vec3").
Proof.
  destruct M4, v, M3, u. split.
  - unfold Mat4.matmul, Vec4.items. cbn [unpack16 unpack4 try_except is_ValueError mbind result_bind].
    cbn. reflexivity.
  - unfold Mat3.matmul, Vec3.items. cbn. reflexivity.
Qed.

(** Had the module bound [Vec3], [q1 @ q2] would be the Hamilton
    product: scalar part [a*b - u.v], vector part [v*a + u*b + u x v]. *)
Lemma Quaternion_matmul_when_names_bound (a ux uy uz b vx vy vz : F) :
  Quaternion.matmul (matrix_globals true)
    (Quaternion.Quaternion a ux uy uz) (Quaternion.Quaternion b vx vy vz)
  = Ok (Quaternion.Quaternion
          (a * b - (ux * vx + uy * vy + uz * vz))
          (vx * a + ux * b + (uy * vz - uz * vy))
          (vy * a + uy * b + (uz * vx - ux * vz))
          (vz * a + uz * b + (ux * vy - uy * vx))).
Proof. reflexivity. Qed.

(** C2 (as the code behaves): [Quaternion.__matmul__] builds its vector
    parts with [Vec3], which is not bound at run time, so every product
    of two quaternions raises [NameError] instead of returning the
    Hamilton product. *)
Theorem Quaternion_matmul_raises_NameError (q1 q2 : Quaternion.t F) :
  Quaternion.matmul (matrix_globals TYPE_CHECKING) q1 q2
  = Raise (NameError "Vec3").
Proof.
  unfold Quaternion.matmul, Quaternion.Vec3_of_tail.
  rewrite Vec3_unbound_at_run_time. reflexivity.
Qed.

End MatrixNames.

(** ** Exact arithmetic *)

Lemma Qc_inv_as_div (x : Qc) : Qcdiv (Q2Qc (inject_Z 1)) x = Qcinv x.
Proof. unfold Qcdiv. apply Qcmult_1_l. Qed.

#[global] Instance Qc_NumLaws : NumLaws Qc.
Proof.
  split.
  - destruct Qcft as [R E D I]. split.
    + exact R.
    + exact E.
    + intros p q. cbn. rewrite Qc_inv_as_div. apply D.
    + intros p Hp. cbn. rewrite Qc_inv_as_div. apply I. exact Hp.
  - intros x y. cbn. split.
    + apply Qc_eq_bool_correct.
    + intros ->. unfold Qc_eq_bool.
      destruct (Qcanon.Qc_eq_dec y y) as [E|N]; [reflexivity | contradiction].
Qed.

(** Two rationals with the same reduced fraction are the same number. *)
Ltac qc_eq := apply Qc_is_canon; vm_compute; reflexivity.

Lemma truediv_nonzero {F : Type} `{Num F} (x y : F) :
  num_eqb y zero = false -> truediv x y = Ok (num_div x y).
Proof. intros Hy. unfold truediv. rewrite Hy. reflexivity. Qed.

Section Exact.
Context {F : Type} `{NumLaws F}.
Add Field num_field_structure : num_field.
Local Open Scope num_scope.

Lemma num_eqb_false (x y : F) : x <> y -> num_eqb x y = false.
Proof.
  intros Hne. destruct (num_eqb x y) eqn:E; [| reflexivity].
  apply num_eqb_eq in E. contradiction.
Qed.

Lemma num_eqb_refl (x : F) : num_eqb x x = true.
Proof. apply num_eqb_eq. reflexivity. Qed.

Lemma reciprocal (x : F) :
  x <> zero -> truediv one x = Ok (num_div one x) /\ x * num_div one x = one.
Proof.
  intros Hx. split.
  - unfold truediv. rewrite (num_eqb_false _ _ Hx). reflexivity.
  - field. exact Hx.
Qed.

(** An entry of [M @ R] or [R @ M], for [R] built from cofactors times
    [r = 1/det]: it is [0] identically, or [det * r]. *)
Ltac product_entry det r Hr :=
  first [ ring | transitivity (det * r); [ ring | exact Hr ] ].

(** *** Inversion *)

(** A zero determinant: [~M] warns once and returns [M] itself. *)
Lemma invert_singular (M3 : Mat3.t F) (M4 : Mat4.t F) :
  (Mat3.det M3 = zero -> Mat3.invert M3 = (Ok M3, [singular_warning]))
  /\ (Mat4.det M4 = zero -> Mat4.invert M4 = (Ok M4, [singular_warning])).
Proof.
  split; intros Hdet.
  - destruct M3. unfold Mat3.invert, Mat3.det in *. cbv zeta in *.
    rewrite Hdet, num_eqb_refl. reflexivity.
  - destruct M4. unfold Mat4.invert, Mat4.det in *. cbv zeta in *.
    rewrite Hdet, num_eqb_refl. reflexivity.
Qed.

(** A non-zero determinant: [~M] of a [Mat4] returns, without a warning,
    the inverse of [M]. *)
Lemma Mat4_invert_regular (globals : namespace) (M : Mat4.t F) :
  Mat4.det M <> zero ->
  exists R, Mat4.invert M = (Ok R, [])
    /\ Mat4.matmul globals M (Mat4.items R) = Ok (Mat4.IsMat4 Mat4.identity)
    /\ Mat4.matmul globals R (Mat4.items M) = Ok (Mat4.IsMat4 Mat4.identity).
Proof.
  destruct M as [a11 a12 a13 a14 a21 a22 a23 a24 a31 a32 a33 a34 a41 a42 a43 a44].
  intros Hdet. destruct (reciprocal _ Hdet) as [Hdiv Hr].
  unfold Mat4.invert. cbv zeta.
  unfold Mat4.det in Hdet, Hdiv, Hr. cbv zeta in Hdet, Hdiv, Hr.
  rewrite (num_eqb_false _ _ Hdet), Hdiv.
  set (r := num_div one _) in *.
  eexists. split; [reflexivity |].
  split; cbn; do 2 f_equal; unfold Mat4.identity; f_equal;
    match type of Hr with ?d * _ = _ => product_entry d r Hr end.
Qed.

(** A non-zero determinant: [~M] of a [Mat3] returns, without a warning,
    the matrix of cofactors over the determinant, which is the transpose
    of the inverse of [M]. *)
Lemma Mat3_invert_regular_transposed (globals : namespace) (M : Mat3.t F) :
  Mat3.det M <> zero ->
  exists R, Mat3.invert M = (Ok R, [])
    /\ Mat3.matmul globals M (Mat3.items (Mat3_transpose R))
       = Ok (Mat3.IsMat3 Mat3.identity)
    /\ Mat3.matmul globals (Mat3_transpose R) (Mat3.items M)
       = Ok (Mat3.IsMat3 Mat3.identity).
Proof.
  destruct M as [a11 a12 a13 a21 a22 a23 a31 a32 a33].
  intros Hdet. destruct (reciprocal _ Hdet) as [Hdiv Hr].
  unfold Mat3.invert. cbv zeta.
  unfold Mat3.det in Hdet, Hdiv, Hr. cbv zeta in Hdet, Hdiv, Hr.
  rewrite (num_eqb_false _ _ Hdet), Hdiv.
  set (r := num_div one _) in *.
  eexists. split; [reflexivity |].
  split; cbn; do 2 f_equal; unfold Mat3.identity; f_equal;
    match type of Hr with ?d * _ = _ => product_entry d r Hr end.
Qed.

End Exact.

(** C4 (as the code behaves): the determinant of the translation by
    (2, 3) is 1, and [~M] returns [Mat3(1, 0, -2, 0, 1, -3, 0, 0, 1)],
    the transpose of the inverse [Mat3(1, 0, 0, 0, 1, 0, -2, -3, 1)]:
    its product with [M] is not the identity. *)
Theorem Mat3_invert_is_not_the_inverse :
  exists R P,
    num_eqb (Mat3.det translation_2_3) zero = false
    /\ Mat3.invert translation_2_3 = (Ok R, [])
    /\ Mat3.eqb R (Mat3.Mat3 one zero (num_of_Z (-2))
                             zero one (num_of_Z (-3))
                             zero zero one) = true
    /\ Mat3.matmul (matrix_globals TYPE_CHECKING) translation_2_3 (Mat3.items R)
       = Ok (Mat3.IsMat3 P)
    /\ Mat3.eqb P Mat3.identity = false.
Proof.
  do 2 eexists. split; [vm_compute; reflexivity |].
  split; [vm_compute; reflexivity |].
  split; [vm_compute; reflexivity |].
  split; [cbn; reflexivity |].
  vm_compute. reflexivity.
Qed.

(** ** Orthogonal projection *)

Lemma orthogonal_projection_unit_cube_k :
  forall R,
    Mat4.orthogonal_projection (F := Qc)
      (num_of_Z (-1)) one (num_of_Z (-1)) one (num_of_Z (-1)) one = Ok R ->
    Mat4.k R = num_of_Z (-1).
Proof.
  intros R HR. unfold Mat4.orthogonal_projection in HR.
  rewrite !truediv_nonzero in HR by (vm_compute; reflexivity).
  cbn in HR. injection HR as <-. cbn. qc_eq.
Qed.

(** C3 (the claim as stated fails): the projection of the cube
    [-1, 1]^3 is not the identity matrix; as Python compares them,
    [Mat4.orthogonal_projection(-1, 1, -1, 1, -1, 1) == Mat4()] is false. *)
Lemma orthogonal_projection_unit_cube_not_identity :
  Mat4.orthogonal_projection (F := Qc)
    (num_of_Z (-1)) one (num_of_Z (-1)) one (num_of_Z (-1)) one
  <> Ok Mat4.identity
  /\ (R ← Mat4.orthogonal_projection (F := Qc)
        (num_of_Z (-1)) one (num_of_Z (-1)) one (num_of_Z (-1)) one;
      Ok (Mat4.eqb R Mat4.identity)) = Ok false.
Proof.
  split.
  - intros Heq. apply orthogonal_projection_unit_cube_k in Heq.
    apply (f_equal this) in Heq. vm_compute in Heq. discriminate Heq.
  - vm_compute. reflexivity.
Qed.

(** C3 (amended): [Mat4.orthogonal_projection(-1, 1, -1, 1, -1, 1)] is
    the identity except for the z scale [k = 2 / -depth = -1]. *)
Theorem orthogonal_projection_unit_cube :
  Mat4.orthogonal_projection (F := Qc)
    (num_of_Z (-1)) one (num_of_Z (-1)) one (num_of_Z (-1)) one
  = Ok z_mirror
  /\ Mat4.items z_mirror
     = <[10%nat := num_of_Z (-1)]> (Mat4.items (Mat4.identity (F := Qc))).
Proof.
  split.
  - unfold Mat4.orthogonal_projection, z_mirror.
    rewrite !truediv_nonzero by (vm_compute; reflexivity). cbn.
    do 2 f_equal; qc_eq.
  - reflexivity.
Qed.

(** ** Translation of a Mat3, and adding zero to a vector *)

Section ExactVectors.
Context {F : Type} `{NumLaws F}.
Add Field num_field_structure' : num_field.
Local Open Scope num_scope.

(** In exact arithmetic [m.translate(tx, ty)] is a matrix [m'] with the
    first two columns of [m], whose third column is [m @ (-tx, ty, 1)];
    on the identity it is the translation column [(-tx, ty, 1)] itself;
    and [m'.translate(-tx, -ty)] is [m] again. *)
Lemma Mat3_translate_exact (globals : namespace) (m : Mat3.t F)
    (tx ty : F) :
  Mat3.translate globals m tx ty
  = Mat3.matmul globals m
      [one; zero; zero; zero; one; zero; - tx; ty; one]
  /\ Mat3.translate globals Mat3.identity tx ty
     = Ok (Mat3.IsMat3 (Mat3.Mat3 one zero zero zero one zero (- tx) ty one))
  /\ exists m',
       Mat3.translate globals m tx ty = Ok (Mat3.IsMat3 m')
       /\ Mat3.a m' = Mat3.a m /\ Mat3.b m' = Mat3.b m /\ Mat3.c m' = Mat3.c m
       /\ Mat3.d m' = Mat3.d m /\ Mat3.e m' = Mat3.e m /\ Mat3.f m' = Mat3.f m
       /\ Mat3.g m' = Mat3.a m * - tx + Mat3.d m * ty + Mat3.g m
       /\ Mat3.h m' = Mat3.b m * - tx + Mat3.e m * ty + Mat3.h m
       /\ Mat3.i m' = Mat3.c m * - tx + Mat3.f m * ty + Mat3.i m
       /\ Mat3.translate globals m' (- tx) (- ty) = Ok (Mat3.IsMat3 m).
Proof.
  split; [reflexivity |]. split.
  - unfold Mat3.translate, Mat3.identity. cbn. do 2 f_equal. f_equal; ring.
  - destruct m as [a11 a12 a13 a21 a22 a23 a31 a32 a33].
    unfold Mat3.translate. cbn. eexists. split; [reflexivity |]. cbn.
    repeat (split; [ring |]).
    do 2 f_equal. f_equal; ring.
Qed.

End ExactVectors.

Section Translation.
Context {F : Type} `{Num F}.
Local Open Scope num_scope.

(** C10 (amended): [m.translate(tx, ty)] is
    [m @ Mat3(1, 0, 0, 0, 1, 0, -tx, ty, 1)], the product of [m] with a
    matrix whose translation column is [(-tx, ty, 1)], the x offset
    negated and the y offset not: the third column of the result [m'] is
    [m @ (-tx, ty, 1)].  In exact arithmetic the other two columns are
    those of [m]; on the identity [m'] is that matrix itself; and
    [m'.translate(-tx, -ty)] is [m] again. *)
Theorem Mat3_translate_negates_x (globals : namespace) (m : Mat3.t F)
    (tx ty : F) :
  Mat3.translate globals m tx ty
  = Mat3.matmul globals m
      [one; zero; zero; zero; one; zero; - tx; ty; one]
  /\ exists m',
       Mat3.translate globals m tx ty = Ok (Mat3.IsMat3 m')
       /\ Mat3.g m' = Mat3.a m * - tx + Mat3.d m * ty + Mat3.g m * one
       /\ Mat3.h m' = Mat3.b m * - tx + Mat3.e m * ty + Mat3.h m * one
       /\ Mat3.i m' = Mat3.c m * - tx + Mat3.f m * ty + Mat3.i m * one
       /\ (NumLaws F ->
           Mat3.translate globals Mat3.identity tx ty
           = Ok (Mat3.IsMat3 (Mat3.Mat3 one zero zero zero one zero (- tx) ty one))
           /\ Mat3.a m' = Mat3.a m /\ Mat3.b m' = Mat3.b m /\ Mat3.c m' = Mat3.c m
           /\ Mat3.d m' = Mat3.d m /\ Mat3.e m' = Mat3.e m /\ Mat3.f m' = Mat3.f m
           /\ Mat3.g m' = Mat3.a m * - tx + Mat3.d m * ty + Mat3.g m
           /\ Mat3.h m' = Mat3.b m * - tx + Mat3.e m * ty + Mat3.h m
           /\ Mat3.i m' = Mat3.c m * - tx + Mat3.f m * ty + Mat3.i m
           /\ Mat3.translate globals m' (- tx) (- ty) = Ok (Mat3.IsMat3 m)).
Proof.
  split; [reflexivity |].
  assert (Hm' : exists m',
            Mat3.translate globals m tx ty = Ok (Mat3.IsMat3 m')
            /\ Mat3.g m' = Mat3.a m * - tx + Mat3.d m * ty + Mat3.g m * one
            /\ Mat3.h m' = Mat3.b m * - tx + Mat3.e m * ty + Mat3.h m * one
            /\ Mat3.i m' = Mat3.c m * - tx + Mat3.f m * ty + Mat3.i m * one).
  { destruct m as [a11 a12 a13 a21 a22 a23 a31 a32 a33].
    eexists. split; [reflexivity |]. cbn. auto. }
  destruct Hm' as (m' & Hm' & Hg & Hh & Hi).
  exists m'. split; [exact Hm' |]. split; [exact Hg |]. split; [exact Hh |].
  split; [exact Hi |].
  intros Hexact.
  destruct (Mat3_translate_exact globals m tx ty)
    as (_ & Hidentity & m'' & Hm'' & Hrest).
  rewrite Hm' in Hm''. injection Hm'' as <-.
  split; [exact Hidentity | exact Hrest].
Qed.

End Translation.

Lemma Mat3_translate_negates_x_witness :
  exists m',
    Mat3.translate (matrix_globals TYPE_CHECKING) translation_2_3
      (num_of_Z 5) (num_of_Z 7) = Ok (Mat3.IsMat3 m')
    /\ Mat3.translate (matrix_globals TYPE_CHECKING) m'
         (num_neg (num_of_Z 5)) (num_neg (num_of_Z 7))
       = Ok (Mat3.IsMat3 translation_2_3).
Proof.
  destruct (Mat3_translate_negates_x (F := Qc) (matrix_globals TYPE_CHECKING)
              translation_2_3 (num_of_Z 5) (num_of_Z 7))
    as (_ & m' & Hfirst & _ & _ & _ & Hexact).
  exists m'. split; [exact Hfirst |].
  destruct (Hexact _) as (_ & _ & _ & _ & _ & _ & _ & _ & _ & _ & Hback).
  exact Hback.
Defined.

(** *** Adding zero to a vector *)

(** For numbers to which adding 0 on either side changes nothing and
    that are equal to themselves, [v + 0] and [0 + v] are [v], and
    [v == v]. *)
Lemma vector_plus_zero_exact {F : Type} `{Num F}
    (v2 : Vec2.t F) (v3 : Vec3.t F) (v4 : Vec4.t F) :
  (forall x : F, num_add x zero = x) ->
  (forall x : F, num_add zero x = x) ->
  (forall x : F, num_eqb x x = true) ->
  (Vec2.add v2 (Number zero) = Ok v2 /\ Vec2.radd v2 (Number zero) = Ok v2
   /\ Vec2.eqb v2 v2 = true)
  /\ (Vec3.add v3 (Number zero) = Ok v3 /\ Vec3.radd v3 (Number zero) = Ok v3
      /\ Vec3.eqb v3 v3 = true)
  /\ (Vec4.add v4 (Number zero) = Ok v4 /\ Vec4.radd v4 (Number zero) = Ok v4
      /\ Vec4.eqb v4 v4 = true).
Proof.
  intros Hright Hleft Hsame.
  assert (E2 : Vec2.add v2 (Number zero) = Ok v2).
  { destruct v2. unfold Vec2.add. cbn. rewrite !Hright. reflexivity. }
  assert (E3 : Vec3.add v3 (Number zero) = Ok v3).
  { destruct v3. unfold Vec3.add. cbn. rewrite !Hright. reflexivity. }
  assert (E4 : Vec4.add v4 (Number zero) = Ok v4).
  { destruct v4. unfold Vec4.add. cbn. rewrite !Hleft. reflexivity. }
  unfold Vec2.radd, Vec3.radd, Vec4.radd. rewrite E2, E3, E4. cbn.
  unfold Vec2.eqb, Vec3.eqb, Vec4.eqb. rewrite !Hsame.
  repeat split; reflexivity.
Qed.

(** Exact arithmetic has these three properties. *)
Lemma zero_neutral {F : Type} `{NumLaws F} :
  (forall x : F, num_add x zero = x)
  /\ (forall x : F, num_add zero x = x)
  /\ (forall x : F, num_eqb x x = true).
Proof.
  pose proof (F_R num_field) as R.
  split; [| split].
  - intros x. rewrite (Radd_comm R). apply (Radd_0_l R).
  - intros x. apply (Radd_0_l R).
  - intros x. apply num_eqb_refl.
Qed.

(** *** Adding zero to a float *)

(** [x == x] on floats fails for a NaN only. *)
Lemma SFeqb_same (s : SpecFloat.spec_float) :
  SpecFloat.SFeqb s s
  = match s with SpecFloat.S754_nan => false | _ => true end.
Proof.
  destruct s as [sign | sign | | sign m e]; try reflexivity.
  - destruct sign; reflexivity.
  - unfold SpecFloat.SFeqb, SpecFloat.SFcompare.
    destruct sign; rewrite Z.compare_refl; cbn;
      rewrite Pos.compare_cont_refl; reflexivity.
Qed.

(** [x + 0] compares equal to [x] unless [x] is a NaN ([-0.0 + 0] is
    [0.0], which [==] does not tell from [-0.0]). *)
Lemma float_add_zero_r (x : PrimFloat.float) :
  num_eqb (num_add x zero) x = negb (PrimFloat.is_nan x).
Proof.
  cbn. unfold PrimFloat.is_nan.
  rewrite !FloatAxioms.eqb_spec, FloatAxioms.add_spec.
  change (FloatOps.Prim2SF PrimFloat.zero) with (SpecFloat.S754_zero false).
  rewrite SFeqb_same.
  destruct (FloatOps.Prim2SF x) as [sign | sign | | sign m e]; try reflexivity.
  - destruct sign; reflexivity.
  - destruct sign; reflexivity.
  - cbn. apply (SFeqb_same (SpecFloat.S754_finite sign m e)).
Qed.

Lemma float_add_zero_l (x : PrimFloat.float) :
  num_eqb (num_add zero x) x = negb (PrimFloat.is_nan x).
Proof.
  cbn. unfold PrimFloat.is_nan.
  rewrite !FloatAxioms.eqb_spec, FloatAxioms.add_spec.
  change (FloatOps.Prim2SF PrimFloat.zero) with (SpecFloat.S754_zero false).
  rewrite SFeqb_same.
  destruct (FloatOps.Prim2SF x) as [sign | sign | | sign m e]; try reflexivity.
  - destruct sign; reflexivity.
  - destruct sign; reflexivity.
  - cbn. apply (SFeqb_same (SpecFloat.S754_finite sign m e)).
Qed.

(** On floats [v + 0] and [0 + v] succeed with the same vector, which
    compares equal to [v] exactly when no component of [v] is a NaN. *)
Lemma vector_plus_zero_float
    (v2 : Vec2.t PrimFloat.float) (v3 : Vec3.t PrimFloat.float)
    (v4 : Vec4.t PrimFloat.float) :
  (exists s, Vec2.add v2 (Number zero) = Ok s
     /\ Vec2.radd v2 (Number zero) = Ok s
     /\ Vec2.eqb s v2 = no_NaN (Vec2.items v2))
  /\ (exists s, Vec3.add v3 (Number zero) = Ok s
        /\ Vec3.radd v3 (Number zero) = Ok s
        /\ Vec3.eqb s v3 = no_NaN (Vec3.items v3))
  /\ (exists s, Vec4.add v4 (Number zero) = Ok s
        /\ Vec4.radd v4 (Number zero) = Ok s
        /\ Vec4.eqb s v4 = no_NaN (Vec4.items v4)).
Proof.
  split; [| split].
  - destruct v2 as [x y]. eexists. split; [reflexivity |]. split; [reflexivity |].
    unfold Vec2.eqb, no_NaN. cbn [Vec2.x Vec2.y Vec2.items forallb].
    rewrite !float_add_zero_r, andb_true_r. reflexivity.
  - destruct v3 as [x y z]. eexists. split; [reflexivity |]. split; [reflexivity |].
    unfold Vec3.eqb, no_NaN. cbn [Vec3.x Vec3.y Vec3.z Vec3.items forallb].
    rewrite !float_add_zero_r, andb_true_r, andb_assoc. reflexivity.
  - destruct v4 as [x y z w]. eexists. split; [reflexivity |]. split; [reflexivity |].
    unfold Vec4.eqb, no_NaN. cbn [Vec4.x Vec4.y Vec4.z Vec4.w Vec4.items forallb].
    rewrite !float_add_zero_l, andb_true_r, !andb_assoc. reflexivity.
Qed.

(** C8 (the claim as stated fails): for [v = Vec2(nan, 1.0)] both
    [v + 0] and [0 + v] succeed, but the result does not compare equal
    to [v]: its first component is a NaN, and [nan == nan] is [False]. *)
Lemma vector_plus_zero_fails_for_NaN :
  exists s,
    Vec2.add a_NaN_vector (Number zero) = Ok s
    /\ Vec2.radd a_NaN_vector (Number zero) = Ok s
    /\ Vec2.eqb s a_NaN_vector = false.
Proof.
  eexists. split; [reflexivity |]. split; [reflexivity |].
  vm_compute. reflexivity.
Qed.

(** C8 (amended): for a vector [v] of two, three or four components,
    [v + 0] and [0 + v] (which Python evaluates as [v.__radd__(0)])
    succeed.  For components of a number type in which [x + 0] and
    [0 + x] are [x] and [x == x] holds, as in exact arithmetic, the
    result is [v], and it compares equal to [v].  On floats the result
    compares equal to [v] exactly when no component of [v] is a NaN. *)
Theorem vector_plus_zero :
  (forall (F : Type) (N : Num F),
   (forall x : F, num_add x zero = x) ->
   (forall x : F, num_add zero x = x) ->
   (forall x : F, num_eqb x x = true) ->
   forall (v2 : Vec2.t F) (v3 : Vec3.t F) (v4 : Vec4.t F),
     (Vec2.add v2 (Number zero) = Ok v2 /\ Vec2.radd v2 (Number zero) = Ok v2
      /\ Vec2.eqb v2 v2 = true)
     /\ (Vec3.add v3 (Number zero) = Ok v3 /\ Vec3.radd v3 (Number zero) = Ok v3
         /\ Vec3.eqb v3 v3 = true)
     /\ (Vec4.add v4 (Number zero) = Ok v4 /\ Vec4.radd v4 (Number zero) = Ok v4
         /\ Vec4.eqb v4 v4 = true))
  /\ (forall (v2 : Vec2.t PrimFloat.float) (v3 : Vec3.t PrimFloat.float)
             (v4 : Vec4.t PrimFloat.float),
        (exists s, Vec2.add v2 (Number zero) = Ok s
           /\ Vec2.radd v2 (Number zero) = Ok s
           /\ Vec2.eqb s v2 = no_NaN (Vec2.items v2))
        /\ (exists s, Vec3.add v3 (Number zero) = Ok s
              /\ Vec3.radd v3 (Number zero) = Ok s
              /\ Vec3.eqb s v3 = no_NaN (Vec3.items v3))
        /\ (exists s, Vec4.add v4 (Number zero) = Ok s
              /\ Vec4.radd v4 (Number zero) = Ok s
              /\ Vec4.eqb s v4 = no_NaN (Vec4.items v4))).
Proof.
  split.
  - intros F N Hright Hleft Hsame v2 v3 v4.
    apply vector_plus_zero_exact; assumption.
  - apply vector_plus_zero_float.
Qed.

Lemma vector_plus_zero_witness :
  Vec2.add (Vec2.Vec2 (num_of_Z 3) (num_of_Z 4)) (Number (F := Qc) zero)
  = Ok (Vec2.Vec2 (num_of_Z 3) (num_of_Z 4))
  /\ Vec4.radd (Vec4.Vec4 one (num_of_Z 2) (num_of_Z 3) (num_of_Z 4))
       (Number (F := Qc) zero)
     = Ok (Vec4.Vec4 one (num_of_Z 2) (num_of_Z 3) (num_of_Z 4)).
Proof.
  destruct vector_plus_zero as [Hexact _].
  destruct (zero_neutral (F := Qc)) as (Hright & Hleft & Hsame).
  destruct (Hexact Qc _ Hright Hleft Hsame
              (Vec2.Vec2 (num_of_Z 3) (num_of_Z 4))
              (Vec3.Vec3 one (num_of_Z 2) (num_of_Z 3))
              (Vec4.Vec4 one (num_of_Z 2) (num_of_Z 3) (num_of_Z 4)))
    as ((E2 & _) & _ & (_ & R4 & _)).
  split; [exact E2 | exact R4].
Defined.

(** C10 (the claim as stated fails): on floats the round trip can miss
    the matrix by rounding.  From the translation by (0.3, 0.3),
    [translate(0.1, 0.1)] and then [translate(-0.1, -0.1)] end at
    [h = 0.1 + 0.2 = 0.30000000000000004], and the result does not
    compare equal to the first matrix. *)
Lemma Mat3_translate_round_trip_rounds :
  exists m' m'',
    Mat3.translate (matrix_globals TYPE_CHECKING) translation_3_tenths
      (tenths 1) (tenths 1) = Ok (Mat3.IsMat3 m')
    /\ Mat3.translate (matrix_globals TYPE_CHECKING) m'
         (num_neg (tenths 1)) (num_neg (tenths 1)) = Ok (Mat3.IsMat3 m'')
    /\ num_eqb (Mat3.h m'') (num_add (tenths 1) (tenths 2)) = true
    /\ num_eqb (Mat3.h m'') (Mat3.h translation_3_tenths) = false
    /\ Mat3.eqb m'' translation_3_tenths = false.
Proof.
  eexists. eexists. split; [reflexivity |]. split; [reflexivity |].
  repeat split; vm_compute; reflexivity.
Qed.

(** ** Event dispatch *)

Section Dispatch.
Context {World Args : Type}.
Local Abbreviation callable := (Event.callable World Args).
Local Abbreviation handler := (Event.handler World Args).






Lemma call_each_all_falsy (args : Args) (fs : list callable) (w w' : World) :
  Event.all_falsy args fs w w' -> Event.call_each fs args w = (Ok false, w').
Proof.
  induction 1 as [w | g rest w wa wb Hg _ IH]; cbn; [reflexivity |].
  rewrite Hg. exact IH.
Qed.





End Dispatch.

(** Registered in the order A, B, C: the dispatch calls C, then B, and
    never A. *)
Example dispatch_A_B_C :
  (d ← Event.add_each Event.new "on_key_press"
         [logging "A" false; logging "B" true; logging "C" false];
   Ok (Event.dispatch_event d "on_key_press" tt []))
  = Ok (Ok true, ["C"; "B"]).
Proof. vm_compute. reflexivity. Qed.

(** With no local callable handling the event, the downstream handlers
    are asked, the one pushed last first. *)
Example dispatch_downstream :
  (first ← Event.add_each Event.new "on_draw" [logging "first" false];
   second ← Event.add_each Event.new "on_draw" [logging "second" true];
   d ← Event.add_each Event.new "on_draw" [logging "local" false];
   d ← Event.push_each d [first; second];
   Ok (Event.dispatch_event d "on_draw" tt []))
  = Ok (Ok true, ["local"; "second"]).
Proof. vm_compute. reflexivity. Qed.


(** ** Modifier names *)

(** C6 (the claim as stated fails): with MOD_COMMAND and MOD_SCROLLLOCK
    set, the names come out in the order of the tests, MOD_SCROLLLOCK
    first, and not in the order the constants are declared. *)
Lemma modifiers_string_not_in_declared_order :
  Key.modifiers_string (Z.lor Key.MOD_COMMAND Key.MOD_SCROLLLOCK)
  = "MOD_SCROLLLOCK|MOD_COMMAND"
  /\ Key.modifiers_string_declared_order (Z.lor Key.MOD_COMMAND Key.MOD_SCROLLLOCK)
     = "MOD_COMMAND|MOD_SCROLLLOCK"
  /\ Key.modifiers_string (Z.lor Key.MOD_COMMAND Key.MOD_SCROLLLOCK)
     <> Key.modifiers_string_declared_order (Z.lor Key.MOD_COMMAND Key.MOD_SCROLLLOCK).
Proof.
  split; [vm_compute; reflexivity |].
  split; [vm_compute; reflexivity |].
  vm_compute. discriminate.
Qed.

(** MOD_WINDOWS is declared but never tested: alone it gives the empty
    string. *)
Lemma modifiers_string_MOD_WINDOWS :
  Key.modifiers_string Key.MOD_WINDOWS = ""
  /\ Key.modifiers_string_declared_order Key.MOD_WINDOWS = "MOD_WINDOWS".
Proof. split; vm_compute; reflexivity. Qed.

Lemma names_of_set_flags_In (table : list (Z * string)) (modifiers : Z)
    (name : string) :
  List.In name (Key.names_of_set_flags table modifiers)
  <-> exists flag, List.In (flag, name) table /\ Key.test modifiers flag = true.
Proof.
  unfold Key.names_of_set_flags. rewrite in_map_iff. split.
  - intros ([flag name'] & Hname & Hin). cbn in Hname. subst name'.
    apply filter_In in Hin as [Hin Htest]. exists flag. auto.
  - intros (flag & Hin & Htest). exists (flag, name). split; [reflexivity |].
    apply filter_In. auto.
Qed.

(** The nine sequential tests are a filter of the table of tested flags. *)
Lemma modifiers_string_filter (modifiers : Z) :
  Key.modifiers_string modifiers
  = String.concat "|" (Key.names_of_set_flags Key.tested modifiers).
Proof.
  unfold Key.modifiers_string, Key.names_of_set_flags, Key.tested, Key.append_if.
  cbn [List.filter fst snd].
  destruct (Key.test modifiers Key.MOD_SHIFT),
           (Key.test modifiers Key.MOD_CTRL),
           (Key.test modifiers Key.MOD_ALT),
           (Key.test modifiers Key.MOD_CAPSLOCK),
           (Key.test modifiers Key.MOD_NUMLOCK),
           (Key.test modifiers Key.MOD_SCROLLLOCK),
           (Key.test modifiers Key.MOD_COMMAND),
           (Key.test modifiers Key.MOD_OPTION),
           (Key.test modifiers Key.MOD_FUNCTION); reflexivity.
Qed.

(** C6 (amended): for a bitmask without MOD_WINDOWS, [modifiers_string]
    joins with a bar the names of exactly the declared flags that are set,
    in the order SHIFT, CTRL, ALT, CAPSLOCK, NUMLOCK, SCROLLLOCK, COMMAND,
    OPTION, FUNCTION. *)
Theorem modifiers_string_tested_order (modifiers : Z) :
  Z.land modifiers Key.MOD_WINDOWS = 0%Z ->
  Key.modifiers_string modifiers
  = String.concat "|" (Key.names_of_set_flags Key.tested modifiers)
  /\ forall flag name,
       List.In (flag, name) Key.declared ->
       (List.In name (Key.names_of_set_flags Key.tested modifiers)
        <-> Key.test modifiers flag = true).
Proof.
  intros Hwin. split; [apply modifiers_string_filter |].
  intros flag name Hdecl. rewrite names_of_set_flags_In. split.
  - intros (flag' & Htested & Htest).
    unfold Key.declared in Hdecl. unfold Key.tested in Htested.
    cbn [List.In] in Hdecl, Htested.
    repeat (destruct Hdecl as [Hdecl | Hdecl]; [injection Hdecl as <- <- |]);
      try contradiction;
      repeat (destruct Htested as [Htested | Htested]; [congruence |]);
      contradiction.
  - intros Htest. exists flag. split; [| exact Htest].
    unfold Key.declared in Hdecl. unfold Key.tested.
    cbn [List.In] in Hdecl |- *.
    repeat (destruct Hdecl as [Hdecl | Hdecl]; [injection Hdecl as <- <- |]);
      try contradiction; auto 12.
    unfold Key.test in Htest. rewrite Hwin in Htest. discriminate Htest.
Qed.

Lemma modifiers_string_tested_order_witness :
  Key.modifiers_string (Z.lor Key.MOD_SHIFT Key.MOD_SCROLLLOCK)
  = String.concat "|"
      (Key.names_of_set_flags Key.tested (Z.lor Key.MOD_SHIFT Key.MOD_SCROLLLOCK)).
Proof.
  apply (modifiers_string_tested_order (Z.lor Key.MOD_SHIFT Key.MOD_SCROLLLOCK)).
  vm_compute. reflexivity.
Defined.

(** ** Colours of a bordered rectangle *)

Section Rectangle.
Context {F : Type} `{Num F}.

(** C7: for colours of three or four components, the constructor raises
    the ambiguity [ValueError] exactly when both are RGBA with different
    alphas; otherwise it succeeds, keeps the RGB parts, and stores one
    alpha in both RGBA values: the alpha supplied, or 255 when none is. *)
Theorem BorderedRectangle_shared_alpha (x y width height border : F)
    (color border_color : list Z) :
  BorderedRectangle.is_ColorValue color ->
  BorderedRectangle.is_ColorValue border_color ->
  (BorderedRectangle.init x y width height border color border_color
   = Raise (ValueError BorderedRectangle.ambiguity)
   <-> BorderedRectangle.alpha_conflict color border_color)
  /\ (~ BorderedRectangle.alpha_conflict color border_color ->
      exists r,
        BorderedRectangle.init x y width height border color border_color = Ok r
        /\ BorderedRectangle.rgb_of (BorderedRectangle._rgba r) = take 3 color
        /\ BorderedRectangle.rgb_of (BorderedRectangle._border_rgba r)
           = take 3 border_color
        /\ BorderedRectangle.alpha_of (BorderedRectangle._rgba r)
           = BorderedRectangle.supplied_alpha color border_color
        /\ BorderedRectangle.alpha_of (BorderedRectangle._border_rgba r)
           = BorderedRectangle.supplied_alpha color border_color).
Proof.
  unfold BorderedRectangle.is_ColorValue, BorderedRectangle.alpha_conflict.
  intros Hc Hb.
  destruct color as [| r [| g [| b [| a [| ? ?]]]]]; cbn in Hc;
    try (exfalso; lia);
    destruct border_color as [| r' [| g' [| b' [| a' [| ? ?]]]]]; cbn in Hb;
    try (exfalso; lia); clear Hc Hb; cbn.
  - split; [split; [discriminate | lia] |].
    intros _. eexists. repeat split; reflexivity.
  - split; [split; [discriminate | lia] |].
    intros _. eexists. repeat split; reflexivity.
  - split; [split; [discriminate | lia] |].
    intros _. eexists. repeat split; reflexivity.
  - destruct (Z.eqb_spec a a') as [-> | Hne]; cbn.
    + split; [split; [discriminate | intros (_ & _ & Hd); contradiction] |].
      intros _. eexists. repeat split; reflexivity.
    + split; [split; [intros _; auto | reflexivity] |].
      intros Hno. exfalso. apply Hno. auto.
Qed.

End Rectangle.

(** A fill without alpha and a border with alpha 100: both stored
    colours get alpha 100. *)
Lemma BorderedRectangle_shared_alpha_witness :
  exists r,
    BorderedRectangle.init (F := Qc) zero zero (num_of_Z 10) (num_of_Z 5) one
      [255; 0; 0]%Z [0; 0; 255; 100]%Z = Ok r
    /\ BorderedRectangle._rgba r = (255, 0, 0, 100)%Z
    /\ BorderedRectangle._border_rgba r = (0, 0, 255, 100)%Z.
Proof.
  destruct (BorderedRectangle_shared_alpha (F := Qc)
              zero zero (num_of_Z 10) (num_of_Z 5) one
              [255; 0; 0]%Z [0; 0; 255; 100]%Z) as [_ Hok].
  - left. reflexivity.
  - right. reflexivity.
  - destruct Hok as (r & Hinit & _).
    + intros (Hlen & _). discriminate Hlen.
    + exists r. split; [exact Hinit |].
      cbn in Hinit. injection Hinit as <-. split; reflexivity.
Defined.

(** Two RGBA colours with alphas 200 and 100: the constructor raises. *)
Example BorderedRectangle_conflicting_alpha :
  BorderedRectangle.init (F := Qc) zero zero (num_of_Z 10) (num_of_Z 5) one
    [255; 0; 0; 200]%Z [0; 0; 255; 100]%Z
  = Raise (ValueError BorderedRectangle.ambiguity).
Proof. reflexivity. Qed.

(** ** Debug output of the audio driver factories *)

(** C9 (the claim as stated fails): both modules are imported while
    [debug_media] is off, the option is then switched on, and the
    factories are called: the option is on at the call, and neither
    factory produces debug output. *)
Lemma create_audio_driver_ignores_option_at_call :
  exists g_openal g_pulse,
    Media.OpenAL.import quiet_process = Ok g_openal
    /\ Media.Pulse.import quiet_process = Ok g_pulse
    /\ Media.debug_media (Media.set_option "debug_media" true quiet_process) = true
    /\ List.filter Media.is_debug_output
         (Media.effects
            (snd (Media.OpenAL.create_audio_driver a_driver a_version g_openal None
                    (Media.set_option "debug_media" true quiet_process))))
       = []
    /\ List.filter Media.is_debug_output
         (Media.effects
            (snd (Media.Pulse.create_audio_driver "pulse" g_pulse
                    (Media.set_option "debug_media" true quiet_process))))
       = [].
Proof.
  do 2 eexists.
  split; [vm_compute; reflexivity |].
  split; [vm_compute; reflexivity |].
  split; [vm_compute; reflexivity |].
  split; reflexivity.
Qed.

Section Factories.
Context {OpenALDriver PulseAudioDriver : Type}.
Variable new_openal : option string -> OpenALDriver.
Variable get_version : OpenALDriver -> string.
Variable new_pulse : PulseAudioDriver.

Lemma import_reads_debug_media (p : Media.process)
    (g_openal : Media.OpenAL.globals) (g_pulse : Media.Pulse.globals) :
  Media.OpenAL.import p = Ok g_openal ->
  Media.Pulse.import p = Ok g_pulse ->
  Media.OpenAL._debug g_openal = Media.debug_media p
  /\ Media.Pulse._debug g_pulse = Media.debug_media p.
Proof.
  unfold Media.OpenAL.import, Media.Pulse.import, Media.debug_media.
  destruct (Media.options p !! "debug_media") as [flag |]; [| discriminate].
  intros [= <-] [= <-]. split; reflexivity.
Qed.

(** C9 (amended): the factories produce their debug output exactly when
    [debug_media] was enabled in the options at the time their module was
    imported, whatever the options are at the call; the drivers returned
    and the options are the same either way. *)
Theorem create_audio_driver_debug_fixed_at_import
    (at_import at_call : Media.process) (device_name : option string)
    (g_openal : Media.OpenAL.globals) (g_pulse : Media.Pulse.globals) :
  Media.OpenAL.import at_import = Ok g_openal ->
  Media.Pulse.import at_import = Ok g_pulse ->
  Media.OpenAL.create_audio_driver new_openal get_version g_openal device_name at_call
  = (new_openal device_name,
     Media.Process (Media.options at_call)
       (Media.effects at_call
        ++ (if Media.debug_media at_import
            then [Media.Printed ["OpenAL"; get_version (new_openal device_name)]]
            else [])))
  /\ Media.Pulse.create_audio_driver new_pulse g_pulse at_call
     = (new_pulse,
        Media.Process (Media.options at_call)
          (Media.effects at_call ++ [Media.Connected]
           ++ (if Media.debug_media at_import
               then [Media.DumpedDebugInfo]
               else []))).
Proof.
  intros Hopenal Hpulse.
  destruct (import_reads_debug_media at_import g_openal g_pulse Hopenal Hpulse)
    as [Eopenal Epulse].
  unfold Media.OpenAL.create_audio_driver, Media.Pulse.create_audio_driver.
  rewrite Eopenal, Epulse. destruct at_call as [opts effs].
  destruct (Media.debug_media at_import); unfold Media.emit; cbn.
  - split; [reflexivity |]. do 2 f_equal.
    symmetry. apply (List.app_assoc effs [Media.Connected] [Media.DumpedDebugInfo]).
  - rewrite app_nil_r. split; reflexivity.
Qed.

End Factories.

(** Imported while [debug_media] is on and called after it was switched
    off: the debug output is still produced. *)
Lemma create_audio_driver_debug_fixed_at_import_witness :
  Media.effects
    (snd (Media.OpenAL.create_audio_driver a_driver a_version
            (Media.OpenAL.Globals true false) None
            (Media.set_option "debug_media" false verbose_process)))
  = [Media.Printed ["OpenAL"; "1.1"]]
  /\ Media.effects
       (snd (Media.Pulse.create_audio_driver "pulse"
               (Media.Pulse.Globals true)
               (Media.set_option "debug_media" false verbose_process)))
     = [Media.Connected; Media.DumpedDebugInfo].
Proof.
  destruct (create_audio_driver_debug_fixed_at_import a_driver a_version "pulse"
              verbose_process
              (Media.set_option "debug_media" false verbose_process) None
              (Media.OpenAL.Globals true false) (Media.Pulse.Globals true))
    as [Hopenal Hpulse].
  - vm_compute. reflexivity.
  - vm_compute. reflexivity.
  - rewrite Hopenal, Hpulse. split; reflexivity.
Defined.
(** * Further properties *)

(** ** kiglent/vector.py: arithmetic of the vector classes *)

Lemma Qc_nonzero (x : Qc) : Qeq_bool (this x) (this (num_of_Z 0)) = false -> x <> zero.
Proof.
  intros Hne Heq. rewrite Heq in Hne.
  rewrite (proj2 (Qeq_bool_iff _ _) (Qeq_refl _)) in Hne. discriminate Hne.
Qed.

#[global] Instance Qc_NumOrdLaws : NumOrdLaws Qc.
Proof.
  split.
  - intros x. cbn. rewrite (proj1 (Qceq_alt x x) eq_refl). reflexivity.
  - intros x y z. cbn.
    destruct (x ?= y)%Qc eqn:Exy; try discriminate.
    destruct (y ?= z)%Qc eqn:Eyz; try discriminate. intros _ _.
    apply Qclt_alt in Exy. apply Qclt_alt in Eyz.
    rewrite (proj1 (Qclt_alt x z) (Qclt_trans _ _ _ Exy Eyz)). reflexivity.
Qed.

Section VectorShapes.
Context {F : Type} `{Num F}.
Local Open Scope num_scope.

(** X1: [v + other] with a tuple-like [other] adds the leading items of
    [other] component by component and ignores the items beyond; an
    [other] too short for the vector raises [IndexError], which the
    fallback for numbers ([except TypeError]) does not catch.  [Vec4]
    adds with the operands exchanged, [other[i] + self[i]]. *)
Theorem vector_add_sequence (v2 : Vec2.t F) (v3 : Vec3.t F) (v4 : Vec4.t F)
    (other : list F) :
  Vec2.add v2 (Sequence other)
  = match other with
    | a :: b :: _ => Ok (Vec2.Vec2 (Vec2.x v2 + a) (Vec2.y v2 + b))
    | _ => Raise IndexError
    end
  /\ Vec3.add v3 (Sequence other)
     = match other with
       | a :: b :: c :: _ =>
           Ok (Vec3.Vec3 (Vec3.x v3 + a) (Vec3.y v3 + b) (Vec3.z v3 + c))
       | _ => Raise IndexError
       end
  /\ Vec4.add v4 (Sequence other)
     = match other with
       | a :: b :: c :: d :: _ =>
           Ok (Vec4.Vec4 (a + Vec4.x v4) (b + Vec4.y v4)
                         (c + Vec4.z v4) (d + Vec4.w v4))
       | _ => Raise IndexError
       end.
Proof.
  destruct other as [| a [| b [| c [| d rest]]]]; repeat split; reflexivity.
Qed.

End VectorShapes.

Section VectorAlgebra.
Context {F : Type} `{NumLaws F}.
Add Field vector_field_structure : num_field.
Local Open Scope num_scope.

Lemma one_not_zero : (one : F) <> zero.
Proof. exact (F_1_neq_0 num_field). Qed.

(** X2: adding a vector and subtracting it again gives the first vector
    back, a vector plus its negation is the zero vector, and negating
    twice changes nothing; for two, three and four components. *)
Theorem vector_add_sub_round_trip (v2 w2 : Vec2.t F) (v3 w3 : Vec3.t F)
    (v4 w4 : Vec4.t F) :
  (exists s, Vec2.add v2 (Sequence (Vec2.items w2)) = Ok s
             /\ Vec2.sub s (Sequence (Vec2.items w2)) = Ok v2
             /\ Vec2.add v2 (Sequence (Vec2.items (Vec2.neg v2)))
                = Ok (Vec2.Vec2 zero zero)
             /\ Vec2.neg (Vec2.neg v2) = v2)
  /\ (exists s, Vec3.add v3 (Sequence (Vec3.items w3)) = Ok s
                /\ Vec3.sub s (Sequence (Vec3.items w3)) = Ok v3
                /\ Vec3.add v3 (Sequence (Vec3.items (Vec3.neg v3)))
                   = Ok (Vec3.Vec3 zero zero zero)
                /\ Vec3.neg (Vec3.neg v3) = v3)
  /\ (exists s, Vec4.add v4 (Sequence (Vec4.items w4)) = Ok s
                /\ Vec4.sub s (Sequence (Vec4.items w4)) = Ok v4
                /\ Vec4.add v4 (Sequence (Vec4.items (Vec4.neg v4)))
                   = Ok (Vec4.Vec4 zero zero zero zero)
                /\ Vec4.neg (Vec4.neg v4) = v4).
Proof.
  destruct v2, w2, v3, w3, v4, w4.
  repeat split; eexists;
    (split; [reflexivity |]);
    (split; [cbn; do 2 f_equal; ring |]);
    unfold Vec2.neg, Vec3.neg, Vec4.neg; cbn;
    (split; [do 2 f_equal; ring | f_equal; ring]).
Qed.

(** X3: [v / s] for a number [s] raises [ZeroDivisionError] when [s] is
    zero; otherwise it returns a vector which, multiplied by [s], is [v]
    again. *)
Theorem Vec2_truediv_scalar (v : Vec2.t F) (s : F) :
  (s = zero -> Vec2.truediv v (Number s) = Raise ZeroDivisionError)
  /\ (s <> zero ->
      exists q, Vec2.truediv v (Number s) = Ok q
                /\ Vec2.mul q (Number s) = Ok v).
Proof.
  destruct v as [vx vy]. split.
  - intros ->. unfold Vec2.truediv. cbn. unfold truediv.
    rewrite (proj2 (num_eqb_eq zero zero) eq_refl). reflexivity.
  - intros Hs. unfold Vec2.truediv. cbn. unfold truediv.
    destruct (num_eqb s zero) eqn:E; [apply num_eqb_eq in E; contradiction |].
    cbn. eexists. split; [reflexivity |]. cbn. do 2 f_equal; field; exact Hs.
Qed.

Lemma Vec2_sum_onto (vectors : list (Vec2.t F)) :
  forall acc,
    Vec2.sum_onto acc vectors
    = Ok (Vec2.Vec2 (Vec2.x acc + sum_coordinate Vec2.x vectors)
                    (Vec2.y acc + sum_coordinate Vec2.y vectors)).
Proof.
  unfold sum_coordinate. induction vectors as [| v rest IH]; intros [ax ay]; cbn.
  - do 2 f_equal; ring.
  - destruct v as [vx vy]. cbn. rewrite IH. cbn. do 2 f_equal; ring.
Qed.

(** X4: the built-in [sum] works on a list of [Vec2]: it starts from the
    integer [0], [0 + v] goes through [__radd__], and the result is the
    vector of the sums of the coordinates (of no vector at all, the
    integer [0] itself, here [None]). *)
Theorem Vec2_sum (vectors : list (Vec2.t F)) :
  Vec2.sum_of vectors
  = Ok (match vectors with
        | [] => None
        | _ => Some (Vec2.Vec2 (sum_coordinate Vec2.x vectors) (sum_coordinate Vec2.y vectors))
        end).
Proof.
  destruct vectors as [| [vx vy] rest]; [reflexivity |].
  unfold Vec2.sum_of, Vec2.radd, Vec2.add. cbn. rewrite Vec2_sum_onto.
  unfold sum_coordinate. cbn. do 3 f_equal; ring.
Qed.

(** [lerp] with the amount 0 is the vector itself and with the amount 1
    the other one. *)
Lemma lerp_endpoints (v2 w2 : Vec2.t F) (v3 w3 : Vec3.t F) :
  Vec2.lerp v2 (Sequence (Vec2.items w2)) zero = Ok v2
  /\ Vec2.lerp v2 (Sequence (Vec2.items w2)) one = Ok w2
  /\ Vec3.lerp v3 (Sequence (Vec3.items w3)) zero = Ok v3
  /\ Vec3.lerp v3 (Sequence (Vec3.items w3)) one = Ok w3.
Proof.
  destruct v2, w2, v3, w3. repeat split; cbn; do 2 f_equal; ring.
Qed.

(** X5: the cross product of two [Vec3] is orthogonal to both, changes
    sign when the operands are exchanged, and is zero for a vector with
    itself. *)
Theorem Vec3_cross_orthogonal (v w : Vec3.t F) :
  exists c,
    Vec3.cross v (Sequence (Vec3.items w)) = Ok c
    /\ Vec3.cross w (Sequence (Vec3.items v)) = Ok (Vec3.neg c)
    /\ Vec3.dot v (Sequence (Vec3.items c)) = Ok zero
    /\ Vec3.dot w (Sequence (Vec3.items c)) = Ok zero
    /\ Vec3.cross v (Sequence (Vec3.items v)) = Ok (Vec3.Vec3 zero zero zero).
Proof.
  destruct v, w. eexists. split; [reflexivity |]. unfold Vec3.neg. cbn.
  split; [do 2 f_equal; ring |].
  split; [f_equal; ring |].
  split; [f_equal; ring |].
  do 2 f_equal; ring.
Qed.

(** X6: in exact arithmetic, reflecting a [Vec2] twice across the same
    unit normal gives the vector back, and a reflection keeps the dot
    product of the vector with itself: [r.dot(r)] is [v.dot(v)].  (The
    literal [2] of the code is [1 + 1].) *)
Theorem Vec2_reflect_involution (v n : Vec2.t F) :
  num_of_Z 2 = one + one ->
  Vec2.dot n (Sequence (Vec2.items n)) = Ok one ->
  exists r,
    Vec2.reflect v (Sequence (Vec2.items n)) = Ok r
    /\ Vec2.reflect r (Sequence (Vec2.items n)) = Ok v
    /\ Vec2.dot r (Sequence (Vec2.items r))
       = Vec2.dot v (Sequence (Vec2.items v)).
Proof.
  destruct v as [vx vy], n as [nx ny]. intros Htwo Hn. cbn in Hn.
  injection Hn as Hn.
  eexists. split; [reflexivity |].
  unfold Vec2.reflect. cbn. rewrite Htwo.
  assert (Hx : nx * nx = one - ny * ny) by (rewrite <- Hn; ring).
  split; [do 2 f_equal; ring [Hx] | f_equal; ring [Hx]].
Qed.

End VectorAlgebra.

Lemma vector_add_sub_round_trip_witness :
  exists s,
    Vec2.add (Vec2.Vec2 one (num_of_Z 2))
      (Sequence (F := Qc) [num_of_Z 3; num_of_Z 4]) = Ok s
    /\ Vec2.sub s (Sequence [num_of_Z 3; num_of_Z 4])
       = Ok (Vec2.Vec2 one (num_of_Z 2)).
Proof.
  destruct (vector_add_sub_round_trip (F := Qc)
              (Vec2.Vec2 one (num_of_Z 2)) (Vec2.Vec2 (num_of_Z 3) (num_of_Z 4))
              (Vec3.Vec3 one one one) (Vec3.Vec3 one one one)
              (Vec4.Vec4 one one one one) (Vec4.Vec4 one one one one))
    as ((s & Hadd & Hsub & _) & _).
  exists s. split; [exact Hadd | exact Hsub].
Defined.

Lemma Vec2_truediv_scalar_witness :
  exists q,
    Vec2.truediv (Vec2.Vec2 (num_of_Z 3) (num_of_Z 4)) (Number (F := Qc) (num_of_Z 2))
    = Ok q
    /\ Vec2.mul q (Number (num_of_Z 2)) = Ok (Vec2.Vec2 (num_of_Z 3) (num_of_Z 4)).
Proof.
  destruct (Vec2_truediv_scalar (F := Qc)
              (Vec2.Vec2 (num_of_Z 3) (num_of_Z 4)) (num_of_Z 2)) as [_ Hdiv].
  apply Hdiv. apply Qc_nonzero. reflexivity.
Defined.

Lemma Vec2_sum_witness :
  exists s,
    Vec2.sum_of (F := Qc) [Vec2.Vec2 one (num_of_Z 2); Vec2.Vec2 (num_of_Z 3) (num_of_Z 4)]
    = Ok (Some s)
    /\ Vec2.eqb s (Vec2.Vec2 (num_of_Z 4) (num_of_Z 6)) = true.
Proof.
  eexists. split.
  - rewrite (Vec2_sum (F := Qc)). reflexivity.
  - vm_compute. reflexivity.
Defined.

Lemma Vec3_cross_orthogonal_witness :
  exists c,
    Vec3.cross (F := Qc) (Vec3.Vec3 one zero zero) (Sequence [zero; one; zero]) = Ok c
    /\ Vec3.dot (Vec3.Vec3 one zero zero) (Sequence (Vec3.items c)) = Ok zero.
Proof.
  destruct (Vec3_cross_orthogonal (F := Qc)
              (Vec3.Vec3 one zero zero) (Vec3.Vec3 zero one zero))
    as (c & Hc & _ & Hdot & _).
  exists c. split; [exact Hc | exact Hdot].
Defined.

Lemma Vec2_reflect_involution_witness :
  exists r,
    Vec2.reflect (F := Qc) (Vec2.Vec2 (num_of_Z 3) (num_of_Z 4)) (Sequence [zero; one])
    = Ok r
    /\ Vec2.reflect r (Sequence [zero; one])
       = Ok (Vec2.Vec2 (num_of_Z 3) (num_of_Z 4)).
Proof.
  assert (Htwo : num_of_Z (F := Qc) 2 = (one + one)%num)
    by (apply Qc_is_canon; vm_compute; reflexivity).
  assert (Hunit : Vec2.dot (F := Qc) (Vec2.Vec2 zero one) (Sequence [zero; one]) = Ok one)
    by (cbn; f_equal; apply Qc_is_canon; vm_compute; reflexivity).
  destruct (Vec2_reflect_involution (F := Qc)
              (Vec2.Vec2 (num_of_Z 3) (num_of_Z 4)) (Vec2.Vec2 zero one) Htwo Hunit)
    as (r & Hr & Hback & _).
  exists r. split; [exact Hr | exact Hback].
Defined.

(** ** kiglent/vector.py: [clamp] and the swizzles *)

Section Clamp.
Context {F : Type} `{NumOrdLaws F}.

Lemma clamp_in_bounds (num minimum maximum : F) :
  num_ltb maximum minimum = false ->
  num_ltb (clamp num minimum maximum) minimum = false
  /\ num_ltb maximum (clamp num minimum maximum) = false.
Proof.
  intros Hbounds. unfold clamp.
  destruct (num_ltb num minimum) eqn:Hlow; [auto using num_ltb_irrefl |].
  destruct (num_ltb maximum num) eqn:Hhigh; auto using num_ltb_irrefl.
Qed.

(** The module function [clamp]: below the minimum it returns the
    minimum, whatever the maximum is; between the limits it returns the
    number; and when the minimum is not above the maximum the result lies
    between them and clamping again changes nothing. *)
Lemma clamp_between (num minimum maximum : F) :
  (num_ltb num minimum = true -> clamp num minimum maximum = minimum)
  /\ (num_ltb num minimum = false -> num_ltb maximum num = false ->
      clamp num minimum maximum = num)
  /\ (num_ltb maximum minimum = false ->
      num_ltb (clamp num minimum maximum) minimum = false
      /\ num_ltb maximum (clamp num minimum maximum) = false
      /\ clamp (clamp num minimum maximum) minimum maximum
         = clamp num minimum maximum).
Proof.
  split; [| split].
  - intros Hlow. unfold clamp. rewrite Hlow. reflexivity.
  - intros Hlow Hhigh. unfold clamp. rewrite Hlow, Hhigh. reflexivity.
  - intros Hbounds. destruct (clamp_in_bounds num minimum maximum Hbounds) as [Hlo Hhi].
    repeat split; [exact Hlo | exact Hhi |].
    unfold clamp at 1. rewrite Hlo, Hhi. reflexivity.
Qed.

(** X7: [v.clamp(min_val, max_val)] takes each limit as a number (for
    both coordinates) or as a tuple-like pair (items beyond the second
    are ignored); when no lower limit is above its upper limit, each
    coordinate of the result lies between its limits. *)
Theorem Vec2_clamp_within (v : Vec2.t F) (min_val max_val : value F)
    (min_x min_y max_x max_y : F) :
  (min_val = Number min_x /\ min_y = min_x
   \/ exists extra, min_val = Sequence (min_x :: min_y :: extra)) ->
  (max_val = Number max_x /\ max_y = max_x
   \/ exists extra, max_val = Sequence (max_x :: max_y :: extra)) ->
  num_ltb max_x min_x = false -> num_ltb max_y min_y = false ->
  exists r,
    Vec2.clamp v min_val max_val = Ok r
    /\ Vec2.x r = clamp (Vec2.x v) min_x max_x
    /\ Vec2.y r = clamp (Vec2.y v) min_y max_y
    /\ num_ltb (Vec2.x r) min_x = false /\ num_ltb max_x (Vec2.x r) = false
    /\ num_ltb (Vec2.y r) min_y = false /\ num_ltb max_y (Vec2.y r) = false.
Proof.
  intros Hmin Hmax Hx Hy.
  assert (Bmin : Vec2.bounds min_val = Ok (min_x, min_y)).
  { destruct Hmin as [[-> ->] | [extra ->]]; reflexivity. }
  assert (Bmax : Vec2.bounds max_val = Ok (max_x, max_y)).
  { destruct Hmax as [[-> ->] | [extra ->]]; reflexivity. }
  unfold Vec2.clamp. rewrite Bmin, Bmax. cbn. eexists. split; [reflexivity |]. cbn.
  destruct (clamp_in_bounds (Vec2.x v) min_x max_x Hx) as [? ?].
  destruct (clamp_in_bounds (Vec2.y v) min_y max_y Hy) as [? ?].
  auto 10.
Qed.

End Clamp.

Lemma Vec2_clamp_within_witness :
  exists r,
    Vec2.clamp (F := Qc) (Vec2.Vec2 (num_of_Z 9) (num_of_Z (-9)))
      (Number zero) (Sequence [num_of_Z 5; num_of_Z 7]) = Ok r
    /\ Vec2.eqb r (Vec2.Vec2 (num_of_Z 5) zero) = true.
Proof.
  destruct (Vec2_clamp_within (F := Qc) (Vec2.Vec2 (num_of_Z 9) (num_of_Z (-9)))
              (Number zero) (Sequence [num_of_Z 5; num_of_Z 7])
              zero zero (num_of_Z 5) (num_of_Z 7))
    as (r & Hr & Hx & Hy & _).
  - left. split; reflexivity.
  - right. exists []. reflexivity.
  - vm_compute. reflexivity.
  - vm_compute. reflexivity.
  - exists r. split; [exact Hr |].
    unfold Vec2.eqb. rewrite Hx, Hy. vm_compute. reflexivity.
Defined.

Section SwizzleFacts.
Context {F : Type}.

Lemma Vec3_pick (v : Vec3.t F) (c : ascii) :
  (i ← Swizzle.index "xyz" c;
   match Vec3.items v !! i with Some p => Ok p | None => Raise IndexError end)
  = match Swizzle.Vec3_component v c with
    | Some p => Ok p
    | None => Raise (ValueError "substring not found")
    end.
Proof.
  unfold Swizzle.index, Swizzle.Vec3_component. cbn.
  destruct (ascii_dec c "x") as [-> | Hx]; [reflexivity |].
  rewrite (proj2 (Ascii.eqb_neq _ _) Hx).
  destruct (ascii_dec c "y") as [-> | Hy]; [reflexivity |].
  rewrite (proj2 (Ascii.eqb_neq _ _) Hy).
  destruct (ascii_dec c "z") as [-> | Hz]; [reflexivity |].
  rewrite (proj2 (Ascii.eqb_neq _ _) Hz). reflexivity.
Qed.

Lemma Vec3_picks (v : Vec3.t F) (attrs : list ascii) :
  Swizzle.picks "xyz" (Vec3.items v) attrs
  = match mapM (Swizzle.Vec3_component v) attrs with
    | Some ps => Ok ps
    | None => Raise (ValueError "substring not found")
    end.
Proof.
  induction attrs as [| c rest IH]; [reflexivity |].
  cbn [Swizzle.picks mapM]. rewrite IH.
  pose proof (Vec3_pick v c) as Hc.
  destruct (Swizzle.index "xyz" c) as [i | e]; cbn in Hc |- *.
  - destruct (Vec3.items v !! i) as [p |]; cbn;
      destruct (Swizzle.Vec3_component v c) as [p' |]; cbn;
      try discriminate Hc; try (injection Hc as <-).
    + destruct (mapM _ rest); reflexivity.
  - destruct (Swizzle.Vec3_component v c) as [p' |]; [discriminate Hc |].
    cbn. injection Hc as ->. reflexivity.
Qed.

(** X8: a swizzle [v.attrs] of a [Vec3] ([__getattr__], which Python
    calls for a name that is no field) returns the vector of the named
    components, a [Vec2], [Vec3] or [Vec4] by the number of letters, when
    [attrs] has two to four letters, all among x, y and z; any other name
    raises [AttributeError] with the message
    ['Vec3' has no attribute: 'attrs'.]. *)
Theorem Vec3_swizzle (v : Vec3.t F) (attrs : string) :
  Swizzle.Vec3_getattr v attrs
  = match mapM (Swizzle.Vec3_component v) (list_ascii_of_string attrs) with
    | Some [a; b] => Ok (Swizzle.AsVec2 (Vec2.Vec2 a b))
    | Some [a; b; c] => Ok (Swizzle.AsVec3 (Vec3.Vec3 a b c))
    | Some [a; b; c; d] => Ok (Swizzle.AsVec4 (Vec4.Vec4 a b c d))
    | _ => Raise (AttributeError (Swizzle.no_attribute "Vec3" attrs))
    end.
Proof.
  unfold Swizzle.Vec3_getattr, Swizzle.getattr.
  rewrite Vec3_picks.
  assert (Hlen : String.length attrs = length (list_ascii_of_string attrs)).
  { induction attrs as [| c rest IH]; cbn; [reflexivity | rewrite IH; reflexivity]. }
  rewrite Hlen.
  destruct (mapM (Swizzle.Vec3_component v) (list_ascii_of_string attrs))
    as [ps |] eqn:Hps.
  - apply length_mapM in Hps. rewrite Hps.
    destruct ps as [| a [| b [| c [| d [| e rest]]]]]; reflexivity.
  - destruct (list_ascii_of_string attrs) as [| c1 [| c2 [| c3 [| c4 [| c5 rest]]]]];
      reflexivity.
Qed.

End SwizzleFacts.

(** [Vec3(1, 2, 3).zyx] is [Vec3(3, 2, 1)], [.xxyy] a [Vec4], and [.xw]
    an [AttributeError]. *)
Example Vec3_swizzle_zyx :
  Swizzle.Vec3_getattr (Vec3.Vec3 1 2 3)%Z "zyx"
  = Ok (Swizzle.AsVec3 (Vec3.Vec3 3 2 1)%Z)
  /\ Swizzle.Vec3_getattr (Vec3.Vec3 1 2 3)%Z "xxyy"
     = Ok (Swizzle.AsVec4 (Vec4.Vec4 1 1 2 2)%Z)
  /\ Swizzle.Vec3_getattr (Vec3.Vec3 1 2 3)%Z "xw"
     = Raise (AttributeError "'Vec3' has no attribute: 'xw'.").
Proof. repeat split; reflexivity. Qed.

(** ** kiglent/matrix.py: rows, columns and the transpose of a Mat4 *)

Section MatrixShapes.
Context {F : Type} `{Num F}.
Local Open Scope num_scope.

Lemma Mat4_rows_out_of_range (M : Mat4.t F) (index : Z) :
  (4 <= index)%Z ->
  Mat4.column M index = []
  /\ length (Mat4.row M index) < 4
  /\ (16 <= index -> Mat4.row M index = [])%Z.
Proof.
  intros Hi.
  assert (Hl : length (Mat4.items M) = 16) by (destruct M; reflexivity).
  unfold Mat4.row, Mat4.column, slice_from, slice, slice_bound. rewrite Hl.
  destruct (index <? 0)%Z eqn:E1; [lia |].
  destruct (index * 4 <? 0)%Z eqn:E2; [lia |].
  destruct (index * 4 + 4 <? 0)%Z eqn:E3; [lia |].
  split; [| split].
  - rewrite drop_ge; [apply take_nil | lia].
  - remember (Nat.min 16 (Z.to_nat index)) as k eqn:Ek.
    assert (Hk : 4 <= k <= 16) by lia. clear Ek Hl.
    destruct M.
    do 17 (destruct k as [| k]; [try lia; cbn; lia |]). lia.
  - intros Hbig. rewrite drop_ge; [reflexivity | lia].
Qed.

(** X9: [M.transpose()] exchanges rows and columns: transposing twice
    gives [M] back, and for each index from 0 to 3 the row of the
    transpose is the column of [M] and the other way round, each of four
    items.  An index past 3 raises nothing: [column] returns the empty
    tuple and [row] a tuple of fewer than four items ([row(4)] is
    [(e, i, m)]), empty from 16 on. *)
Theorem Mat4_transpose_rows_columns (M : Mat4.t F) :
  exists T,
    Mat4.transpose M = Ok T
    /\ Mat4.transpose T = Ok M
    /\ Forall (fun index => Mat4.row T index = Mat4.column M index
                            /\ Mat4.column T index = Mat4.row M index
                            /\ length (Mat4.row M index) = 4
                            /\ length (Mat4.column M index) = 4)
         [0; 1; 2; 3]%Z
    /\ Mat4.row M 4 = [Mat4.e M; Mat4.i M; Mat4.m M]
    /\ forall index, (4 <= index)%Z ->
         Mat4.column M index = []
         /\ length (Mat4.row M index) < 4
         /\ (16 <= index -> Mat4.row M index = [])%Z.
Proof.
  exists (Mat4.Mat4 (Mat4.a M) (Mat4.e M) (Mat4.i M) (Mat4.m M)
                    (Mat4.b M) (Mat4.f M) (Mat4.j M) (Mat4.n M)
                    (Mat4.c M) (Mat4.g M) (Mat4.k M) (Mat4.o M)
                    (Mat4.d M) (Mat4.h M) (Mat4.l M) (Mat4.p M)).
  split; [destruct M; reflexivity |]. split; [destruct M; reflexivity |].
  split; [destruct M; repeat constructor |]. split; [destruct M; reflexivity |].
  intros index. apply Mat4_rows_out_of_range.
Qed.

End MatrixShapes.

Lemma Mat4_transpose_rows_columns_witness :
  Mat4.column a_projection 4 = []
  /\ Mat4.row a_projection 4 = [zero; zero; num_of_Z 5]
  /\ Mat4.row a_projection 16 = [].
Proof.
  destruct (Mat4_transpose_rows_columns a_projection) as (T & _ & _ & _ & Hrow & Hout).
  destruct (Hout 4%Z ltac:(lia)) as (Hcolumn & _ & _).
  destruct (Hout 16%Z ltac:(lia)) as (_ & _ & Hempty).
  split; [exact Hcolumn |]. split; [exact Hrow |]. apply Hempty. lia.
Defined.

(** ** kiglent/matrix.py: products, translation and scaling *)

Section MatrixAlgebra.
Context {F : Type} `{NumLaws F}.
Add Field matrix_field_structure : num_field.
Local Open Scope num_scope.

(** X10: [@] between matrices of one size always returns a matrix,
    whatever the module's globals are; it is associative, and the
    identity matrix ([Mat4()], [Mat3()]) is neutral on both sides. *)
Theorem matmul_associative_with_identity (globals : namespace)
    (A B C : Mat4.t F) (A3 B3 C3 : Mat3.t F) :
  (exists AB BC ABC,
     Mat4.matmul globals A (Mat4.items B) = Ok (Mat4.IsMat4 AB)
     /\ Mat4.matmul globals B (Mat4.items C) = Ok (Mat4.IsMat4 BC)
     /\ Mat4.matmul globals AB (Mat4.items C) = Ok (Mat4.IsMat4 ABC)
     /\ Mat4.matmul globals A (Mat4.items BC) = Ok (Mat4.IsMat4 ABC)
     /\ Mat4.matmul globals A (Mat4.items Mat4.identity) = Ok (Mat4.IsMat4 A)
     /\ Mat4.matmul globals Mat4.identity (Mat4.items A) = Ok (Mat4.IsMat4 A))
  /\ (exists AB BC ABC,
     Mat3.matmul globals A3 (Mat3.items B3) = Ok (Mat3.IsMat3 AB)
     /\ Mat3.matmul globals B3 (Mat3.items C3) = Ok (Mat3.IsMat3 BC)
     /\ Mat3.matmul globals AB (Mat3.items C3) = Ok (Mat3.IsMat3 ABC)
     /\ Mat3.matmul globals A3 (Mat3.items BC) = Ok (Mat3.IsMat3 ABC)
     /\ Mat3.matmul globals A3 (Mat3.items Mat3.identity) = Ok (Mat3.IsMat3 A3)
     /\ Mat3.matmul globals Mat3.identity (Mat3.items A3) = Ok (Mat3.IsMat3 A3)).
Proof.
  destruct A, B, C, A3, B3, C3. split.
  - do 3 eexists. split; [reflexivity |]. split; [reflexivity |].
    split; [reflexivity |].
    split; [cbn; do 2 f_equal; f_equal; ring |].
    split; cbn; do 2 f_equal; f_equal; ring.
  - do 3 eexists. split; [reflexivity |]. split; [reflexivity |].
    split; [reflexivity |].
    split; [cbn; do 2 f_equal; f_equal; ring |].
    split; cbn; do 2 f_equal; f_equal; ring.
Qed.

(** X11: [M.translate(v)] of a [Mat4] is [M @ Mat4.from_translation(v)];
    on the identity it is the translation matrix itself; translating by
    [v] and then by [w] is translating by [v + w], and translating back
    by [-v] gives [M] again. *)
Theorem Mat4_translate_composes (globals : namespace) (M : Mat4.t F)
    (v w : Vec3.t F) :
  exists T,
    Mat4.translate M (Vec3.items v) = Ok T
    /\ Mat4.matmul globals M (Mat4.items (Mat4.from_translation v))
       = Ok (Mat4.IsMat4 T)
    /\ Mat4.translate Mat4.identity (Vec3.items v) = Ok (Mat4.from_translation v)
    /\ Mat4.translate T (Vec3.items w)
       = (s ← Vec3.add v (Sequence (Vec3.items w)); Mat4.translate M (Vec3.items s))
    /\ Mat4.translate T (Vec3.items (Vec3.neg v)) = Ok M.
Proof.
  destruct M, v as [x y z], w as [x' y' z']. eexists. split; [reflexivity |].
  split; [cbn; do 2 f_equal; f_equal; ring |].
  split; [cbn; f_equal; unfold Mat4.from_translation; cbn; f_equal; ring |].
  split; cbn; f_equal; f_equal; ring.
Qed.

(** In exact arithmetic [M.scale(v)] on the identity is
    [Mat4.from_scale(v)]; scaling by [v] and then by [w] is scaling by
    the componentwise product; and [M.scale(v)] is the product
    [M @ Mat4.from_scale(v)] when the other entries of the first three
    columns of [M] are zero. *)
Lemma Mat4_scale_exact (globals : namespace) (M : Mat4.t F)
    (v w : Vec3.t F) :
  exists S,
    Mat4.scale M (Vec3.items v) = Ok S
    /\ Mat4.items S
       = <[0 := Mat4.a M * Vec3.x v]> (<[5 := Mat4.f M * Vec3.y v]>
           (<[10 := Mat4.k M * Vec3.z v]> (Mat4.items M)))
    /\ Mat4.scale Mat4.identity (Vec3.items v) = Ok (Mat4.from_scale v)
    /\ Mat4.scale S (Vec3.items w)
       = (s ← Vec3.mul v (Sequence (Vec3.items w)); Mat4.scale M (Vec3.items s))
    /\ (Mat4.b M = zero -> Mat4.c M = zero -> Mat4.d M = zero ->
        Mat4.e M = zero -> Mat4.g M = zero -> Mat4.h M = zero ->
        Mat4.i M = zero -> Mat4.j M = zero -> Mat4.l M = zero ->
        Mat4.matmul globals M (Mat4.items (Mat4.from_scale v))
        = Ok (Mat4.IsMat4 S)).
Proof.
  destruct M, v as [x y z], w as [x' y' z']. eexists. split; [reflexivity |].
  split; [reflexivity |].
  split; [cbn; f_equal; unfold Mat4.from_scale; cbn; f_equal; ring |].
  split; [cbn; f_equal; f_equal; ring |].
  cbn. intros -> -> -> -> -> -> -> -> ->. do 2 f_equal. f_equal; ring.
Qed.

(** X13: [M.scale(sx, sy)] of a [Mat3] multiplies by the matrix of the
    reciprocals, [Mat3(1/sx, 0, 0, 0, 1/sy, 0, 0, 0, 1)]: a zero factor
    raises [ZeroDivisionError], and otherwise multiplying the result by
    [Mat3(sx, 0, 0, 0, sy, 0, 0, 0, 1)] gives [M] back. *)
Theorem Mat3_scale_divides (globals : namespace) (M : Mat3.t F) (sx sy : F) :
  (sx = zero \/ sy = zero ->
   Mat3.scale globals M sx sy = Raise ZeroDivisionError)
  /\ (sx <> zero -> sy <> zero ->
      exists S,
        Mat3.scale globals M sx sy = Ok (Mat3.IsMat3 S)
        /\ Mat3.scale globals Mat3.identity sx sy
           = Ok (Mat3.IsMat3 (Mat3.Mat3 (num_div one sx) zero zero
                                         zero (num_div one sy) zero
                                         zero zero one))
        /\ Mat3.matmul globals S
             (Mat3.items (Mat3.Mat3 sx zero zero zero sy zero zero zero one))
           = Ok (Mat3.IsMat3 M)).
Proof.
  split.
  - intros Hz. unfold Mat3.scale, truediv.
    destruct (num_eqb sx zero) eqn:Ex; [reflexivity |].
    destruct Hz as [-> | ->].
    + rewrite num_eqb_refl in Ex. discriminate Ex.
    + rewrite num_eqb_refl. reflexivity.
  - intros Hx Hy. unfold Mat3.scale.
    rewrite !truediv_nonzero by (apply num_eqb_false; assumption).
    destruct M. eexists. split; [reflexivity |].
    split; [cbn; do 2 f_equal; f_equal; ring |].
    cbn. do 2 f_equal. f_equal; try ring; field; repeat split; assumption.
Qed.

(** [+] and [-] of matrices want a matrix of the same class on the right
    and raise [TypeError] otherwise; adding and subtracting the same
    matrix gives the first one back, and a matrix plus its negation, as
    a matrix minus itself, has every entry zero. *)
Lemma matrix_add_sub_neg (A B : Mat4.t F) (A3 B3 : Mat3.t F) :
  (Mat4.add A Mat4.NotInstance = Raise TypeError
   /\ Mat4.sub A Mat4.NotInstance = Raise TypeError
   /\ exists S N Z,
        Mat4.add A (Mat4.IsInstance B) = Ok S
        /\ Mat4.sub S (Mat4.IsInstance B) = Ok A
        /\ Mat4.neg A = Ok N
        /\ Mat4.neg N = Ok A
        /\ Mat4.add A (Mat4.IsInstance N) = Ok Z
        /\ Mat4.sub A (Mat4.IsInstance A) = Ok Z
        /\ Mat4.items Z = replicate 16 zero)
  /\ (Mat3.add A3 Mat3.NotInstance = Raise TypeError
      /\ Mat3.sub A3 Mat3.NotInstance = Raise TypeError
      /\ exists S N Z,
           Mat3.add A3 (Mat3.IsInstance B3) = Ok S
           /\ Mat3.sub S (Mat3.IsInstance B3) = Ok A3
           /\ Mat3.neg A3 = Ok N
           /\ Mat3.neg N = Ok A3
           /\ Mat3.add A3 (Mat3.IsInstance N) = Ok Z
           /\ Mat3.sub A3 (Mat3.IsInstance A3) = Ok Z
           /\ Mat3.items Z = replicate 9 zero).
Proof.
  destruct A, B, A3, B3.
  split; (split; [reflexivity |]); (split; [reflexivity |]);
    do 3 eexists; (split; [reflexivity |]);
    (split; [cbn; f_equal; f_equal; ring |]);
    (split; [reflexivity |]);
    (split; [cbn; f_equal; f_equal; ring |]);
    (split; [reflexivity |]);
    (split; [cbn; f_equal; f_equal; ring |]);
    unfold Mat4.items, Mat3.items; cbn; repeat f_equal; ring.
Qed.

End MatrixAlgebra.

Section MatrixScaling.
Context {F : Type} `{Num F}.
Local Open Scope num_scope.

(** X12: [M.scale(v)] of a [Mat4] multiplies the three diagonal entries
    [a], [f], [k] by the components of [v] and changes no other entry.
    In exact arithmetic, on the identity it is [Mat4.from_scale(v)];
    scaling by [v] and then by [w] is scaling by the componentwise
    product; and it is the product [M @ Mat4.from_scale(v)] when the
    other entries of the first three columns of [M] are zero. *)
Theorem Mat4_scale_diagonal (globals : namespace) (M : Mat4.t F)
    (v w : Vec3.t F) :
  exists S,
    Mat4.scale M (Vec3.items v) = Ok S
    /\ Mat4.items S
       = <[0 := Mat4.a M * Vec3.x v]> (<[5 := Mat4.f M * Vec3.y v]>
           (<[10 := Mat4.k M * Vec3.z v]> (Mat4.items M)))
    /\ (NumLaws F ->
        Mat4.scale Mat4.identity (Vec3.items v) = Ok (Mat4.from_scale v)
        /\ Mat4.scale S (Vec3.items w)
           = (s ← Vec3.mul v (Sequence (Vec3.items w)); Mat4.scale M (Vec3.items s))
        /\ (Mat4.b M = zero -> Mat4.c M = zero -> Mat4.d M = zero ->
            Mat4.e M = zero -> Mat4.g M = zero -> Mat4.h M = zero ->
            Mat4.i M = zero -> Mat4.j M = zero -> Mat4.l M = zero ->
            Mat4.matmul globals M (Mat4.items (Mat4.from_scale v))
            = Ok (Mat4.IsMat4 S))).
Proof.
  assert (Hscale : exists S, Mat4.scale M (Vec3.items v) = Ok S
            /\ Mat4.items S
               = <[0 := Mat4.a M * Vec3.x v]> (<[5 := Mat4.f M * Vec3.y v]>
                   (<[10 := Mat4.k M * Vec3.z v]> (Mat4.items M)))).
  { destruct M, v as [x y z]. eexists. split; reflexivity. }
  destruct Hscale as (S & HS & Hitems).
  exists S. split; [exact HS |]. split; [exact Hitems |].
  intros Hexact.
  destruct (Mat4_scale_exact globals M v w)
    as (S' & HS' & _ & Hidentity & Hcomposed & Hproduct).
  rewrite HS in HS'. injection HS' as <-.
  split; [exact Hidentity |]. split; [exact Hcomposed | exact Hproduct].
Qed.

End MatrixScaling.

Lemma matmul_associative_with_identity_witness :
  exists AB ABC,
    Mat4.matmul (matrix_globals TYPE_CHECKING) a_projection (Mat4.items z_mirror)
    = Ok (Mat4.IsMat4 AB)
    /\ Mat4.matmul (matrix_globals TYPE_CHECKING) AB (Mat4.items a_projection)
       = Ok (Mat4.IsMat4 ABC)
    /\ Mat4.matmul (matrix_globals TYPE_CHECKING) a_projection
         (Mat4.items Mat4.identity) = Ok (Mat4.IsMat4 a_projection).
Proof.
  destruct (matmul_associative_with_identity (F := Qc) (matrix_globals TYPE_CHECKING)
              a_projection z_mirror a_projection
              translation_2_3 translation_2_3 translation_2_3)
    as ((AB & BC & ABC & HAB & _ & HABC & _ & Hid & _) & _).
  exists AB, ABC. split; [exact HAB |]. split; [exact HABC | exact Hid].
Defined.

Lemma Mat4_translate_composes_witness :
  exists T,
    Mat4.translate a_projection [one; num_of_Z 2; num_of_Z 3] = Ok T
    /\ Mat4.translate T (Vec3.items (Vec3.neg (Vec3.Vec3 one (num_of_Z 2) (num_of_Z 3))))
       = Ok a_projection.
Proof.
  destruct (Mat4_translate_composes (F := Qc) (matrix_globals TYPE_CHECKING)
              a_projection (Vec3.Vec3 one (num_of_Z 2) (num_of_Z 3))
              (Vec3.Vec3 one one one))
    as (T & HT & _ & _ & _ & Hback).
  exists T. split; [exact HT | exact Hback].
Defined.

Lemma Mat4_scale_diagonal_witness :
  exists S,
    Mat4.scale a_projection [num_of_Z 2; num_of_Z 2; num_of_Z 2] = Ok S
    /\ Mat4.matmul (matrix_globals TYPE_CHECKING) a_projection
         (Mat4.items (Mat4.from_scale
                        (Vec3.Vec3 (num_of_Z 2) (num_of_Z 2) (num_of_Z 2))))
       = Ok (Mat4.IsMat4 S).
Proof.
  destruct (Mat4_scale_diagonal (F := Qc) (matrix_globals TYPE_CHECKING)
              a_projection (Vec3.Vec3 (num_of_Z 2) (num_of_Z 2) (num_of_Z 2))
              (Vec3.Vec3 one one one))
    as (S & HS & _ & Hexact).
  destruct (Hexact _) as (_ & _ & Hproduct).
  exists S. split; [exact HS |]. apply Hproduct; reflexivity.
Defined.

Lemma Mat3_scale_divides_witness :
  Mat3.scale (matrix_globals TYPE_CHECKING) translation_2_3 zero one
  = Raise ZeroDivisionError
  /\ exists S,
       Mat3.scale (matrix_globals TYPE_CHECKING) translation_2_3
         (num_of_Z 2) (num_of_Z 4) = Ok (Mat3.IsMat3 S)
       /\ Mat3.matmul (matrix_globals TYPE_CHECKING) S
            (Mat3.items (Mat3.Mat3 (num_of_Z 2) zero zero
                                   zero (num_of_Z 4) zero zero zero one))
          = Ok (Mat3.IsMat3 translation_2_3).
Proof.
  split.
  - apply (Mat3_scale_divides (F := Qc)). left. reflexivity.
  - destruct (Mat3_scale_divides (F := Qc) (matrix_globals TYPE_CHECKING)
                translation_2_3 (num_of_Z 2) (num_of_Z 4)) as [_ Hscale].
    destruct Hscale as (S & HS & _ & Hback);
      [apply Qc_nonzero; reflexivity | apply Qc_nonzero; reflexivity |].
    exists S. split; [exact HS | exact Hback].
Defined.

(** ** kiglent/matrix.py: quaternions *)

Section Quaternions.
Context {F : Type} `{NumLaws F}.
Add Field quaternion_field_structure : num_field.
Local Open Scope num_scope.

Lemma reciprocal_nonzero (x : F) : x <> zero -> num_div one x <> zero.
Proof.
  intros Hx Hr. apply (one_not_zero (F := F)).
  transitivity (x * num_div one x); [field; exact Hx | rewrite Hr; ring].
Qed.

Ltac field_with Hn :=
  field; repeat split; first [exact Hn | exact one_not_zero].

(** In exact arithmetic [~q] raises [ZeroDivisionError] when [q.dot(q)]
    is 0, and otherwise its own inverse is [q] again and, were the
    module's names bound so that [@] could run, [q @ ~q] and [~q @ q]
    would be the unit quaternion [(1, 0, 0, 0)].  Conjugating twice
    changes nothing. *)
Lemma Quaternion_invert_exact (q : Quaternion.t F) :
  Quaternion.dot q (Quaternion.items q) = Ok (norm_squared q)
  /\ Quaternion.conjugate (Quaternion.conjugate q) = q
  /\ (norm_squared q = zero -> Quaternion.invert q = Raise ZeroDivisionError)
  /\ (norm_squared q <> zero ->
      exists r,
        Quaternion.invert q = Ok r
        /\ r = Quaternion.mul (Quaternion.conjugate q) (num_div one (norm_squared q))
        /\ Quaternion.invert r = Ok q
        /\ Quaternion.matmul (matrix_globals true) q r
           = Ok (Quaternion.Quaternion one zero zero zero)
        /\ Quaternion.matmul (matrix_globals true) r q
           = Ok (Quaternion.Quaternion one zero zero zero)).
Proof.
  destruct q as [w x y z]. unfold norm_squared.
  cbn [Quaternion.w Quaternion.x Quaternion.y Quaternion.z].
  split; [reflexivity |].
  split; [unfold Quaternion.conjugate; cbn; f_equal; ring |].
  split.
  - intros Hn. unfold Quaternion.invert. cbn. unfold truediv.
    rewrite Hn, num_eqb_refl. reflexivity.
  - intros Hn. unfold Quaternion.invert. cbn.
    rewrite (truediv_nonzero _ _ (num_eqb_false _ _ Hn)). cbn.
    set (n := w * w + x * x + y * y + z * z) in *.
    eexists. split; [reflexivity |]. split; [reflexivity |].
    assert (Hr : num_div one n <> zero) by (apply reciprocal_nonzero; exact Hn).
    split.
    + unfold Quaternion.invert. cbn.
      match goal with
      | |- context [truediv one ?d] =>
          assert (Ed : d = num_div one n) by (unfold n; field; exact Hn);
          rewrite Ed
      end.
      rewrite (truediv_nonzero _ _ (num_eqb_false _ _ Hr)). cbn.
      do 2 f_equal; unfold n; field_with Hn.
    + split; rewrite Quaternion_matmul_when_names_bound;
        f_equal; f_equal; unfold n; field_with Hn.
Qed.

(** In exact arithmetic, were the names bound, [q / r] would return the
    quaternion [d] with [q @ d = r]. *)
Lemma Quaternion_truediv_exact (q r : Quaternion.t F) :
  (norm_squared q = zero ->
   forall globals, Quaternion.truediv globals q r = Raise ZeroDivisionError)
  /\ (norm_squared q <> zero ->
      Quaternion.truediv (matrix_globals TYPE_CHECKING) q r
      = Raise (NameError "Vec3")
      /\ exists d,
           Quaternion.truediv (matrix_globals true) q r = Ok d
           /\ Quaternion.matmul (matrix_globals true) q d = Ok r).
Proof.
  destruct q as [w x y z], r as [w' x' y' z']. unfold norm_squared.
  cbn [Quaternion.w Quaternion.x Quaternion.y Quaternion.z].
  split.
  - intros Hn globals. unfold Quaternion.truediv, Quaternion.invert. cbn.
    unfold truediv. rewrite Hn, num_eqb_refl. reflexivity.
  - intros Hn. unfold Quaternion.truediv, Quaternion.invert. cbn.
    rewrite (truediv_nonzero _ _ (num_eqb_false _ _ Hn)). cbn.
    split; [reflexivity |].
    eexists. split; [reflexivity |].
    rewrite Quaternion_matmul_when_names_bound.
    cbn. f_equal. f_equal; field_with Hn.
Qed.

(** X16: for a unit quaternion, [to_mat3] returns a rotation matrix: its
    product with its transpose is the identity and its determinant is 1;
    and [to_mat4] is that matrix in the upper left corner of the 4x4
    identity.  (The literal [2] of the code is [1 + 1].) *)
Theorem Quaternion_to_mat3_orthogonal (globals : namespace) (q : Quaternion.t F) :
  num_of_Z 2 = one + one ->
  norm_squared q = one ->
  exists R,
    Quaternion.to_mat3 q = Ok R
    /\ Mat3.matmul globals R (Mat3.items (Mat3_transpose R))
       = Ok (Mat3.IsMat3 Mat3.identity)
    /\ Mat3.det R = one
    /\ Mat4.items (Quaternion.to_mat4 q)
       = [Mat3.a R; Mat3.b R; Mat3.c R; zero;
          Mat3.d R; Mat3.e R; Mat3.f R; zero;
          Mat3.g R; Mat3.h R; Mat3.i R; zero;
          zero; zero; zero; one].
Proof.
  destruct q as [w x y z]. unfold norm_squared.
  cbn [Quaternion.w Quaternion.x Quaternion.y Quaternion.z].
  intros Htwo Hunit.
  assert (Hw : w * w = one - x * x - y * y - z * z).
  { rewrite <- Hunit. ring. }
  eexists. split; [reflexivity |].
  unfold Mat3_transpose, Mat3.det, Mat3.identity, Quaternion.to_mat4, square.
  cbn. rewrite Htwo.
  split; [do 2 f_equal; f_equal; ring [Hw] |].
  split; [ring [Hw] | reflexivity].
Qed.

End Quaternions.

Section QuaternionDivision.
Context {F : Type} `{Num F}.
Local Open Scope num_scope.

(** X14: [~q] is the conjugate of [q] times [1 / q.dot(q)], and
    [q.dot(q)] is [w*w + x*x + y*y + z*z]: [~q] raises
    [ZeroDivisionError] exactly when that sum compares equal to 0.  In
    exact arithmetic conjugating twice changes nothing and, when
    [q.dot(q)] is not 0, [~~q] is [q] again and, were the module's names
    bound so that [@] could run, [q @ ~q] and [~q @ q] would be the unit
    quaternion [(1, 0, 0, 0)]. *)
Theorem Quaternion_invert_inverse (q : Quaternion.t F) :
  Quaternion.dot q (Quaternion.items q) = Ok (norm_squared q)
  /\ Quaternion.invert q
     = (if num_eqb (norm_squared q) zero then Raise ZeroDivisionError
        else Ok (Quaternion.mul (Quaternion.conjugate q)
                   (num_div one (norm_squared q))))
  /\ (NumLaws F ->
      Quaternion.conjugate (Quaternion.conjugate q) = q
      /\ (norm_squared q <> zero ->
          exists r,
            Quaternion.invert q = Ok r
            /\ Quaternion.invert r = Ok q
            /\ Quaternion.matmul (matrix_globals true) q r
               = Ok (Quaternion.Quaternion one zero zero zero)
            /\ Quaternion.matmul (matrix_globals true) r q
               = Ok (Quaternion.Quaternion one zero zero zero))).
Proof.
  split; [destruct q; reflexivity |].
  split.
  { destruct q as [w x y z]. unfold Quaternion.invert, norm_squared. cbn.
    unfold truediv.
    destruct (num_eqb (w * w + x * x + y * y + z * z) zero); reflexivity. }
  intros Hexact.
  destruct (Quaternion_invert_exact q) as (_ & Hconjugate & _ & Hregular).
  split; [exact Hconjugate |].
  intros Hn. destruct (Hregular Hn) as (r & Hr & _ & Hback & Hright & Hleft).
  exists r. auto.
Qed.

(** X15: [q / r] is [~q @ r].  When [q.dot(q)] compares equal to 0 it
    raises [ZeroDivisionError]; otherwise, as the module is at run time,
    it raises [NameError] (the name [Vec3] of [@]).  In exact arithmetic,
    when [q.dot(q)] is not 0 and were the names bound, it would return
    the quaternion [d] with [q @ d = r]: the inverse of the left operand
    times the right one. *)
Theorem Quaternion_truediv_solves (q r : Quaternion.t F) :
  (forall globals,
     Quaternion.truediv globals q r
     = (inverse ← Quaternion.invert q; Quaternion.matmul globals inverse r))
  /\ (num_eqb (norm_squared q) zero = true ->
      forall globals, Quaternion.truediv globals q r = Raise ZeroDivisionError)
  /\ (num_eqb (norm_squared q) zero = false ->
      Quaternion.truediv (matrix_globals TYPE_CHECKING) q r
      = Raise (NameError "Vec3"))
  /\ (NumLaws F -> norm_squared q <> zero ->
      exists d,
        Quaternion.truediv (matrix_globals true) q r = Ok d
        /\ Quaternion.matmul (matrix_globals true) q d = Ok r).
Proof.
  split; [reflexivity |].
  split; [| split].
  - intros Hn globals. destruct q as [w x y z].
    unfold Quaternion.truediv, Quaternion.invert, norm_squared in *.
    cbn in *. unfold truediv. rewrite Hn. reflexivity.
  - intros Hn. destruct q as [w x y z].
    unfold Quaternion.truediv, Quaternion.invert, norm_squared in *.
    cbn in *. unfold truediv. rewrite Hn. reflexivity.
  - intros Hexact Hn.
    destruct (Quaternion_truediv_exact q r) as [_ Hregular].
    destruct (Hregular Hn) as [_ Hsolves]. exact Hsolves.
Qed.

End QuaternionDivision.

(** On floats a quaternion other than zero can have [q.dot(q) == 0]:
    for [q = Quaternion(2.0 ** -558, 0.0, 0.0, 0.0)] the square
    underflows, and [~q] and [q / r] raise [ZeroDivisionError]. *)
Example Quaternion_invert_underflow :
  num_eqb a_tiny_float zero = false
  /\ Quaternion.invert (Quaternion.Quaternion a_tiny_float zero zero zero)
     = Raise ZeroDivisionError
  /\ forall r,
       Quaternion.truediv (matrix_globals TYPE_CHECKING)
         (Quaternion.Quaternion a_tiny_float zero zero zero) r
       = Raise ZeroDivisionError.
Proof.
  split; [vm_compute; reflexivity |].
  assert (Hinvert : Quaternion.invert (Quaternion.Quaternion a_tiny_float zero zero zero)
                    = Raise ZeroDivisionError) by (vm_compute; reflexivity).
  split; [exact Hinvert |].
  intros r. unfold Quaternion.truediv. rewrite Hinvert. reflexivity.
Qed.

Lemma Quaternion_invert_inverse_witness :
  exists r,
    Quaternion.invert (F := Qc) (Quaternion.Quaternion one one one one) = Ok r
    /\ Quaternion.invert r = Ok (Quaternion.Quaternion one one one one).
Proof.
  destruct (Quaternion_invert_inverse (F := Qc) (Quaternion.Quaternion one one one one))
    as (_ & _ & Hexact).
  destruct (Hexact _) as (_ & Hregular).
  destruct Hregular as (r & Hr & Hback & _); [apply Qc_nonzero; reflexivity |].
  exists r. split; [exact Hr | exact Hback].
Defined.

Lemma Quaternion_truediv_solves_witness :
  Quaternion.truediv (F := Qc) (matrix_globals TYPE_CHECKING)
    (Quaternion.Quaternion one one one one) (Quaternion.Quaternion zero one zero zero)
  = Raise (NameError "Vec3")
  /\ Quaternion.truediv (F := Qc) (matrix_globals TYPE_CHECKING)
       (Quaternion.Quaternion zero zero zero zero)
       (Quaternion.Quaternion zero one zero zero)
     = Raise ZeroDivisionError.
Proof.
  split.
  - destruct (Quaternion_truediv_solves (F := Qc) (Quaternion.Quaternion one one one one)
                (Quaternion.Quaternion zero one zero zero)) as (_ & _ & Hregular & _).
    apply Hregular. vm_compute. reflexivity.
  - destruct (Quaternion_truediv_solves (F := Qc)
                (Quaternion.Quaternion zero zero zero zero)
                (Quaternion.Quaternion zero one zero zero)) as (_ & Hzero & _).
    apply Hzero. vm_compute. reflexivity.
Defined.

Lemma Quaternion_to_mat3_orthogonal_witness :
  exists R,
    Quaternion.to_mat3 (F := Qc) (Quaternion.Quaternion zero one zero zero) = Ok R
    /\ Mat3.matmul (matrix_globals TYPE_CHECKING) R (Mat3.items (Mat3_transpose R))
       = Ok (Mat3.IsMat3 Mat3.identity).
Proof.
  assert (Htwo : num_of_Z (F := Qc) 2 = (one + one)%num)
    by (apply Qc_is_canon; vm_compute; reflexivity).
  assert (Hunit : norm_squared (F := Qc) (Quaternion.Quaternion zero one zero zero) = one)
    by (apply Qc_is_canon; vm_compute; reflexivity).
  destruct (Quaternion_to_mat3_orthogonal (F := Qc) (matrix_globals TYPE_CHECKING)
              (Quaternion.Quaternion zero one zero zero) Htwo Hunit)
    as (R & HR & Horthogonal & _).
  exists R. split; [exact HR | exact Horthogonal].
Defined.

(** ** kiglent/event.py: the queues of a dispatcher *)

Section Queues.
Context {World Args : Type}.
Local Abbreviation callable := (Event.callable World Args).
Local Abbreviation handler := (Event.handler World Args).

Lemma add_each_as_insert (events : gmap string (list callable))
    (hs : list handler) (event : string) (func : callable) (funcs : list callable) :
  Event.add_each (Event.EventDispatcher events hs) event (func :: funcs)
  = Ok (Event.EventDispatcher
          (<[event := rev (func :: funcs) ++ default [] (events !! event)]> events) hs).
Proof.
  revert events func. induction funcs as [| g funcs IH]; intros events func.
  - reflexivity.
  - change (Event.add_each (Event.EventDispatcher events hs) event (func :: g :: funcs))
      with (Event.add_each
              (Event.EventDispatcher
                 (<[event := func :: default [] (events !! event)]> events) hs)
              event (g :: funcs)).
    rewrite IH, lookup_insert_eq, insert_insert_eq. cbn [default rev].
    do 3 f_equal. rewrite <- !app_assoc. reflexivity.
Qed.

Lemma has_event_of_inserted (events : gmap string (list callable))
    (hs : list handler) (event : string) (queue : list callable) :
  Event.has_event (Event.EventDispatcher (<[event := queue]> events) hs) event
  = Ok true.
Proof.
  cbn. f_equal. destruct (size (<[event := queue]> events) =? 0) eqn:E.
  - apply Nat.eqb_eq, map_size_empty_iff in E.
    apply (f_equal (fun m => m !! event)) in E.
    rewrite lookup_insert_eq, lookup_empty in E. discriminate E.
  - rewrite lookup_insert_eq. reflexivity.
Qed.

Lemma consulted_of_same_queues (events events' : gmap string (list callable))
    (hs : list handler) (any : string) :
  default [] (events' !! any) = default [] (events !! any) ->
  Event.consulted any (Event.EventDispatcher events' hs)
  = Event.consulted any (Event.EventDispatcher events hs).
Proof. intros Hq. cbn [Event.consulted]. rewrite Hq. reflexivity. Qed.

(** X17: [extend_event(event, funcs)] does what adding the callables of
    [funcs] one by one with [add_event] does: they come before the
    callables already registered, the last of [funcs] first.  With no
    callable at all it changes no dispatch, but the event is from then on
    one the dispatcher has ([has_event]). *)
Theorem extend_event_as_add_events (events : gmap string (list callable))
    (hs : list handler) (event : string) (func : callable) (funcs : list callable) :
  exists extended emptied,
    Event.extend_event (Event.EventDispatcher events hs) event (func :: funcs)
    = Ok extended
    /\ Event.add_each (Event.EventDispatcher events hs) event (func :: funcs)
       = Ok extended
    /\ Event.consulted event extended
       = rev (func :: funcs)
         ++ Event.consulted event (Event.EventDispatcher events hs)
    /\ Event.extend_event (Event.EventDispatcher events hs) event [] = Ok emptied
    /\ Event.has_event emptied event = Ok true
    /\ (forall any,
          Event.consulted any emptied
          = Event.consulted any (Event.EventDispatcher events hs)).
Proof.
  do 2 eexists. split; [reflexivity |].
  split; [apply add_each_as_insert |].
  split.
  { cbn [Event.consulted]. rewrite lookup_insert_eq. cbn [default id].
    rewrite <- app_assoc. reflexivity. }
  split; [reflexivity |]. split; [apply has_event_of_inserted |].
  intros any. apply consulted_of_same_queues. cbn [rev app].
  destruct (decide (any = event)) as [-> | Hne].
  - rewrite lookup_insert_eq. reflexivity.
  - rewrite lookup_insert_ne by congruence. reflexivity.
Qed.

(** X18: [pop_event(event)] gives back the callable that [add_event] put
    in last and leaves every dispatch as it was before the two calls.
    For an event that never had a callable it raises [AttributeError]
    ([None] has no [popleft]), and for one whose callables have all been
    popped, [IndexError]; such an event is still one the dispatcher
    has. *)
Theorem pop_event_undoes_add_event (events : gmap string (list callable))
    (hs : list handler) (event : string) (func : callable) :
  exists added popped,
    Event.add_event (Event.EventDispatcher events hs) event func = Ok added
    /\ Event.pop_event added event = Ok (func, popped)
    /\ (forall any,
          Event.consulted any popped
          = Event.consulted any (Event.EventDispatcher events hs))
    /\ Event.has_event popped event = Ok true
    /\ (events !! event = None ->
        Event.pop_event (Event.EventDispatcher events hs) event
        = Raise (AttributeError "popleft")
        /\ Event.pop_event popped event = Raise IndexError).
Proof.
  do 2 eexists. split; [reflexivity |].
  split; [cbn; rewrite lookup_insert_eq; reflexivity |].
  split; [| split].
  - intros any. apply consulted_of_same_queues. rewrite insert_insert_eq.
    destruct (decide (any = event)) as [-> | Hne].
    + rewrite lookup_insert_eq. reflexivity.
    + rewrite lookup_insert_ne by congruence. reflexivity.
  - rewrite insert_insert_eq. apply has_event_of_inserted.
  - intros Hnone. split.
    + cbn. rewrite Hnone. reflexivity.
    + cbn. rewrite insert_insert_eq, lookup_insert_eq, Hnone. reflexivity.
Qed.

Lemma wired_lookup (attributes : gmap string (callable * bool))
    (class_events : list string) (event : string)
    (events : gmap string (list callable)) :
  NoDup class_events ->
  foldl (Event.wire attributes) events class_events !! event
  = if bool_decide (event ∈ class_events)
    then match attributes !! event with
         | Some (func, true) => Some (func :: default [] (events !! event))
         | _ => events !! event
         end
    else events !! event.
Proof.
  intros Hnd. revert events.
  induction Hnd as [| e rest Hnotin Hnd IH]; intros events; [reflexivity |].
  cbn [foldl]. rewrite IH.
  destruct (decide (event = e)) as [-> | Hne].
  - rewrite (bool_decide_eq_false_2 _ Hnotin).
    rewrite bool_decide_eq_true_2 by apply list_elem_of_here.
    unfold Event.wire. destruct (attributes !! e) as [[func []] |]; try reflexivity.
    apply lookup_insert_eq.
  - assert (Hother : Event.wire attributes events e !! event = events !! event).
    { unfold Event.wire. destruct (attributes !! e) as [[func []] |]; try reflexivity.
      apply lookup_insert_ne. congruence. }
    rewrite Hother.
    destruct (decide (event ∈ rest)) as [Hin | Hnin].
    + rewrite !bool_decide_eq_true_2; [reflexivity | | exact Hin].
      apply list_elem_of_further. exact Hin.
    + rewrite !bool_decide_eq_false_2; [reflexivity | | exact Hnin].
      intros Hin. apply elem_of_cons in Hin as [? | ?]; [congruence | contradiction].
Qed.

(** X19: a new instance of a dispatcher class is wired by [__new__]: a
    dispatch of [event] calls the instance's attribute of that name when
    [event] is one of the class events and the attribute was not marked
    with [event_typing]; otherwise it calls nothing and returns
    [False]. *)
Theorem new_instance_wires_class_events (class_events : list string)
    (attributes : gmap string (callable * bool)) (event : string)
    (args : Args) (w : World) :
  NoDup class_events ->
  Event.dispatch_event (Event.new_instance class_events attributes) event args w
  = match attributes !! event with
    | Some (func, true) =>
        if bool_decide (event ∈ class_events)
        then Event.call_each [func] args w
        else (Ok false, w)
    | _ => (Ok false, w)
    end.
Proof.
  intros Hnd. unfold Event.new_instance. cbn [Event.dispatch_event].
  rewrite (wired_lookup _ _ _ _ Hnd), lookup_empty.
  destruct (attributes !! event) as [[func []] |];
    destruct (bool_decide (event ∈ class_events)); cbn; try reflexivity.
  destruct (func args w) as [[[] | e] w']; reflexivity.
Qed.

End Queues.

Lemma pop_event_undoes_add_event_witness :
  exists added popped,
    Event.add_event Event.new "on_draw" (logging "A" true) = Ok added
    /\ Event.pop_event added "on_draw" = Ok (logging "A" true, popped)
    /\ Event.pop_event popped "on_draw" = Raise IndexError
    /\ Event.pop_event (World := list string) (Args := unit) Event.new "on_draw"
       = Raise (AttributeError "popleft").
Proof.
  destruct (pop_event_undoes_add_event (World := list string) (Args := unit)
              ∅ [] "on_draw" (logging "A" true))
    as (added & popped & Hadd & Hpop & _ & _ & Hmissing).
  destruct (Hmissing (lookup_empty _)) as [Hnone Hempty].
  exists added, popped. auto.
Defined.

Lemma new_instance_wires_class_events_witness :
  Event.dispatch_event
    (Event.new_instance ["on_draw"; "on_resize"]
       (<["on_draw" := (logging "drawn" true, true)]>
          (<["on_resize" := (logging "resized" true, false)]> ∅)))
    "on_draw" tt []
  = (Ok true, ["drawn"])
  /\ Event.dispatch_event
       (Event.new_instance ["on_draw"; "on_resize"]
          (<["on_draw" := (logging "drawn" true, true)]>
             (<["on_resize" := (logging "resized" true, false)]> ∅)))
       "on_resize" tt []
     = (Ok false, []).
Proof.
  assert (Hnd : NoDup ["on_draw"; "on_resize"]).
  { apply NoDup_cons. split; [| apply NoDup_singleton].
    intros Hin. apply list_elem_of_singleton in Hin. discriminate Hin. }
  split.
  - rewrite (new_instance_wires_class_events _ _ _ _ _ Hnd). reflexivity.
  - rewrite (new_instance_wires_class_events _ _ _ _ _ Hnd). reflexivity.
Defined.

(** ** kiglent/window/key.py: names of symbols, user keys, key states *)

Lemma key_names_unbound :
  load_global Key.key_globals "_key_names" = Raise (NameError "_key_names")
  /\ load_global Key.key_globals "_motion_names" = Raise (NameError "_motion_names").
Proof. split; vm_compute; reflexivity. Qed.

(** X20: the module never binds the names [_key_names] and
    [_motion_names] that [symbol_string] and [motion_string] read: for
    every symbol below [1 << 32] (every key constant is) [symbol_string]
    raises [NameError], and so does [motion_string] for every motion.
    Were the names bound to mappings, the functions would return the
    name found there, or the number in decimal. *)
Theorem symbol_string_raises_NameError (names motions : gmap Z string)
    (symbol motion : Z) :
  (symbol < 2 ^ 32)%Z ->
  Key.symbol_string Key.key_globals names symbol = Raise (NameError "_key_names")
  /\ Key.motion_string Key.key_globals motions motion
     = Raise (NameError "_motion_names")
  /\ Key.symbol_string ("_key_names" :: Key.key_globals) names symbol
     = Ok (default (pretty symbol) (names !! symbol))
  /\ Key.motion_string ("_motion_names" :: Key.key_globals) motions motion
     = Ok (default (pretty motion) (motions !! motion)).
Proof.
  intros Hlow. destruct key_names_unbound as [Hk Hm].
  unfold Key.symbol_string, Key.motion_string.
  replace (symbol <? Z.shiftl 1 32)%Z with true
    by (symmetry; apply Z.ltb_lt; exact Hlow).
  rewrite Hk, Hm. repeat split.
Qed.

Lemma symbol_string_raises_NameError_witness :
  Key.symbol_string Key.key_globals ∅ 65288 = Raise (NameError "_key_names")
  /\ Key.motion_string Key.key_globals ∅ 65362 = Raise (NameError "_motion_names").
Proof.
  destruct (symbol_string_raises_NameError ∅ ∅ 65288 65362) as (Hs & Hm & _).
  - reflexivity.
  - split; [exact Hs | exact Hm].
Defined.



Section KeyStates.
Import Key.KeyStateHandler.

Lemma getitem_receive (self : t) (n : notice) (key : Z) :
  getitem (receive self n) key
  = match n with
    | KeyPress symbol _ => if decide (symbol = key) then true else getitem self key
    | KeyRelease symbol _ => if decide (symbol = key) then false else getitem self key
    | Deactivate => false
    end.
Proof.
  destruct n as [symbol m | symbol m |];
    unfold receive, getitem, on_key_press, on_key_release, on_deactivate, t in *.
  - destruct (decide (symbol = key)) as [-> | Hne].
    + rewrite lookup_insert_eq. reflexivity.
    + rewrite lookup_insert_ne by exact Hne. reflexivity.
  - destruct (decide (symbol = key)) as [-> | Hne].
    + rewrite lookup_insert_eq. reflexivity.
    + rewrite lookup_insert_ne by exact Hne. reflexivity.
  - rewrite lookup_empty. reflexivity.
Qed.

Lemma last_notice (trace before after : list notice) (n p : notice) :
  trace ++ [n] = before ++ p :: after ->
  (after = [] /\ n = p /\ trace = before)
  \/ exists after', after = after' ++ [n] /\ trace = before ++ p :: after'.
Proof.
  intros Heq. destruct after as [| a after _] using rev_ind.
  - left. apply app_inj_tail in Heq as [-> <-]. auto.
  - right. exists after.
    change (before ++ p :: after ++ [a]) with (before ++ (p :: after) ++ [a]) in Heq.
    rewrite app_assoc in Heq. apply app_inj_tail in Heq as [-> ->]. auto.
Qed.

Lemma pressed_and_kept_longer (key : Z) (trace : list notice) (n : notice) :
  keeps key n -> (forall m, n <> KeyPress key m) ->
  pressed_and_kept key trace <-> pressed_and_kept key (trace ++ [n]).
Proof.
  intros Hn Hpress. split.
  - intros (before & m & after & -> & Hall).
    exists before, m, (after ++ [n]). split.
    + rewrite <- app_assoc. reflexivity.
    + apply Forall_app. split; [exact Hall | constructor; [exact Hn | constructor]].
  - intros (before & m & after & Heq & Hall).
    destruct (last_notice _ _ _ _ _ Heq) as [(_ & Hp & _) | (after' & -> & ->)].
    + destruct (Hpress m Hp).
    + exists before, m, after'. split; [reflexivity |].
      apply Forall_app in Hall as [Hall _]. exact Hall.
Qed.

Lemma pressed_and_let_go (key : Z) (trace : list notice) (n : notice) :
  ~ keeps key n -> (forall m, n <> KeyPress key m) ->
  ~ pressed_and_kept key (trace ++ [n]).
Proof.
  intros Hn Hpress (before & m & after & Heq & Hall).
  destruct (last_notice _ _ _ _ _ Heq) as [(_ & Hp & _) | (after' & -> & _)].
  - destruct (Hpress m Hp).
  - apply Forall_app in Hall as [_ Hall]. inversion Hall. contradiction.
Qed.

(** X22: after any sequence of key presses, key releases and
    deactivations, a [KeyStateHandler] holds [True] for a key exactly
    when the key was pressed and since then neither released nor the
    window deactivated. *)
Theorem KeyStateHandler_held (trace : list notice) (key : Z) :
  getitem (foldl receive init trace) key = true <-> pressed_and_kept key trace.
Proof.
  induction trace as [| n trace IH] using rev_ind.
  - cbn. unfold getitem, init, t. rewrite lookup_empty. split; [discriminate |].
    intros (before & m & after & Heq & _). destruct before; discriminate Heq.
  - rewrite foldl_app. cbn [foldl]. rewrite getitem_receive.
    destruct n as [symbol m | symbol m |].
    + destruct (decide (symbol = key)) as [-> | Hne].
      * split; [| reflexivity]. intros _. exists trace, m, []. auto.
      * rewrite IH. apply pressed_and_kept_longer.
        -- split; [discriminate | discriminate].
        -- intros m' E. injection E as E _. contradiction.
    + destruct (decide (symbol = key)) as [-> | Hne].
      * split; [discriminate |]. intros Hp. exfalso.
        revert Hp. apply pressed_and_let_go; [| discriminate].
        intros [_ Hk]. exact (Hk m eq_refl).
      * rewrite IH. apply pressed_and_kept_longer.
        -- split; [discriminate |]. intros m' E. injection E as E _. contradiction.
        -- discriminate.
    + split; [discriminate |]. intros Hp. exfalso.
      revert Hp. apply pressed_and_let_go; [| discriminate].
      intros [Hd _]. exact (Hd eq_refl).
Qed.

End KeyStates.

(** Shift pressed, A pressed, shift released: A is held, shift is not. *)
Example KeyStateHandler_held_A :
  let trace := [Key.KeyStateHandler.KeyPress 65505 0;
                Key.KeyStateHandler.KeyPress 97 1;
                Key.KeyStateHandler.KeyRelease 65505 1] in
  Key.KeyStateHandler.getitem
    (foldl Key.KeyStateHandler.receive Key.KeyStateHandler.init trace) 97 = true
  /\ Key.KeyStateHandler.getitem
       (foldl Key.KeyStateHandler.receive Key.KeyStateHandler.init trace) 65505 = false.
Proof. split; reflexivity. Qed.

Lemma dispatch_to_EventHandler {World Args : Type}
    (methods : gmap string (Event.callable World Args)) (event : string)
    (args : Args) (w : World) :
  Event.dispatch_event (Event.EventHandler methods) event args w
  = match methods !! event with
    | Some method => method args w
    | None => (Raise (AttributeError event), w)
    end.
Proof. reflexivity. Qed.

(** X23: a [KeyStateHandler] pushed on a dispatcher records the key
    events that reach it and lets them pass on to the handlers pushed
    before it (its methods return [None]); but for any other event whose
    name begins with [on_] and that no callable before the handler has
    handled, the dispatch raises [AttributeError]: the handler has no
    such method, and [EventHandler.dispatch_event] looks it up
    unguarded.  ([data'] is the handler's state once the dispatcher's
    own callables, none of which handles the event, have run.) *)
Theorem KeyStateHandler_downstream
    (events : gmap string (list (Event.callable Key.KeyStateHandler.t (list Z))))
    (later : list (Event.handler Key.KeyStateHandler.t (list Z)))
    (event : string) (args : list Z) (data data' : Key.KeyStateHandler.t) :
  Event.all_falsy args (default [] (events !! event)) data data' ->
  String.prefix "on_" event = true ->
  Event.dispatch_event
    (Event.EventDispatcher events (Key.KeyStateHandler.as_handler :: later))
    event args data
  = if decide (event = "on_key_press") then
      match args with
      | [symbol; modifiers] =>
          Event.dispatch_event (Event.EventDispatcher ∅ later) event args
            (Key.KeyStateHandler.on_key_press data' symbol modifiers)
      | _ => (Raise TypeError, data')
      end
    else if decide (event = "on_key_release") then
      match args with
      | [symbol; modifiers] =>
          Event.dispatch_event (Event.EventDispatcher ∅ later) event args
            (Key.KeyStateHandler.on_key_release data' symbol modifiers)
      | _ => (Raise TypeError, data')
      end
    else if decide (event = "on_deactivate") then
      match args with
      | [] =>
          Event.dispatch_event (Event.EventDispatcher ∅ later) event args
            (Key.KeyStateHandler.on_deactivate data')
      | _ => (Raise TypeError, data')
      end
    else (Raise (AttributeError event), data').
Proof.
  intros Hlocal _. cbn [Event.dispatch_event].
  rewrite (call_each_all_falsy _ _ _ _ Hlocal), lookup_empty.
  cbn [default Event.call_each].
  unfold Key.KeyStateHandler.as_handler. rewrite dispatch_to_EventHandler.
  destruct (decide (event = "on_key_press")) as [-> | Hp].
  { rewrite lookup_insert_eq. unfold Key.KeyStateHandler.on_key_press_method.
    destruct args as [| s [| m [| ? ?]]]; reflexivity. }
  rewrite lookup_insert_ne by congruence.
  destruct (decide (event = "on_key_release")) as [-> | Hr].
  { rewrite lookup_insert_eq. unfold Key.KeyStateHandler.on_key_release_method.
    destruct args as [| s [| m [| ? ?]]]; reflexivity. }
  rewrite lookup_insert_ne by congruence.
  destruct (decide (event = "on_deactivate")) as [-> | Hd].
  { rewrite lookup_insert_eq. unfold Key.KeyStateHandler.on_deactivate_method.
    destruct args as [| s ?]; reflexivity. }
  rewrite lookup_insert_ne by congruence. rewrite lookup_empty. reflexivity.
Qed.

Lemma KeyStateHandler_downstream_witness :
  Event.dispatch_event
    (Event.EventDispatcher ∅ [Key.KeyStateHandler.as_handler])
    "on_key_press" [97; 0]%Z Key.KeyStateHandler.init
  = (Ok false, Key.KeyStateHandler.on_key_press Key.KeyStateHandler.init 97 0)
  /\ Event.dispatch_event
       (Event.EventDispatcher ∅ [Key.KeyStateHandler.as_handler])
       "on_mouse_press" [10; 20; 1; 0]%Z Key.KeyStateHandler.init
     = (Raise (AttributeError "on_mouse_press"), Key.KeyStateHandler.init).
Proof.
  split.
  - rewrite (KeyStateHandler_downstream ∅ [] "on_key_press" [97; 0]%Z
               Key.KeyStateHandler.init Key.KeyStateHandler.init).
    + reflexivity.
    + rewrite lookup_empty. constructor.
    + reflexivity.
  - rewrite (KeyStateHandler_downstream ∅ [] "on_mouse_press" [10; 20; 1; 0]%Z
               Key.KeyStateHandler.init Key.KeyStateHandler.init).
    + reflexivity.
    + rewrite lookup_empty. constructor.
    + reflexivity.
Defined.

(** ** shapes/rectangle.py and shapes/__init__.py: a rectangle's anchor,
    size and colour *)

Section Rectangles.
Context {F : Type} `{NumLaws F}.
Add Field rectangle_field_structure : num_field.
Local Open Scope num_scope.

(** In exact arithmetic [a / w * v / v] is [a / w]. *)
Lemma anchor_scale_kept (a w v : F) :
  w <> zero -> v <> zero ->
  truediv (num_div a w * v) v = truediv a w.
Proof.
  intros Hw Hv.
  rewrite !truediv_nonzero by (apply num_eqb_false; assumption).
  f_equal. field. split; assumption.
Qed.

(** In exact arithmetic [h * v / h] is [v]. *)
Lemma anchor_scale_read (h v : F) :
  h <> zero -> truediv (h * v) h = Ok v.
Proof.
  intros Hh. rewrite (truediv_nonzero _ _ (num_eqb_false _ _ Hh)).
  f_equal. field. exact Hh.
Qed.

End Rectangles.

Section RectangleAnchors.
Context {F : Type} `{Num F}.
Local Open Scope num_scope.

(** X24: setting [width_anchored] moves the anchor with the width, and
    [update(width_anchored=...)] does the same.  On a rectangle whose
    width compares equal to 0 both raise [ZeroDivisionError].  Otherwise
    the rectangle gets the new width, its anchor becomes
    [anchor_x / width * value], and the corners of the vertex list are
    recomputed; reading [anchor_scale_x] (anchor over width) then raises
    [ZeroDivisionError] when the new width compares equal to 0, and, in
    exact arithmetic, gives what it gave before when the new width is
    not 0. *)
Theorem Rectangle_width_anchored (r : Rectangle.t F) (value : F) :
  (num_eqb (Rectangle._width r) zero = true ->
   Rectangle.set_width_anchored value r = Raise ZeroDivisionError
   /\ Rectangle.update r (change_width_anchored value) = Raise ZeroDivisionError)
  /\ (num_eqb (Rectangle._width r) zero = false ->
      exists r',
        Rectangle.set_width_anchored value r = Ok r'
        /\ Rectangle.update r (change_width_anchored value) = Ok r'
        /\ Rectangle._width r' = value
        /\ Rectangle._anchor_x r'
           = num_div (Rectangle._anchor_x r) (Rectangle._width r) * value
        /\ Rectangle.position (Rectangle._vertex_list r') = Rectangle._get_vertices r'
        /\ (num_eqb value zero = true ->
            Rectangle.anchor_scale_x r' = Raise ZeroDivisionError)
        /\ (NumLaws F -> value <> zero ->
            Rectangle.anchor_scale_x r' = Rectangle.anchor_scale_x r)).
Proof.
  destruct r as [x y z w h ax ay rot vis rgba n vl]. cbn [Rectangle._width]. split.
  - intros Hw. unfold Rectangle.set_width_anchored, Rectangle.update, truediv.
    cbn. rewrite Hw. split; reflexivity.
  - intros Hw. unfold Rectangle.set_width_anchored, Rectangle.update.
    cbn. unfold truediv at 1 2. rewrite Hw. cbn.
    eexists. split; [reflexivity |]. split; [reflexivity |].
    split; [reflexivity |]. split; [reflexivity |]. split; [reflexivity |].
    unfold Rectangle.anchor_scale_x. cbn. split.
    + intros Hv. unfold truediv. rewrite Hv. reflexivity.
    + intros Hexact Hv. apply anchor_scale_kept; [| exact Hv].
      intros ->. rewrite num_eqb_refl in Hw. discriminate Hw.
Qed.

(** X25: the setter of [anchor_scale_y] puts the anchor at the height
    times the scale; [update(anchor_scale_y=...)] puts it at the WIDTH
    times the scale, so that [anchor_scale_y] then reads
    [width * scale / height]: the two leave the same rectangle only when
    [width * scale] is [height * scale].  Reading [anchor_scale_y] raises
    [ZeroDivisionError] on a rectangle whose height compares equal to 0.
    For [anchor_scale_x] the setter and [update] agree.  In exact
    arithmetic, on a rectangle whose height is not 0, reading
    [anchor_scale_y] after the setter gives the scale back. *)
Theorem Rectangle_update_anchor_scale_y (r : Rectangle.t F) (value : F) :
  exists updated,
    Rectangle.update r (change_anchor_scale_x value)
    = Ok (Rectangle.set_anchor_scale_x value r)
    /\ Rectangle.update r (change_anchor_scale_y value) = Ok updated
    /\ Rectangle._anchor_y (Rectangle.set_anchor_scale_y value r)
       = Rectangle._height r * value
    /\ Rectangle._anchor_y updated = Rectangle._width r * value
    /\ (updated = Rectangle.set_anchor_scale_y value r
        <-> Rectangle._width r * value = Rectangle._height r * value)
    /\ (num_eqb (Rectangle._height r) zero = true ->
        Rectangle.anchor_scale_y updated = Raise ZeroDivisionError
        /\ Rectangle.anchor_scale_y (Rectangle.set_anchor_scale_y value r)
           = Raise ZeroDivisionError)
    /\ (num_eqb (Rectangle._height r) zero = false ->
        Rectangle.anchor_scale_y updated
        = Ok (num_div (Rectangle._width r * value) (Rectangle._height r))
        /\ Rectangle.anchor_scale_y (Rectangle.set_anchor_scale_y value r)
           = Ok (num_div (Rectangle._height r * value) (Rectangle._height r)))
    /\ (NumLaws F -> Rectangle._height r <> zero ->
        Rectangle.anchor_scale_y (Rectangle.set_anchor_scale_y value r) = Ok value).
Proof.
  destruct r as [x y z w h ax ay rot vis rgba n vl].
  cbn [Rectangle._height Rectangle._width].
  eexists.
  split; [reflexivity |]. split; [reflexivity |]. split; [reflexivity |].
  split; [reflexivity |].
  split.
  { split.
    - intros Heq. apply (f_equal Rectangle._anchor_y) in Heq. exact Heq.
    - intros Heq. unfold Rectangle.set_anchor_scale_y, Rectangle._update_vertices,
        Rectangle._get_vertices. cbn. rewrite Heq. reflexivity. }
  split.
  { intros Hh. unfold Rectangle.anchor_scale_y, truediv. cbn. rewrite Hh.
    split; reflexivity. }
  split.
  { intros Hh. unfold Rectangle.anchor_scale_y, truediv. cbn. rewrite Hh.
    split; reflexivity. }
  intros Hexact Hh. unfold Rectangle.anchor_scale_y. cbn.
  apply anchor_scale_read. exact Hh.
Qed.

End RectangleAnchors.

Lemma Rectangle_width_anchored_witness :
  exists r',
    Rectangle.set_width_anchored (num_of_Z 8) a_rectangle = Ok r'
    /\ Rectangle.anchor_scale_x r' = Rectangle.anchor_scale_x a_rectangle.
Proof.
  destruct (Rectangle_width_anchored (F := Qc) a_rectangle (num_of_Z 8)) as [_ Hregular].
  destruct Hregular as (r' & Hset & _ & _ & _ & _ & _ & Hscale);
    [vm_compute; reflexivity |].
  exists r'. split; [exact Hset |].
  apply Hscale; [exact _ | apply Qc_nonzero; reflexivity].
Defined.

Lemma Rectangle_update_anchor_scale_y_witness :
  exists updated,
    Rectangle.update a_rectangle (change_anchor_scale_y one) = Ok updated
    /\ Rectangle._anchor_y updated = num_of_Z 4
    /\ Rectangle._anchor_y (Rectangle.set_anchor_scale_y one a_rectangle) = num_of_Z 2
    /\ Rectangle.anchor_scale_y (Rectangle.set_anchor_scale_y one a_rectangle) = Ok one.
Proof.
  destruct (Rectangle_update_anchor_scale_y (F := Qc) a_rectangle one)
    as (updated & _ & Hupdate & _ & Hanchor & _ & _ & _ & Hread).
  exists updated. split; [exact Hupdate |]. split; [| split].
  - rewrite Hanchor. apply Qc_is_canon. vm_compute. reflexivity.
  - apply Qc_is_canon. vm_compute. reflexivity.
  - apply Hread; [exact _ | apply Qc_nonzero; reflexivity].
Defined.

Section RectangleColours.
Context {F : Type} `{Num F}.
Local Open Scope num_scope.

(** X26: assigning an RGB tuple to [color] keeps the opacity and an RGBA
    tuple replaces it; [update(color=...)] keeps the opacity for both:
    it drops the alpha of an RGBA tuple, and only [update(color=...,
    opacity=...)] changes the opacity.  Each time the colours of the
    vertex list become the new colour, once for each vertex. *)
Theorem Rectangle_color_alpha (r : Rectangle.t F)
    (red green blue alpha kept opacity : Z) :
  Rectangle.opacity r = Ok kept ->
  exists rgb rgba both,
    Rectangle.set_color [red; green; blue] r = Ok rgb
    /\ Rectangle._rgba rgb = [red; green; blue; kept]
    /\ Rectangle.set_color [red; green; blue; alpha] r = Ok rgba
    /\ Rectangle._rgba rgba = [red; green; blue; alpha]
    /\ Rectangle.update r (change_color [red; green; blue] None) = Ok rgb
    /\ Rectangle.update r (change_color [red; green; blue; alpha] None) = Ok rgb
    /\ Rectangle.update r (change_color [red; green; blue; alpha] (Some opacity))
       = Ok both
    /\ Rectangle._rgba both = [red; green; blue; opacity]
    /\ Forall (fun shape =>
                 Rectangle.colors (Rectangle._vertex_list shape)
                 = Rectangle.times (Rectangle._rgba shape) (Rectangle._num_verts r))
         [rgb; rgba; both].
Proof.
  destruct r as [x y z w h ax ay rot vis color n vl].
  unfold Rectangle.opacity. cbn [Rectangle._rgba]. intros Hkept.
  unfold Rectangle.set_color, Rectangle.update. cbn. rewrite Hkept. cbn.
  do 3 eexists. repeat (split; [reflexivity |]).
  repeat constructor.
Qed.

Lemma given_keeps {A : Type} (P : bool -> Rectangle.t F -> Prop) (value : option A)
    (assign : A -> Rectangle.t F -> Rectangle.t F) (self self' : Rectangle.t F)
    (flag flag' : bool) :
  Rectangle.given value assign (self, flag) = (self', flag') ->
  P flag self -> (forall a, P true (assign a self)) -> P flag' self'.
Proof.
  intros Hg Hp Ha. destruct value as [a |]; cbn in Hg; injection Hg as <- <-.
  - apply Ha.
  - exact Hp.
Qed.

Lemma given_or_raise_keeps {A : Type} (P : bool -> Rectangle.t F -> Prop)
    (value : option A) (assign : A -> Rectangle.t F -> result (Rectangle.t F))
    (self self' : Rectangle.t F) (flag flag' : bool) :
  Rectangle.given_or_raise value assign (self, flag) = Ok (self', flag') ->
  P flag self -> (forall a s, assign a self = Ok s -> P true s) -> P flag' self'.
Proof.
  intros Hg Hp Ha. destruct value as [a |]; cbn in Hg.
  - destruct (assign a self) as [s | e] eqn:E; cbn in Hg; [| discriminate Hg].
    injection Hg as <- <-. eapply Ha. exact E.
  - injection Hg as <- <-. exact Hp.
Qed.

Ltac four t1 t2 t3 t4 := split; [t1 | split; [t2 | split; [t3 | t4]]].

(** One more geometry keyword of [update] taken in: the corners are
    pending, the rest is in step. *)
Ltac geometry_step E Hinv :=
  match type of Hinv with
  | in_step_but _ _ ?n _ =>
      apply (given_keeps (fun flag => in_step_but false flag n)) in E;
      [ clear Hinv
      | exact Hinv
      | let a := fresh "a" in
        intros a; destruct Hinv as (Hn & _ & Hc & Ht);
        four ltac:(exact Hn) ltac:(discriminate) ltac:(exact Hc) ltac:(exact Ht) ]
  end.

(** X27: [update] keeps the vertex list in step with the rectangle:
    whatever keywords are given, if the vertex list held the corners,
    the colours and the translations that the attributes say before the
    call, and the call returns, it holds those of the new attributes
    after it; the number of vertices does not change. *)
Theorem Rectangle_update_in_step (r r' : Rectangle.t F) (c : Rectangle.changes F) :
  in_step r -> Rectangle.update r c = Ok r' ->
  in_step r' /\ Rectangle._num_verts r' = Rectangle._num_verts r.
Proof.
  intros (Hpos & Hcol & Htr) Hupd. unfold Rectangle.update in Hupd.
  assert (H0 : in_step_but false false (Rectangle._num_verts r) r).
  { four ltac:(reflexivity) ltac:(intros _; exact Hpos) ltac:(exact Hcol)
         ltac:(intros _; exact Htr). }
  destruct (Rectangle.given (Rectangle.x c) Rectangle.with_x (r, false))
    as [s1 f1] eqn:E1.
  apply (given_keeps (fun flag => in_step_but flag false (Rectangle._num_verts r)))
    in E1;
    [| exact H0
     | intros a; destruct H0 as (Hn & Hp & Hc & _);
       four ltac:(exact Hn) ltac:(intros _; exact (Hp eq_refl)) ltac:(exact Hc)
            ltac:(discriminate)].
  clear H0 Hpos Hcol Htr.
  destruct (Rectangle.given (Rectangle.y c) Rectangle.with_y (s1, f1))
    as [s2 f2] eqn:E2.
  apply (given_keeps (fun flag => in_step_but flag false (Rectangle._num_verts r)))
    in E2;
    [| exact E1
     | intros a; destruct E1 as (Hn & Hp & Hc & _);
       four ltac:(exact Hn) ltac:(intros _; exact (Hp eq_refl)) ltac:(exact Hc)
            ltac:(discriminate)].
  clear E1.
  set (s3 := if f2 then Rectangle._update_translation s2 else s2) in Hupd.
  assert (H3 : in_step_but false false (Rectangle._num_verts r) s3).
  { subst s3. destruct E2 as (Hn & Hp & Hc & Ht). destruct f2.
    - four ltac:(exact Hn) ltac:(intros _; exact (Hp eq_refl)) ltac:(exact Hc)
           ltac:(intros _; reflexivity).
    - four ltac:(exact Hn) ltac:(exact Hp) ltac:(exact Hc) ltac:(exact Ht). }
  clearbody s3. clear E2.
  set (s4 := match Rectangle.z c with
             | Some z => Rectangle.set_z z s3
             | None => s3
             end) in Hupd.
  assert (H4 : in_step_but false false (Rectangle._num_verts r) s4).
  { subst s4. destruct (Rectangle.z c); [| exact H3].
    destruct H3 as (Hn & Hp & Hc & Ht).
    four ltac:(exact Hn) ltac:(exact Hp) ltac:(exact Hc) ltac:(exact Ht). }
  clearbody s4. clear H3.
  destruct (Rectangle.given (Rectangle.width c) Rectangle.with_width (s4, false))
    as [s5 f5] eqn:E5.
  geometry_step E5 H4.
  destruct (Rectangle.given (Rectangle.height c) Rectangle.with_height (s5, f5))
    as [s6 f6] eqn:E6.
  geometry_step E6 E5.
  destruct (Rectangle.given (Rectangle.anchor_x c) Rectangle.with_anchor_x (s6, f6))
    as [s7 f7] eqn:E7.
  geometry_step E7 E6.
  destruct (Rectangle.given (Rectangle.anchor_y c) Rectangle.with_anchor_y (s7, f7))
    as [s8 f8] eqn:E8.
  geometry_step E8 E7.
  match type of Hupd with
  | (mbind _ ?first) = _ => destruct first as [[s9 f9] | e] eqn:E9; [| discriminate Hupd]
  end.
  apply (given_or_raise_keeps (fun flag => in_step_but false flag (Rectangle._num_verts r)))
    in E9;
    [| exact E8
     | intros a s Hs;
       destruct (truediv (Rectangle._anchor_x s8) (Rectangle._width s8));
       [| discriminate Hs];
       cbn in Hs; injection Hs as <-; destruct E8 as (Hn & _ & Hc & Ht);
       four ltac:(exact Hn) ltac:(discriminate) ltac:(exact Hc) ltac:(exact Ht)].
  clear E8. cbn [mbind result_bind] in Hupd.
  match type of Hupd with
  | (mbind _ ?first) = _ => destruct first as [[s10 f10] | e] eqn:E10; [| discriminate Hupd]
  end.
  apply (given_or_raise_keeps (fun flag => in_step_but false flag (Rectangle._num_verts r)))
    in E10;
    [| exact E9
     | intros a s Hs;
       destruct (truediv (Rectangle._anchor_y s9) (Rectangle._height s9));
       [| discriminate Hs];
       cbn in Hs; injection Hs as <-; destruct E9 as (Hn & _ & Hc & Ht);
       four ltac:(exact Hn) ltac:(discriminate) ltac:(exact Hc) ltac:(exact Ht)].
  clear E9. cbn [mbind result_bind] in Hupd.
  match type of Hupd with
  | context [Rectangle.given (Rectangle.to_anchor_scale_x c) ?assign (s10, f10)] =>
      destruct (Rectangle.given (Rectangle.to_anchor_scale_x c) assign (s10, f10))
        as [s11 f11] eqn:E11
  end.
  geometry_step E11 E10.
  match type of Hupd with
  | context [Rectangle.given (Rectangle.to_anchor_scale_y c) ?assign (s11, f11)] =>
      destruct (Rectangle.given (Rectangle.to_anchor_scale_y c) assign (s11, f11))
        as [s12 f12] eqn:E12
  end.
  geometry_step E12 E11.
  destruct (Rectangle.given (Rectangle.visible c) Rectangle.with_visible (s12, f12))
    as [s13 f13] eqn:E13.
  geometry_step E13 E12.
  set (s14 := if f13 then Rectangle._update_vertices s13 else s13) in Hupd.
  assert (H14 : in_step_but false false (Rectangle._num_verts r) s14).
  { subst s14. destruct E13 as (Hn & Hp & Hc & Ht). destruct f13.
    - four ltac:(exact Hn) ltac:(intros _; reflexivity) ltac:(exact Hc) ltac:(exact Ht).
    - four ltac:(exact Hn) ltac:(exact Hp) ltac:(exact Hc) ltac:(exact Ht). }
  clearbody s14. clear E13.
  set (s15 := match Rectangle.to_rotation c with
              | Some rotation => Rectangle.set_rotation rotation s14
              | None => s14
              end) in Hupd.
  assert (H15 : in_step_but false false (Rectangle._num_verts r) s15).
  { subst s15. destruct (Rectangle.to_rotation c); [| exact H14].
    destruct H14 as (Hn & Hp & Hc & Ht).
    four ltac:(exact Hn) ltac:(exact Hp) ltac:(exact Hc) ltac:(exact Ht). }
  clearbody s15. clear H14.
  destruct H15 as (Hn & Hp & Hc & Ht). specialize (Hp eq_refl). specialize (Ht eq_refl).
  destruct (Rectangle.color c) as [color |], (Rectangle.to_opacity c) as [opacity |].
  - injection Hupd as <-.
    split; [split; [exact Hp | split; [reflexivity | exact Ht]] | exact Hn].
  - destruct (Rectangle.item3 (Rectangle._rgba s15)) as [alpha | e]; [| discriminate Hupd].
    cbn in Hupd. injection Hupd as <-.
    split; [split; [exact Hp | split; [reflexivity | exact Ht]] | exact Hn].
  - injection Hupd as <-.
    split; [split; [exact Hp | split; [reflexivity | exact Ht]] | exact Hn].
  - injection Hupd as <-.
    split; [split; [exact Hp | split; [exact Hc | exact Ht]] | exact Hn].
Qed.

End RectangleColours.

Lemma Rectangle_color_alpha_witness :
  exists rgb rgba,
    Rectangle.set_color [10; 20; 30; 40]%Z a_rectangle = Ok rgba
    /\ Rectangle._rgba rgba = [10; 20; 30; 40]%Z
    /\ Rectangle.update a_rectangle (change_color [10; 20; 30; 40]%Z None) = Ok rgb
    /\ Rectangle._rgba rgb = [10; 20; 30; 255]%Z.
Proof.
  destruct (Rectangle_color_alpha a_rectangle 10 20 30 40 255 0 eq_refl)
    as (rgb & rgba & _ & _ & Hrgb & Hset & Hrgba & _ & Hupdate & _).
  exists rgb, rgba. auto.
Defined.

Lemma Rectangle_update_in_step_witness :
  exists r',
    Rectangle.update a_rectangle
      (Rectangle.Changes (Some (num_of_Z 3)) None None (Some (num_of_Z 6)) None
         None None None None None None (Some false) None
         (Some [1; 2; 3]%Z) None) = Ok r'
    /\ in_step r' /\ Rectangle._num_verts r' = 6.
Proof.
  assert (Hbefore : in_step a_rectangle) by (repeat split).
  destruct (Rectangle.update a_rectangle
              (Rectangle.Changes (Some (num_of_Z 3)) None None (Some (num_of_Z 6)) None
                 None None None None None None (Some false) None
                 (Some [1; 2; 3]%Z) None)) as [r' | e] eqn:Hupdate;
    [| discriminate Hupdate].
  exists r'. split; [reflexivity |].
  exact (Rectangle_update_in_step a_rectangle r' _ Hbefore Hupdate).
Defined.

(** ** graphics/groups.py: the projection of the window *)

Section GroupStates.
Context {F : Type} `{Num F}.
Local Open Scope num_scope.

Lemma set_state_returns (g : Groups.group F) (projection : Mat4.t F) :
  exists g' projection',
    Groups.set_state g projection = Ok (g', projection')
    /\ Groups.unset_state g' projection' = projection.
Proof.
  destruct projection.
  destruct g as [| x y [[va vb] vc] saved | sx sy [[va vb] vc] saved];
    do 2 eexists; (split; [reflexivity |]); reflexivity.
Qed.

(** X28: for a group with any ancestry of plain, translation and scale
    groups, [set_state_recursive] returns, and [unset_state_recursive]
    after it leaves the window's projection as it was before the two
    calls: what [ShapeBase.draw] does around its draw call does not
    change the projection. *)
Theorem set_state_recursive_restored (self : list (Groups.group F))
    (projection : Mat4.t F) :
  exists self' projection',
    Groups.set_state_recursive self projection = Ok (self', projection')
    /\ length self' = length self
    /\ Groups.unset_state_recursive self' projection' = projection.
Proof.
  revert projection. induction self as [| g parent IH]; intros projection.
  - exists [], projection. repeat split.
  - destruct (IH projection) as (parent' & p1 & Hset & Hlen & Hunset).
    destruct (set_state_returns g p1) as (g' & p2 & Hg & Hug).
    exists (g' :: parent'), p2. split; [| split].
    + cbn. rewrite Hset. cbn. rewrite Hg. reflexivity.
    + cbn. rewrite Hlen. reflexivity.
    + cbn. rewrite Hug. exact Hunset.
Qed.

End GroupStates.

Section GroupAlgebra.
Context {F : Type} `{NumLaws F}.
Add Field group_field_structure : num_field.
Local Open Scope num_scope.

(** A translation group whose parent is a translation group: with both
    set, the projection is the window's translated by the sum of the two
    offsets. *)
Lemma nested_translation_groups (x1 y1 x2 y2 : F)
    (saved1 saved2 projection : Mat4.t F) :
  exists self' projection',
    Groups.set_state_recursive
      [Groups.new_TranslationGroup x2 y2 saved2;
       Groups.new_TranslationGroup x1 y1 saved1] projection
    = Ok (self', projection')
    /\ Mat4.translate projection [x1 + x2; y1 + y2; zero] = Ok projection'
    /\ Groups.unset_state_recursive self' projection' = projection.
Proof.
  destruct projection. do 2 eexists. split; [reflexivity |].
  split; [cbn; f_equal; f_equal; ring | reflexivity].
Qed.

End GroupAlgebra.

(** ** kiglent/shapes/polygon.py: the ray casting of [_point_in_polygon] *)

Section RayCastingTests.
Context {F : Type} `{Num F} `{!NumOrd F}.
Local Open Scope num_scope.

Lemma passes_none_above (upcoming : list (F * F)) (polygon_j point : F * F) (odd : bool) :
  num_ltb (snd point) (snd polygon_j) = false ->
  Forall (fun vertex => num_ltb (snd point) (snd vertex) = false) upcoming ->
  Polygon.passes polygon_j upcoming point odd = Ok odd.
Proof.
  revert polygon_j odd. induction upcoming as [| polygon_i rest IH];
    intros polygon_j odd Hj Hall; [reflexivity |].
  apply Forall_cons in Hall as [Hi Hrest].
  cbn. unfold Polygon.crossing. rewrite Hi, Hj. cbn. apply IH; assumption.
Qed.

End RayCastingTests.

Section RayCasting.
Context {F : Type} `{NumLaws F} `{!NumOrd F}.
Add Field polygon_field_structure : num_field.
Local Open Scope num_scope.

Lemma crossing_returns (polygon_i polygon_j point : F * F) :
  exists crossed, Polygon.crossing polygon_i polygon_j point = Ok crossed.
Proof.
  unfold Polygon.crossing.
  destruct (Bool.eqb (num_ltb (snd point) (snd polygon_i))
                     (num_ltb (snd point) (snd polygon_j))) eqn:E; cbn [negb].
  - eexists. reflexivity.
  - unfold truediv.
    destruct (num_eqb (snd polygon_j - snd polygon_i) zero) eqn:Ez.
    + apply num_eqb_eq in Ez.
      assert (Hy : snd polygon_j = snd polygon_i).
      { transitivity (snd polygon_j - snd polygon_i + snd polygon_i); [ring |].
        rewrite Ez. ring. }
      rewrite Hy, Bool.eqb_reflx in E. discriminate E.
    + eexists. reflexivity.
Qed.

Lemma passes_returns (upcoming : list (F * F)) (polygon_j point : F * F) (odd : bool) :
  exists inside, Polygon.passes polygon_j upcoming point odd = Ok inside.
Proof.
  revert polygon_j odd. induction upcoming as [| polygon_i rest IH]; intros polygon_j odd.
  - eexists. reflexivity.
  - cbn. destruct (crossing_returns polygon_i polygon_j point) as [crossed ->]. cbn.
    apply IH.
Qed.

(** In exact arithmetic [_point_in_polygon] always returns. *)
Lemma point_in_polygon_exact (polygon : list (F * F)) (point : F * F) :
  exists inside, Polygon._point_in_polygon polygon point = Ok inside.
Proof.
  unfold Polygon._point_in_polygon.
  destruct (last polygon) as [polygon_j |]; [apply passes_returns | eexists; reflexivity].
Qed.

Context `{!NumOrdLaws F}.

Lemma ltb_differ (x y : F) : num_ltb x y = true -> x - y <> zero /\ y - x <> zero.
Proof.
  intros Hlt. split; intros Hz.
  - assert (E : x = y) by (transitivity (x - y + y); [ring | rewrite Hz; ring]).
    rewrite E, num_ltb_irrefl in Hlt. discriminate Hlt.
  - assert (E : y = x) by (transitivity (y - x + x); [ring | rewrite Hz; ring]).
    rewrite E, num_ltb_irrefl in Hlt. discriminate Hlt.
Qed.

Lemma vertical_edge (x y y' d : F) :
  d <> zero -> truediv ((x - x) * (y - y')) d = Ok zero.
Proof.
  intros Hd. rewrite (truediv_nonzero _ _ (num_eqb_false _ _ Hd)).
  f_equal. field. exact Hd.
Qed.

(** X30: in exact arithmetic, for the closed outline of an upright
    rectangle, from [(x0, y0)] to [(x1, y1)] with [x0 < x1] and
    [y0 < y1], [_point_in_polygon] returns [True] exactly for the points with
    [x0 <= px < x1] and [y0 <= py < y1]: the left and lower edges count
    as inside, the right and upper ones as outside. *)
Theorem point_in_closed_rectangle (x0 y0 x1 y1 px py : F) :
  num_ltb x0 x1 = true -> num_ltb y0 y1 = true ->
  Polygon._point_in_polygon
    [(x0, y0); (x1, y0); (x1, y1); (x0, y1); (x0, y0)] (px, py)
  = Ok (negb (num_ltb px x0) && num_ltb px x1
        && negb (num_ltb py y0) && num_ltb py y1).
Proof.
  intros Hx Hy.
  assert (Hpx : num_ltb px x0 = true -> num_ltb px x1 = true)
    by (intros Hlt; eapply num_ltb_trans; eassumption).
  assert (Hpy : num_ltb py y0 = true -> num_ltb py y1 = true)
    by (intros Hlt; eapply num_ltb_trans; eassumption).
  destruct (ltb_differ _ _ Hy) as [Hd Hd'].
  unfold Polygon._point_in_polygon. cbn [last tail Polygon.passes].
  unfold Polygon.crossing. cbn [fst snd].
  rewrite !Bool.eqb_reflx. cbn [negb mbind result_bind].
  rewrite !vertical_edge by assumption.
  assert (Hzero : forall x : F, zero + x = x) by (intros x; ring).
  destruct (num_ltb py y0) eqn:E0.
  - rewrite (Hpy eq_refl). cbn. rewrite Bool.andb_false_r. reflexivity.
  - destruct (num_ltb py y1) eqn:E1; cbn; rewrite ?Hzero.
    + destruct (num_ltb px x0) eqn:Ex0.
      * rewrite (Hpx eq_refl). reflexivity.
      * destruct (num_ltb px x1); reflexivity.
    + rewrite Bool.andb_false_r. reflexivity.
Qed.

End RayCasting.

Section RayCastingReturns.
Context {F : Type} `{Num F} `{!NumOrd F}.
Local Open Scope num_scope.

(** X29: [_point_in_polygon] returns [False] when no vertex lies above
    the point and when the polygon has fewer than two vertices; and the
    first vertex of the list is never looked at (the callers close the
    polygon by repeating it at the end).  In exact arithmetic it always
    returns: the division of the test is reached only between two
    vertices of different heights, so it never raises
    [ZeroDivisionError]. *)
Theorem point_in_polygon_returns (polygon : list (F * F)) (point : F * F) :
  (Forall (fun vertex => num_ltb (snd point) (snd vertex) = false) polygon ->
   Polygon._point_in_polygon polygon point = Ok false)
  /\ (length polygon <= 1 -> Polygon._point_in_polygon polygon point = Ok false)
  /\ (forall first other second more,
        Polygon._point_in_polygon (first :: second :: more) point
        = Polygon._point_in_polygon (other :: second :: more) point)
  /\ (NumLaws F ->
      exists inside, Polygon._point_in_polygon polygon point = Ok inside).
Proof.
  split; [| split; [| split]].
  - unfold Polygon._point_in_polygon.
    intros Hall. destruct (last polygon) as [polygon_j |] eqn:El; [| reflexivity].
    apply passes_none_above.
    + apply last_Some in El as [before ->].
      apply Forall_app in Hall as [_ Hlast]. apply Forall_cons in Hlast as [Hlast _].
      exact Hlast.
    + destruct polygon as [| first rest]; [constructor |].
      apply Forall_cons in Hall as [_ Hrest]. exact Hrest.
  - unfold Polygon._point_in_polygon.
    intros Hlen. destruct polygon as [| first [| second rest]]; cbn in Hlen;
      try lia; reflexivity.
  - reflexivity.
  - intros Hexact. apply point_in_polygon_exact.
Qed.

End RayCastingReturns.

Lemma set_state_recursive_restored_witness :
  exists self' projection',
    Groups.set_state_recursive
      [Groups.new_ScaleGroup (num_of_Z 2) (num_of_Z 2) Mat4.identity;
       Groups.Group;
       Groups.new_TranslationGroup one (num_of_Z 3) Mat4.identity] a_projection
    = Ok (self', projection')
    /\ Groups.unset_state_recursive self' projection' = a_projection.
Proof.
  destruct (set_state_recursive_restored
              [Groups.new_ScaleGroup (num_of_Z 2) (num_of_Z 2) Mat4.identity;
               Groups.Group;
               Groups.new_TranslationGroup one (num_of_Z 3) Mat4.identity] a_projection)
    as (self' & projection' & Hset & _ & Hunset).
  exists self', projection'. split; [exact Hset | exact Hunset].
Defined.

Lemma point_in_polygon_returns_witness :
  Polygon._point_in_polygon (F := Qc)
    [(zero, zero); (num_of_Z 4, zero); (zero, num_of_Z 3); (zero, zero)]
    (one, num_of_Z 5)
  = Ok false.
Proof.
  destruct (point_in_polygon_returns (F := Qc)
              [(zero, zero); (num_of_Z 4, zero); (zero, num_of_Z 3); (zero, zero)]
              (one, num_of_Z 5)) as (Habove & _).
  apply Habove. repeat constructor.
Defined.

Lemma point_in_closed_rectangle_witness :
  Polygon._point_in_polygon (F := Qc)
    [(zero, zero); (num_of_Z 4, zero); (num_of_Z 4, num_of_Z 2);
     (zero, num_of_Z 2); (zero, zero)] (one, one)
  = Ok true
  /\ Polygon._point_in_polygon (F := Qc)
       [(zero, zero); (num_of_Z 4, zero); (num_of_Z 4, num_of_Z 2);
        (zero, num_of_Z 2); (zero, zero)] (num_of_Z 4, one)
     = Ok false.
Proof.
  assert (Hx : num_ltb (F := Qc) zero (num_of_Z 4) = true) by (vm_compute; reflexivity).
  assert (Hy : num_ltb (F := Qc) zero (num_of_Z 2) = true) by (vm_compute; reflexivity).
  split.
  - rewrite (point_in_closed_rectangle (F := Qc) zero zero (num_of_Z 4) (num_of_Z 2)
               one one Hx Hy).
    vm_compute. reflexivity.
  - rewrite (point_in_closed_rectangle (F := Qc) zero zero (num_of_Z 4) (num_of_Z 2)
               (num_of_Z 4) one Hx Hy).
    vm_compute. reflexivity.
Defined.
